(** * Crypto payment verification and credit settlement

    A shallow embedding of the crypto-payment core of the poker-assistant
    backend:

    - [utils/cryptoRates]             the price-feed cache
    - [utils/blockchainVerification]  the BEP20 and SOL chain verifiers
    - [models/CryptoPayment], [models/Transaction]  the two collections
    - [routes/payments]               POST /create-crypto-payment and
                                      POST /verify-crypto-transaction

    JavaScript numbers are IEEE-754 binary64 values and are embedded as
    Rocq's primitive [float]; block numbers, slots, lamport balances and
    millisecond timestamps are integers inside the safe range and are
    embedded as [Z].  MongoDB collections are lists of documents in
    insertion order; [async] route handlers become state-passing functions
    in a small monad with early replies and thrown errors. *)

From Stdlib Require Import ZArith List String Ascii Bool Lia Floats DecimalString.
Import ListNotations.

Set Implicit Arguments.
Unset Strict Implicit.

Local Open Scope string_scope.
Local Open Scope Z_scope.

(* ================================================================== *)
(** * JavaScript numbers *)
(* ================================================================== *)

Module Js.

(** The double nearest to the integer [z] (ties to even). *)
Definition of_Z (z : Z) : float :=
  SF2Prim (binary_normalize prec emax z 0 false).

(** The double nearest to the rational [num / den], for [den > 0]. *)
Definition of_ratio (num den : Z) : float :=
  match num, den with
  | Z0, _ => PrimFloat.zero
  | Zpos n, Zpos d =>
      SF2Prim (SFdiv prec emax (S754_finite false n 0) (S754_finite false d 0))
  | Zneg n, Zpos d =>
      SF2Prim (SFdiv prec emax (S754_finite true n 0) (S754_finite false d 0))
  | _, _ => PrimFloat.nan
  end.

(** [x <= y] and friends are the IEEE comparisons: false on NaN. *)
Definition lt (x y : float) : bool := PrimFloat.ltb x y.
Definition le (x y : float) : bool := PrimFloat.leb x y.
Definition gt (x y : float) : bool := PrimFloat.ltb y x.
Definition ge (x y : float) : bool := PrimFloat.leb y x.

Definition isNaN (x : float) : bool := PrimFloat.is_nan x.

(** ToBoolean on a number: [0], [-0] and [NaN] are falsy. *)
Definition truthy (x : float) : bool :=
  negb (PrimFloat.is_zero x || PrimFloat.is_nan x).

(** [Math.floor]. *)
Definition floor (x : float) : float :=
  match Prim2SF x with
  | S754_finite s m e =>
      if 0 <=? e then x
      else
        let n := if s then Z.neg m else Z.pos m in
        of_Z (Z.shiftr n (- e))
  | _ => x
  end.

(** [Math.round]: the nearest integer, ties towards +Infinity; a result of
    zero keeps the sign of the argument. *)
Definition round (x : float) : float :=
  match Prim2SF x with
  | S754_finite s m e =>
      if 0 <=? e then x
      else
        let n := if s then Z.neg m else Z.pos m in
        let q := Z.shiftr (2 * n + Z.shiftl 1 (- e)) (- e + 1) in
        if q =? 0 then (if s then PrimFloat.neg_zero else PrimFloat.zero)
        else of_Z q
  | _ => x
  end.

(** ** Decimal text *)

(** [String(z)] for an integer below [10^21] in magnitude. *)
Definition Z_toString (z : Z) : string := NilZero.string_of_int (Z.to_int z).

Fixpoint zeros (n : nat) : string :=
  match n with O => EmptyString | S k => String "0" (zeros k) end.

Definition len (s : string) : Z := Z.of_nat (String.length s).

(** The first [n] characters and the rest. *)
Definition take (n : Z) (s : string) : string := substring 0 (Z.to_nat n) s.
Definition drop (n : Z) (s : string) : string :=
  substring (Z.to_nat n) (String.length s - Z.to_nat n) s.

(** A finite positive double as an exact fraction [a / b]. *)
Definition exact (m : positive) (e : Z) : Z * Z :=
  if 0 <=? e then (Z.shiftl (Z.pos m) e, 1) else (Z.pos m, Z.shiftl 1 (- e)).

(** The [n] with [10^(n-1) <= a/b < 10^n]. *)
Fixpoint scale_up (fuel : nat) (a b : Z) (n : Z) : Z :=
  match fuel with
  | O => n
  | S k => if a <? b then scale_up k (10 * a) b (n - 1) else n
  end.

Definition decimal_exponent (a b : Z) : Z :=
  if b <=? a then len (Z_toString (a / b))
  else scale_up 400 (10 * a) b 0.

(** The digit string [s * 10^t] as a double. *)
Definition of_decimal (s t : Z) : float :=
  if 0 <=? t then of_ratio (s * 10 ^ t) 1 else of_ratio s (10 ^ (- t)).

(** Number::toString, step 5: the shortest digit string [s] (of [k] digits)
    and exponent [n] with [s * 10^(n-k)] converting back to [x]; among two
    candidates of one length the one closer to [x] is taken. *)
Fixpoint shortest (fuel : nat) (k : Z) (x : float) (a b n : Z) : Z * Z :=
  match fuel with
  | O => (0, n)
  | S fuel' =>
      let t := n - k in
      let lo := if 0 <=? t then a / (b * 10 ^ t) else (a * 10 ^ (- t)) / b in
      let hi := lo + 1 in
      let ok c := (10 ^ (k - 1) <=? c) && PrimFloat.eqb (of_decimal c t) x in
      (* distance to [a/b], scaled by [b * 10^max(0,-t)] *)
      let dist c :=
        if 0 <=? t then Z.abs (c * 10 ^ t * b - a)
        else Z.abs (c * b - a * 10 ^ (- t)) in
      let pick c := if c =? 10 ^ k then (10 ^ (k - 1), n + 1) else (c, n) in
      match ok lo, ok hi with
      | true, true =>
          if dist lo <? dist hi then pick lo
          else if dist hi <? dist lo then pick hi
          else if Z.even lo then pick lo else pick hi
      | true, false => pick lo
      | false, true => pick hi
      | false, false => shortest fuel' (k + 1) x a b n
      end
  end.

(** Trailing zeros of the digit string carry no information. *)
Fixpoint strip_zeros (fuel : nat) (s : Z) : Z :=
  match fuel with
  | O => s
  | S k => if (s mod 10 =? 0) && negb (s =? 0) then strip_zeros k (s / 10) else s
  end.

(** Number::toString on a positive finite double [m * 2^e]. *)
Definition positive_toString (x : float) (m : positive) (e : Z) : string :=
  let '(a, b) := exact m e in
  let n0 := decimal_exponent a b in
  let '(s0, n) := shortest 18 1 x a b n0 in
  let s := strip_zeros 18 s0 in
  let ds := Z_toString s in
  let k := len ds in
  if (k <=? n) && (n <=? 21) then ds ++ zeros (Z.to_nat (n - k))
  else if (0 <? n) && (n <=? 21) then take n ds ++ "." ++ drop n ds
  else if (-6 <? n) && (n <=? 0) then "0." ++ zeros (Z.to_nat (- n)) ++ ds
  else
    let ex := (if 0 <=? n - 1 then "+" else "-") ++ Z_toString (Z.abs (n - 1)) in
    if k =? 1 then ds ++ "e" ++ ex
    else take 1 ds ++ "." ++ drop 1 ds ++ "e" ++ ex.

(** [String(x)], as in a template literal. *)
Definition Number_toString (x : float) : string :=
  match Prim2SF x with
  | S754_nan => "NaN"
  | S754_zero _ => "0"
  | S754_infinity s => if s then "-Infinity" else "Infinity"
  | S754_finite s m e =>
      (if s then "-" else "") ++ positive_toString (PrimFloat.abs x) m e
  end.

(** [x.toFixed(2)]. *)
Definition toFixed2 (x : float) : string :=
  match Prim2SF x with
  | S754_nan => "NaN"
  | S754_infinity s => if s then "-Infinity" else "Infinity"
  | S754_zero _ => "0.00"
  | S754_finite s m e =>
      let '(a, b) := exact m e in
      if 10 ^ 21 * b <=? a then Number_toString x
      else
        (* the integer nearest to [100 * a / b], the larger one on a tie *)
        let n := (200 * a + b) / (2 * b) in
        let ds := Z_toString n in
        let ds := zeros (Z.to_nat (3 - len ds)) ++ ds in
        let k := len ds in
        (if s then "-" else "") ++ take (k - 2) ds ++ "." ++ drop (k - 2) ds
  end.

(** ** Reading numbers *)

Definition digit_of (c : ascii) : option Z :=
  let n := Z.of_nat (nat_of_ascii c) in
  if (48 <=? n) && (n <=? 57) then Some (n - 48) else None.

(** The longest run of decimal digits at the head of [s]: its value
    (continuing from [acc]), its length, and what follows. *)
Fixpoint digits (s : string) (acc : Z) (cnt : Z) : Z * Z * string :=
  match s with
  | String c r =>
      match digit_of c with
      | Some d => digits r (10 * acc + d) (cnt + 1)
      | None => (acc, cnt, s)
      end
  | EmptyString => (acc, cnt, s)
  end.

(** StrWhiteSpaceChar, on the ASCII range. *)
Definition is_space (c : ascii) : bool :=
  let n := nat_of_ascii c in
  (Nat.eqb n 32 || Nat.eqb n 9 || Nat.eqb n 10 || Nat.eqb n 11
   || Nat.eqb n 12 || Nat.eqb n 13)%bool.

Fixpoint trimStart (s : string) : string :=
  match s with
  | String c r => if is_space c then trimStart r else s
  | EmptyString => s
  end.

Definition starts_with (p s : string) : bool := prefix p s.

(** The exponent part [e[+-]digits], when one is present. *)
Definition exponent_part (s : string) : Z :=
  match s with
  | String c r =>
      if (Ascii.eqb c "e" || Ascii.eqb c "E")%bool then
        let '(sg, r') :=
          match r with
          | String "+" r' => (1, r')
          | String "-" r' => (-1, r')
          | _ => (1, r)
          end in
        let '(v, cnt, _) := digits r' 0 0 in
        if cnt =? 0 then 0 else sg * v
      else 0
  | EmptyString => 0
  end.

(** [parseFloat]: the longest prefix that is a decimal literal, [NaN] when
    there is none. *)
Definition parseFloat (str : string) : float :=
  let s := trimStart str in
  let '(neg, s) :=
    match s with
    | String "-" r => (true, r)
    | String "+" r => (false, r)
    | _ => (false, s)
    end in
  let sign (x : float) := if neg then PrimFloat.opp x else x in
  if starts_with "Infinity" s then sign PrimFloat.infinity
  else
    let '(ip, ni, r1) := digits s 0 0 in
    let '(m, nf, r2) :=
      match r1 with
      | String "." r => digits r ip 0
      | _ => (ip, 0, r1)
      end in
    if (ni =? 0) && (nf =? 0) then PrimFloat.nan
    else sign (of_decimal m (exponent_part r2 - nf)).

(** [parseInt(s)]: an optional sign and the leading decimal digits ([0x]
    introduces hexadecimal ones); [None] stands for [NaN]. *)
Definition hex_of (c : ascii) : option Z :=
  let n := Z.of_nat (nat_of_ascii c) in
  if (48 <=? n) && (n <=? 57) then Some (n - 48)
  else if (97 <=? n) && (n <=? 102) then Some (n - 87)
  else if (65 <=? n) && (n <=? 70) then Some (n - 55)
  else None.

Fixpoint hex_digits (s : string) (acc : Z) (cnt : Z) : Z * Z :=
  match s with
  | String c r =>
      match hex_of c with
      | Some d => hex_digits r (16 * acc + d) (cnt + 1)
      | None => (acc, cnt)
      end
  | EmptyString => (acc, cnt)
  end.

Definition parseInt (str : string) : option Z :=
  let s := trimStart str in
  let '(sg, s) :=
    match s with
    | String "-" r => (-1, r)
    | String "+" r => (1, r)
    | _ => (1, s)
    end in
  let '(v, cnt) :=
    match s with
    | String "0" (String "x" r) | String "0" (String "X" r) => hex_digits r 0 0
    | _ => let '(v, cnt, _) := digits s 0 0 in (v, cnt)
    end in
  if cnt =? 0 then None else Some (sg * v).

(** ToNumber on a value that is a number or [null]. *)
Definition num (o : option float) : float :=
  match o with Some x => x | None => PrimFloat.zero end.

(** ** Strings *)

Definition lower (c : ascii) : ascii :=
  let n := nat_of_ascii c in
  if (Nat.leb 65 n && Nat.leb n 90)%bool then ascii_of_nat (n + 32) else c.

Fixpoint toLowerCase (s : string) : string :=
  match s with
  | String c r => String (lower c) (toLowerCase r)
  | EmptyString => EmptyString
  end.

(** [s.slice(-n)]: the last [n] characters. *)
Definition slice_last (n : Z) (s : string) : string :=
  if len s <=? n then s else drop (len s - n) s.

(** [s.substr(from, n)]. *)
Definition substr (from n : Z) (s : string) : string :=
  substring (Z.to_nat from) (Z.to_nat n) s.

Definition upper (c : ascii) : ascii :=
  let n := nat_of_ascii c in
  if (Nat.leb 97 n && Nat.leb n 122)%bool then ascii_of_nat (n - 32) else c.

Fixpoint toUpperCase (s : string) : string :=
  match s with
  | String c r => String (upper c) (toUpperCase r)
  | EmptyString => EmptyString
  end.

(** [s.trim().replace(/\s+/g, '')]: every white-space character removed. *)
Fixpoint strip_spaces (s : string) : string :=
  match s with
  | String c r => if is_space c then strip_spaces r else String c (strip_spaces r)
  | EmptyString => EmptyString
  end.

(** A string is truthy when it is not empty. *)
Definition nonempty (s : string) : bool :=
  match s with EmptyString => false | _ => true end.

End Js.

(* ================================================================== *)
(** * Documents and collections *)
(* ================================================================== *)

(** Mongo [ObjectId]s are allocated by a counter kept with the database. *)
Definition ObjectId := nat.

(** [_id.toString()]: 24 hexadecimal digits. *)
Definition hex_digit (n : Z) : ascii :=
  if n <? 10 then ascii_of_nat (Z.to_nat (48 + n))
  else ascii_of_nat (Z.to_nat (87 + n)).

Fixpoint hex (digits : nat) (n : Z) (acc : string) : string :=
  match digits with
  | O => acc
  | S k => hex k (n / 16) (String (hex_digit (n mod 16)) acc)
  end.

Definition ObjectId_toString (i : ObjectId) : string :=
  hex 24 (Z.of_nat i) EmptyString.

(** Thrown errors carry their [message]. *)
Inductive Try (A : Type) : Type :=
| Done (a : A)
| Throw (message : string).
Arguments Done {A} a.
Arguments Throw {A} message.

(** ** models/User

    The paths of the account the payment routes read.  The schema declares
    the instance methods [comparePassword] and [getPublicProfile], the
    static [findByEmail] and the virtual [id], and nothing else: a user
    document has no [addQuota] and no [totalSpent] path. *)
Module User.
Record t := mk {
  _id : ObjectId;
  email : string;
  availableUsage : float
}.

Fixpoint findById (l : list t) (i : ObjectId) : option t :=
  match l with
  | [] => None
  | u :: r => if Nat.eqb (_id u) i then Some u else findById r i
  end.

End User.

(** ** models/PaymentPlan *)
Module PaymentPlan.
Record t := mk {
  _id : ObjectId;
  name : string;
  quotaAmount : float;
  price : float;
  isActive : bool
}.

Fixpoint findById (l : list t) (i : ObjectId) : option t :=
  match l with
  | [] => None
  | p :: r => if Nat.eqb (_id p) i then Some p else findById r i
  end.
End PaymentPlan.

(** ** models/CryptoPayment *)

Inductive Network := BEP20 | SOL.

Definition Network_name (n : Network) : string :=
  match n with BEP20 => "BEP20" | SOL => "SOL" end.

Inductive Token := USDT | USDC | SOLcoin.

Definition Token_name (t : Token) : string :=
  match t with USDT => "USDT" | USDC => "USDC" | SOLcoin => "SOL" end.

Inductive Status := pending | processing | confirmed | failed | expired.

Definition Status_eqb (a b : Status) : bool :=
  match a, b with
  | pending, pending | processing, processing | confirmed, confirmed
  | failed, failed | expired, expired => true
  | _, _ => false
  end.

Module CryptoPayment.
Record t := mk {
  _id : ObjectId;
  paymentId : string;
  userId : ObjectId;
  planId : ObjectId;
  network : Network;
  token : Token;
  amount : float;
  walletAddress : string;
  memo : string;
  transactionHash : option string;
  status : Status;
  expiresAt : Z;
  createdAt : Z;
  confirmedAt : option Z;
  verifiedAmount : option float;
  verifiedFromAddress : option string;
  confirmationCount : option Z;
  errorMessage : option string
}.

Definition set_status (p : t) (s : Status) : t :=
  mk (_id p) (paymentId p) (userId p) (planId p) (network p) (token p)
     (amount p) (walletAddress p) (memo p) (transactionHash p) s
     (expiresAt p) (createdAt p) (confirmedAt p) (verifiedAmount p)
     (verifiedFromAddress p) (confirmationCount p) (errorMessage p).

Definition set_transactionHash (p : t) (h : string) : t :=
  mk (_id p) (paymentId p) (userId p) (planId p) (network p) (token p)
     (amount p) (walletAddress p) (memo p) (Some h) (status p)
     (expiresAt p) (createdAt p) (confirmedAt p) (verifiedAmount p)
     (verifiedFromAddress p) (confirmationCount p) (errorMessage p).

Definition set_amount (p : t) (a : float) : t :=
  mk (_id p) (paymentId p) (userId p) (planId p) (network p) (token p)
     a (walletAddress p) (memo p) (transactionHash p) (status p)
     (expiresAt p) (createdAt p) (confirmedAt p) (verifiedAmount p)
     (verifiedFromAddress p) (confirmationCount p) (errorMessage p).

(** [isExpired]: [new Date() > this.expiresAt]. *)
Definition isExpired (now : Z) (p : t) : bool := expiresAt p <? now.

(** [confirm(verifiedAmount, verifiedFromAddress, confirmationCount,
    transactionHash)]. *)
Definition confirm (now : Z) (p : t) (va : option float)
    (from : option string) (count : option Z) (h : string) : t :=
  mk (_id p) (paymentId p) (userId p) (planId p) (network p) (token p)
     (amount p) (walletAddress p) (memo p) (Some h) confirmed
     (expiresAt p) (createdAt p) (Some now) va from count (errorMessage p).

(** [fail(errorMessage)]. *)
Definition fail (p : t) (msg : string) : t :=
  mk (_id p) (paymentId p) (userId p) (planId p) (network p) (token p)
     (amount p) (walletAddress p) (memo p) (transactionHash p) failed
     (expiresAt p) (createdAt p) (confirmedAt p) (verifiedAmount p)
     (verifiedFromAddress p) (confirmationCount p) (Some msg).

(** [findByPaymentId]: [findOne({ paymentId })]. *)
Fixpoint findByPaymentId (l : list t) (pid : string) : option t :=
  match l with
  | [] => None
  | p :: r => if String.eqb (paymentId p) pid then Some p
              else findByPaymentId r pid
  end.

(** [findOne({ transactionHash: h, status: 'confirmed',
    _id: { $ne: self } })]. *)
Definition same_hash (h : string) (p : t) : bool :=
  match transactionHash p with
  | Some h' => String.eqb h' h
  | None => false
  end.

Definition confirmed_elsewhere (h : string) (self : ObjectId) (p : t) : bool :=
  same_hash h p && Status_eqb (status p) confirmed
  && negb (Nat.eqb (_id p) self).

Definition findConfirmedWithHash (l : list t) (h : string) (self : ObjectId)
  : option t := find (confirmed_elsewhere h self) l.

(** A [Number] path does not take [NaN]: the assignment fails to cast, and
    the error surfaces when the document is validated. *)
Definition castable (v : option float) : bool :=
  match v with
  | Some x => negb (Js.isNaN x)
  | None => true
  end.

Fixpoint replace (l : list t) (p : t) : option (list t) :=
  match l with
  | [] => None
  | q :: r =>
      if Nat.eqb (_id q) (_id p) then Some (p :: r)
      else match replace r p with
           | Some r' => Some (q :: r')
           | None => None
           end
  end.

(** [doc.save()] on a loaded document; [assigned] are the numbers assigned
    to it since it was loaded. *)
Definition save (l : list t) (p : t) (assigned : list (option float))
  : Try (list t) :=
  if forallb castable assigned then
    match replace l p with
    | Some l' => Done l'
    | None => Throw "No document found for query"
    end
  else Throw "CryptoPayment validation failed".

(** [create(doc)]: validation, then the unique index on [paymentId]. *)
Definition create (l : list t) (p : t) : Try (list t) :=
  if castable (Some (amount p)) then
    if existsb (fun q => String.eqb (paymentId q) (paymentId p)) l
    then Throw "E11000 duplicate key error: paymentId"
    else Done (l ++ [p])%list
  else Throw "CryptoPayment validation failed".

(** [findPendingPayments(userId)]. *)
Definition findPendingPayments (now : Z) (l : list t) (u : ObjectId)
  : list t :=
  filter (fun p => Nat.eqb (userId p) u && Status_eqb (status p) pending
                   && (now <? expiresAt p)) l.

(** [cleanupExpired]: every pending payment past its expiry becomes
    [expired]; the number modified is returned. *)
Definition stale (now : Z) (p : t) : bool :=
  Status_eqb (status p) pending && (expiresAt p <? now).

Definition cleanupExpired (now : Z) (l : list t) : list t * Z :=
  (map (fun p => if stale now p then set_status p expired else p) l,
   Z.of_nat (List.length (filter (stale now) l))).
End CryptoPayment.

(** ** models/Transaction

    The schema that carries the crypto fields.  Enumerated [String] paths
    stay strings here, because [create] is what checks them. *)
Module Transaction.
Record t := mk {
  _id : ObjectId;
  userId : ObjectId;
  stripePaymentIntentId : option string;
  stripeSessionId : option string;
  cryptoTransactionHash : option string;
  cryptoNetwork : option string;
  cryptoToken : option string;
  amount : float;
  currency : string;
  quotaAmount : float;
  status : string;
  paymentMethod : string;
  description : string;
  metadata : list (string * string);
  failureReason : option string
}.

Definition status_enum : list string :=
  ["pending"; "succeeded"; "failed"; "canceled"; "refunded"].

Definition paymentMethod_enum : list string :=
  ["card"; "apple_pay"; "google_pay"; "crypto"; "other"].

(** [enum: ['SOL', 'USDT', 'USDC', null]]. *)
Definition cryptoNetwork_enum : list string := ["SOL"; "USDT"; "USDC"].

Definition member (v : string) (l : list string) : bool :=
  existsb (String.eqb v) l.

(** Schema validation: [required], [min] and [enum]. *)
Definition valid (d : t) : bool :=
  Js.le 0 (amount d)
  && Js.nonempty (currency d)
  && Js.le 1 (quotaAmount d)
  && member (status d) status_enum
  && member (paymentMethod d) paymentMethod_enum
  && Js.nonempty (description d)
  && match cryptoNetwork d with
     | Some n => member n cryptoNetwork_enum
     | None => true
     end.

(** A unique index with [partialFilterExpression: { f: { $type: 'string' } }]
    on the path [f]: documents whose [f] is a string may not share it;
    documents without it are not indexed. *)
Definition holds (f : t -> option string) (h : string) (q : t) : bool :=
  match f q with
  | Some h' => String.eqb h' h
  | None => false
  end.

Definition index_admits (f : t -> option string) (l : list t) (d : t) : bool :=
  match f d with
  | Some h => negb (existsb (holds f h) l)
  | None => true
  end.

Definition stored (fresh : ObjectId) (d : t) : t :=
  mk fresh (userId d) (stripePaymentIntentId d) (stripeSessionId d)
     (cryptoTransactionHash d) (cryptoNetwork d) (cryptoToken d) (amount d)
     (Js.toUpperCase (currency d)) (quotaAmount d) (status d)
     (paymentMethod d) (description d) (metadata d) (failureReason d).

(** [create(doc)]: validation, then the insert, which the three unique
    partial indexes may refuse. *)
Definition create (l : list t) (fresh : ObjectId) (d : t) : Try (t * list t) :=
  if valid d then
    if index_admits stripePaymentIntentId l d then
      if index_admits stripeSessionId l d then
        if index_admits cryptoTransactionHash l d then
          Done (stored fresh d, (l ++ [stored fresh d])%list)
        else Throw "E11000 duplicate key error: cryptoTransactionHash"
      else Throw "E11000 duplicate key error: stripeSessionId"
    else Throw "E11000 duplicate key error: stripePaymentIntentId"
  else Throw "Transaction validation failed".

(** [findOne({ cryptoTransactionHash: h })]. *)
Definition findByCryptoHash (l : list t) (h : string) : option t :=
  find (holds cryptoTransactionHash h) l.

(** [findOneAndUpdate({ stripePaymentIntentId }, { status, failureReason })],
    as the card webhook issues it: the first match is updated. *)
Definition set_status (d : t) (s : string) (why : option string) : t :=
  mk (_id d) (userId d) (stripePaymentIntentId d) (stripeSessionId d)
     (cryptoTransactionHash d) (cryptoNetwork d) (cryptoToken d) (amount d)
     (currency d) (quotaAmount d) s (paymentMethod d) (description d)
     (metadata d)
     (match why with Some _ => why | None => failureReason d end).

Fixpoint updateStatusByIntent (l : list t) (intent : string) (s : string)
    (why : option string) : list t :=
  match l with
  | [] => []
  | d :: r =>
      if holds stripePaymentIntentId intent d then set_status d s why :: r
      else d :: updateStatusByIntent r intent s why
  end.

(** The hashes the ledger holds, one entry per document that has one. *)
Fixpoint hashes (l : list t) : list string :=
  match l with
  | [] => []
  | d :: r =>
      match cryptoTransactionHash d with
      | Some h => h :: hashes r
      | None => hashes r
      end
  end.
End Transaction.

(** ** The database and the process *)

Record Database := mkDatabase {
  users : list User.t;
  plans : list PaymentPlan.t;
  payments : list CryptoPayment.t;
  transactions : list Transaction.t;
  next_id : ObjectId
}.

(** [process.env], read-only configuration. *)
Record Env := mkEnv {
  BEP20_WALLET_ADDRESS : option string;
  SOL_WALLET_ADDRESS : option string;
  CRYPTO_PAYMENT_EXPIRY_MINUTES : option string;
  BSC_RPC_URL : option string;
  SOLANA_RPC_URL : option string;
  SOL_USD_FALLBACK_RATE : option string;
  USDT_USD_FALLBACK_RATE : option string
}.

(** An environment variable is set when it is a non-empty string. *)
Definition is_set (v : option string) : bool :=
  match v with Some s => Js.nonempty s | None => false end.

(* ================================================================== *)
(** * utils/cryptoRates: the price-feed cache *)
(* ================================================================== *)

Record Entry := mkEntry { value : option float; entry_expiresAt : Z }.

Record Cache := mkCache { solUsd : Entry; usdtUsd : Entry }.

Definition empty_cache : Cache :=
  mkCache (mkEntry None 0) (mkEntry None 0).

Definition ONE_MINUTE_MS : Z := 60 * 1000.

(** What [axios.get] on the feed comes to: a thrown error, or a reply whose
    [data.<asset>.usd] is a number ([Some]) or is not ([None]). *)
Inductive Feed :=
| FeedDown (message : string)
| FeedReply (usd : option float).

(** [cache.x.value && cache.x.expiresAt > now]. *)
Definition fresh (e : Entry) (now : Z) : option float :=
  match value e with
  | Some v => if Js.truthy v && (now <? entry_expiresAt e) then Some v else None
  | None => None
  end.

(** The [try] block: the fetched rate, or the error thrown in it. *)
Definition fetched (feed : Feed) (invalid : string) : Try float :=
  match feed with
  | FeedDown m => Throw m
  | FeedReply None => Throw invalid
  | FeedReply (Some rate) => if Js.le rate 0 then Throw invalid else Done rate
  end.

(** A configured fallback: set, numeric and positive. *)
Definition fallback_of (v : option string) : option float :=
  match v with
  | Some s =>
      if Js.nonempty s then
        let f := Js.parseFloat s in
        if negb (Js.isNaN f) && Js.gt f 0 then Some f else None
      else None
  | None => None
  end.

(** The result of a rate lookup: the value returned or the error thrown,
    the cache afterwards, and whether the feed was requested. *)
Record Lookup := mkLookup {
  rate : Try float;
  cache_after : Cache;
  requested : bool
}.

Definition getSolUsdRate (env : Env) (now : Z) (feed : Feed) (c : Cache)
  : Lookup :=
  match fresh (solUsd c) now with
  | Some v => mkLookup (Done v) c false
  | None =>
      match fetched feed "Invalid SOL/USD rate from provider" with
      | Done r =>
          mkLookup (Done r)
            (mkCache (mkEntry (Some r) (now + ONE_MINUTE_MS)) (usdtUsd c)) true
      | Throw err =>
          match fallback_of (SOL_USD_FALLBACK_RATE env) with
          | Some f => mkLookup (Done f) c true
          | None => mkLookup (Throw err) c true
          end
      end
  end.

Definition getUsdtUsdRate (env : Env) (now : Z) (feed : Feed) (c : Cache)
  : Lookup :=
  match fresh (usdtUsd c) now with
  | Some v => mkLookup (Done v) c false
  | None =>
      match fetched feed "Invalid USDT/USD rate from provider" with
      | Done r =>
          mkLookup (Done r)
            (mkCache (solUsd c) (mkEntry (Some r) (now + ONE_MINUTE_MS))) true
      | Throw _ =>
          let fallback := PrimFloat.one in
          match fallback_of (USDT_USD_FALLBACK_RATE env) with
          | Some envFallback =>
              mkLookup (Done envFallback)
                (mkCache (solUsd c)
                   (mkEntry (Some envFallback) (now + ONE_MINUTE_MS))) true
          | None =>
              mkLookup (Done fallback)
                (mkCache (solUsd c)
                   (mkEntry (Some fallback) (now + ONE_MINUTE_MS))) true
          end
      end
  end.

(* ================================================================== *)
(** * utils/blockchainVerification: the chain verifiers *)
(* ================================================================== *)

(** The uniform result shape
    [{verified, amount?, fromAddress?, confirmationCount?, error?}]. *)
Record Verification := mkVerification {
  verified : bool;
  v_amount : option float;
  v_fromAddress : option string;
  v_confirmationCount : option Z;
  v_error : option string
}.

Definition rejected (msg : string) : Verification :=
  mkVerification false None None None (Some msg).

(** [error.message || fallback], as the [catch] blocks report it. *)
Definition message_or (message fallback : string) : string :=
  if Js.nonempty message then message else fallback.

(** The [TypeError] of reading property [p] of [undefined] or [null]. *)
Definition TypeError (what p : string) : string :=
  "Cannot read properties of " ++ what ++ " (reading '" ++ p ++ "')".

(** ** BEP20 (USDT on BSC) *)

Definition USDT_BSC_CONTRACT : string :=
  "0x55d398326f99059fF775485246999027B3197955".

Definition transferEventSignature : string :=
  "0xddf252ad1be2c89b69c2b068fc378daa952ba7f163c4a11628f55a4df523b3ef".

Record Log := mkLog {
  log_address : string;
  topics : list string;
  log_data : string
}.

Record Receipt := mkReceipt {
  receipt_status : option Z;
  blockNumber : Z;
  logs : list Log
}.

(** What the BSC node and the [ethers] helpers answer.  [getTransaction]
    answers whether a transaction object came back; its [data] only feeds
    the memo comparison, which logs and never decides. *)
Record Bsc := mkBsc {
  getTransactionReceipt : string -> Try (option Receipt);
  getBlockNumber : Try Z;
  getTransaction : string -> Try bool;
  decimals : Try Z;
  getAddress : string -> Try string;
  formatUnits : string -> Z -> Try string
}.

Definition minConfirmations_BSC : Z := 3.

(** What the scan of one receipt's logs comes to. *)
Inductive Scan :=
| NoTransfer
| Transfer (from : string) (transferAmount : string)
| Refused (r : Verification)
| Crashed (message : string).

Fixpoint scan_logs (node : Bsc) (expectedToAddress : string) (l : list Log)
  : Scan :=
  match l with
  | [] => NoTransfer
  | log :: rest =>
      if String.eqb (Js.toLowerCase (log_address log))
                    (Js.toLowerCase USDT_BSC_CONTRACT)
      then
        match topics log with
        | [] => Crashed (TypeError "undefined" "toLowerCase")
        | t0 :: ts =>
            if String.eqb (Js.toLowerCase t0)
                          (Js.toLowerCase transferEventSignature)
            then
              match ts with
              | [] => Crashed (TypeError "undefined" "slice")
              | t1 :: ts' =>
              match getAddress node ("0x" ++ Js.slice_last 40 t1) with
              | Throw m => Crashed m
              | Done fromAddress =>
              match ts' with
              | [] => Crashed (TypeError "undefined" "slice")
              | t2 :: _ =>
              match getAddress node ("0x" ++ Js.slice_last 40 t2) with
              | Throw m => Crashed m
              | Done toAddress =>
                  if negb (String.eqb (Js.toLowerCase toAddress)
                             (Js.toLowerCase expectedToAddress))
                  then Refused (rejected
                         ("Recipient address mismatch. Expected: "
                          ++ expectedToAddress ++ ", Got: " ++ toAddress))
                  else
                    let tokenDecimals :=
                      match decimals node with
                      | Done d => d
                      | Throw _ => 18
                      end in
                    match formatUnits node (log_data log) tokenDecimals with
                    | Throw m => Crashed m
                    | Done transferAmount =>
                        if Js.lt (Js.parseFloat transferAmount)
                                 (Js.of_ratio 1 100)
                        then Refused (rejected
                               ("Amount too small. Minimum: 0.01 USDT, Got: "
                                ++ transferAmount ++ " USDT"))
                        else Transfer fromAddress transferAmount
                    end
              end
              end
              end
              end
            else scan_logs node expectedToAddress rest
        end
      else scan_logs node expectedToAddress rest
  end.

(** The body of the [try] block of [verifyBEP20Transaction]. *)
Definition verifyBEP20_try (env : Env) (node : Bsc) (txnHash : string)
    (expectedToAddress : string) (memo : option string) : Try Verification :=
  match BSC_RPC_URL env with
  | None => Throw (TypeError "undefined" "substring")
  | Some _ =>
  match getTransactionReceipt node txnHash with
  | Throw m => Throw m
  | Done None => Done (rejected "Transaction not found on blockchain")
  | Done (Some receipt) =>
  match receipt_status receipt with
  | Some 1 =>
      match getBlockNumber node with
      | Throw m => Throw m
      | Done currentBlock =>
          let confirmationCount := currentBlock - blockNumber receipt in
          if confirmationCount <? minConfirmations_BSC then
            Done (rejected
              ("Transaction needs at least " ++ Js.Z_toString minConfirmations_BSC
               ++ " confirmations. Current: " ++ Js.Z_toString confirmationCount))
          else
            match getTransaction node txnHash with
            | Throw m => Throw m
            | Done present =>
                if is_set memo && negb present
                then Throw (TypeError "null" "data")
                else
                  match scan_logs node expectedToAddress (logs receipt) with
                  | Crashed m => Throw m
                  | Refused r => Done r
                  | NoTransfer =>
                      Done (rejected
                        "USDT Transfer event not found in transaction logs")
                  | Transfer fromAddress transferAmount =>
                      Done (mkVerification true
                              (Some (Js.parseFloat transferAmount))
                              (Some fromAddress) (Some confirmationCount) None)
                  end
            end
      end
  | _ => Done (rejected "Transaction failed on blockchain")
  end
  end
  end.

(** [verifyBEP20Transaction(txnHash, expectedToAddress, expectedAmount,
    memo)]; the expected amount is not consulted. *)
Definition verifyBEP20Transaction (env : Env) (node : Bsc) (txnHash : string)
    (expectedToAddress : string) (expectedAmount : option float)
    (memo : option string) : Verification :=
  match verifyBEP20_try env node txnHash expectedToAddress memo with
  | Done r => r
  | Throw m => rejected (message_or m "Failed to verify BEP20 transaction")
  end.

(** ** SOL (Solana) *)

Definition SYSTEM_PROGRAM : string := "11111111111111111111111111111111".

Record Instruction := mkInstruction {
  programId : string;
  accounts : list string;
  data : option (list Z)          (* the decoded bytes, when present *)
}.

Record Meta := mkMeta {
  err : option string;            (* [JSON.stringify(meta.err)] *)
  preBalances : list Z;
  postBalances : list Z
}.

Record SolTransaction := mkSolTransaction {
  slot : Z;
  meta : option Meta;
  accountKeys : list string;
  instructions : option (list Instruction)
}.

Record Solana := mkSolana {
  getSignatureStatuses : string -> Try bool;          (* a status came back *)
  getTransaction_finalized : string -> Try (option SolTransaction);
  getTransaction_confirmed : string -> Try (option SolTransaction);
  getSlot : Try Z
}.

Definition minConfirmations_SOL : Z := 32.

Definition LAMPORTS : float := Js.of_Z (10 ^ 9).

(** [arr[i] || 0]. *)
Definition balance (l : list Z) (i : nat) : Z := nth i l 0.

Fixpoint indexOf (l : list string) (x : string) (i : nat) : option nat :=
  match l with
  | [] => None
  | y :: r => if String.eqb y x then Some i else indexOf r x (S i)
  end.

(** The first account whose balance went down. *)
Fixpoint first_debited (pre post : list Z) (keys : list string) (i n : nat)
  : option string :=
  match n with
  | O => None
  | S k =>
      if balance post i <? balance pre i then
        match nth_error keys i with
        | Some k' => if Js.nonempty k' then Some k' else None
        | None => None
        end
      else first_debited pre post keys (S i) k
  end.

(** [buf.slice(4, 12).readBigUInt64LE(0)]. *)
Fixpoint le_bytes (l : list Z) : Z :=
  match l with
  | [] => 0
  | b :: r => b + 256 * le_bytes r
  end.

Definition lamports_of (bytes : list Z) : option Z :=
  if 12 <=? Z.of_nat (List.length bytes)
  then Some (le_bytes (firstn 8 (skipn 4 bytes)))
  else None.

(** [typeof expectedAmount === 'number' && isFinite(expectedAmount)] and the
    amounts differ by more than [0.001]. *)
Definition mismatch (transferAmount : float) (expectedAmount : option float)
  : option Verification :=
  match expectedAmount with
  | Some ea =>
      if PrimFloat.is_finite ea
         && Js.gt (PrimFloat.abs (PrimFloat.sub transferAmount ea))
                  (Js.of_ratio 1 1000)
      then Some (rejected ("Amount mismatch. Expected: " ++ Js.Number_toString ea
                           ++ " SOL, Got: " ++ Js.Number_toString transferAmount
                           ++ " SOL"))
      else None
  | None => None
  end.

(** What a detection strategy comes to. *)
Inductive Found :=
| Nothing
| Paid (transferAmount : option float) (fromAddress : option string)
| Mismatch (r : Verification).

(** Detection by balance delta. *)
Definition by_balance (t : SolTransaction) (m : Meta)
    (expectedToAddress : string) (expectedAmount : option float) : Found :=
  match indexOf (accountKeys t) expectedToAddress 0 with
  | None => Nothing
  | Some recipientIndex =>
      let deltaLamports :=
        balance (postBalances m) recipientIndex
        - balance (preBalances m) recipientIndex in
      if 0 <? deltaLamports then
        let transferAmount := PrimFloat.div (Js.of_Z deltaLamports) LAMPORTS in
        let fromAddress :=
          first_debited (preBalances m) (postBalances m) (accountKeys t) 0
            (List.length (preBalances m)) in
        match mismatch transferAmount expectedAmount with
        | Some r => Mismatch r
        | None => Paid (Some transferAmount) fromAddress
        end
      else Nothing
  end.

(** Detection by instruction parse: the first system-program instruction
    whose second account is the recipient. *)
Fixpoint by_instruction (l : list Instruction) (expectedToAddress : string)
    (expectedAmount : option float) : Found :=
  match l with
  | [] => Nothing
  | instruction :: rest =>
      if String.eqb (programId instruction) SYSTEM_PROGRAM then
        let fromKey :=
          match nth_error (accounts instruction) 0 with
          | Some a => if Js.nonempty a then Some a else None
          | None => None
          end in
        match nth_error (accounts instruction) 1 with
        | Some toKey =>
            if Js.nonempty toKey && String.eqb toKey expectedToAddress then
              let transferAmount :=
                match data instruction with
                | Some bytes =>
                    match lamports_of bytes with
                    | Some lamports =>
                        Some (PrimFloat.div (Js.of_Z lamports) LAMPORTS)
                    | None => None
                    end
                | None => None
                end in
              match transferAmount with
              | Some a =>
                  match mismatch a expectedAmount with
                  | Some r => Mismatch r
                  | None => Paid transferAmount fromKey
                  end
              | None => Paid None fromKey
              end
            else by_instruction rest expectedToAddress expectedAmount
        | None => by_instruction rest expectedToAddress expectedAmount
        end
      else by_instruction rest expectedToAddress expectedAmount
  end.

Definition detect (t : SolTransaction) (expectedToAddress : string)
    (expectedAmount : option float) : Found :=
  match meta t with
  | None => Nothing
  | Some m =>
      match by_balance t m expectedToAddress expectedAmount with
      | Nothing =>
          match instructions t with
          | Some l => by_instruction l expectedToAddress expectedAmount
          | None => Nothing
          end
      | found => found
      end
  end.

(** The body of the [try] block of [verifySOLTransaction]. *)
Definition verifySOL_try (env : Env) (node : Solana) (txnHash : string)
    (expectedToAddress : string) (expectedAmount : option float)
  : Try Verification :=
  match SOLANA_RPC_URL env with
  | None => Throw (TypeError "undefined" "substring")
  | Some _ =>
  let signature := Js.strip_spaces txnHash in
  match getSignatureStatuses node signature with
  | Throw m => Throw m
  | Done false => Done (rejected "Transaction not found on blockchain (no status)")
  | Done true =>
  match getTransaction_finalized node signature with
  | Throw m => Throw m
  | Done finalized =>
  match (match finalized with
         | Some t => Done (Some t)
         | None => getTransaction_confirmed node signature
         end) with
  | Throw m => Throw m
  | Done None => Done (rejected "Transaction not found on blockchain")
  | Done (Some transaction) =>
  match (match meta transaction with Some m => err m | None => None end) with
  | Some e => Done (rejected ("Transaction failed: " ++ e))
  | None =>
  match getSlot node with
  | Throw m => Throw m
  | Done currentSlot =>
      let confirmationCount := Z.max 0 (currentSlot - slot transaction) in
      match detect transaction expectedToAddress expectedAmount with
      | Mismatch r => Done r
      | Nothing =>
          Done (rejected "SOL Transfer instruction not found in transaction")
      | Paid transferAmount fromAddress =>
          Done (mkVerification true transferAmount fromAddress
                  (Some (if minConfirmations_SOL <=? confirmationCount
                         then confirmationCount else minConfirmations_SOL))
                  None)
      end
  end
  end
  end
  end
  end
  end.

(** [verifySOLTransaction(txnHash, expectedToAddress, expectedAmount, memo)];
    the memo is only compared for a log line. *)
Definition verifySOLTransaction (env : Env) (node : Solana) (txnHash : string)
    (expectedToAddress : string) (expectedAmount : option float)
    (memo : option string) : Verification :=
  match verifySOL_try env node txnHash expectedToAddress expectedAmount with
  | Done r => r
  | Throw m => rejected (message_or m "Failed to verify SOL transaction")
  end.

(* ================================================================== *)
(** * routes/payments: the crypto routes *)
(* ================================================================== *)

(** The process between two requests: the database, the rate cache, and
    the number of requests sent to the price feed so far. *)
Record State := mkState {
  db : Database;
  cache : Cache;
  feed_requests : nat
}.

(** ** Replies *)

Record VerifiedData := mkVerifiedData {
  quotaAdded : float;
  newAvailableUsage : float;
  transactionId : ObjectId;
  data_amount : float;
  data_confirmationCount : option Z;
  data_alreadyProcessed : bool
}.

Record CreatedData := mkCreatedData {
  data_paymentId : string;
  data_walletAddress : string;
  data_price : float;
  data_token : Token;
  data_network : Network;
  data_memo : string;
  data_expiresAt : Z;
  data_planName : string;
  data_quotaAmount : float
}.

(** The JSON bodies the two routes send. *)
Inductive Body :=
| Failure (error : string) (alreadyProcessed : bool)
| FailureWithDetails (error details : string)
| Verified (data : VerifiedData)
| Created (data : CreatedData).

(** The [success] field. *)
Definition success (b : Body) : bool :=
  match b with
  | Failure _ _ | FailureWithDetails _ _ => false
  | Verified _ | Created _ => true
  end.

Record Response := mkResponse { code : Z; body : Body }.

(** ** Route handlers

    A step of a handler continues with a value, sends the reply and
    returns, or throws into the handler's [catch]; writes made before a
    reply or a throw stay. *)
Inductive Step (A : Type) : Type :=
| Next (a : A)
| Reply (r : Response)
| Raise (message : string).
Arguments Next {A} a.
Arguments Reply {A} r.
Arguments Raise {A} message.

Definition Route (A : Type) : Type := State -> Step A * State.

Definition ret {A} (a : A) : Route A := fun st => (Next a, st).

Definition bind {A B} (m : Route A) (k : A -> Route B) : Route B :=
  fun st =>
    match m st with
    | (Next a, st') => k a st'
    | (Reply r, st') => (Reply r, st')
    | (Raise e, st') => (Raise e, st')
    end.

Notation "x <- m ;; k" := (bind m (fun x => k))
  (at level 61, m at next level, right associativity).
Notation "m ;;; k" := (bind m (fun _ => k))
  (at level 61, right associativity).

Definition reply {A} (c : Z) (b : Body) : Route A :=
  fun st => (Reply (mkResponse c b), st).

Definition raise {A} (e : string) : Route A := fun st => (Raise e, st).

Definition read_db : Route Database := fun st => (Next (db st), st).

Definition write_db (d : Database) : Route unit :=
  fun st => (Next tt, mkState d (cache st) (feed_requests st)).

Definition attempt {A} (t : Try A) : Route A :=
  match t with Done a => ret a | Throw e => raise e end.

(** [await cryptoPayment.save()]. *)
Definition save_payment (p : CryptoPayment.t)
    (assigned : list (option float)) : Route unit :=
  d <- read_db ;;
  l <- attempt (CryptoPayment.save (payments d) p assigned) ;;
  write_db (mkDatabase (users d) (plans d) l (transactions d) (next_id d)).

(** [await Transaction.create(doc)]. *)
Definition create_transaction (doc : Transaction.t) : Route Transaction.t :=
  d <- read_db ;;
  r <- attempt (Transaction.create (transactions d) (next_id d) doc) ;;
  write_db (mkDatabase (users d) (plans d) (payments d) (snd r)
              (S (next_id d))) ;;;
  ret (fst r).

(** [await user.addQuota(quota, transactionId)].  [user] is a document of
    models/User, which defines no such method: [user.addQuota] is
    [undefined], and calling it throws a TypeError before anything is
    saved. *)
Definition addQuota (u : User.t) (quota : float) (transactionId : ObjectId)
  : Route unit :=
  raise "user.addQuota is not a function".

(** [await CryptoPayment.create(doc)], the document taking a fresh id. *)
Definition insert_payment (doc : ObjectId -> CryptoPayment.t) : Route unit :=
  d <- read_db ;;
  l <- attempt (CryptoPayment.create (payments d) (doc (next_id d))) ;;
  write_db (mkDatabase (users d) (plans d) l (transactions d)
              (S (next_id d))).

(** A rate lookup: the cache and the request counter move with it. *)
Definition after_lookup (st : State) (r : Lookup) : State :=
  mkState (db st) (cache_after r)
    (if requested r then S (feed_requests st) else feed_requests st).

Definition lookup (f : Cache -> Lookup) : Route float :=
  fun st =>
    let r := f (cache st) in
    match rate r with
    | Done v => (Next v, after_lookup st r)
    | Throw e => (Raise e, after_lookup st r)
    end.

(** A handler with its [catch]: whatever was thrown becomes the reply
    [on_error] builds. *)
Definition handle (h : Route Response) (on_error : string -> Response)
    (st : State) : Response * State :=
  match h st with
  | (Next r, st') => (r, st')
  | (Reply r, st') => (r, st')
  | (Raise e, st') => (on_error e, st')
  end.

(** ** POST /create-crypto-payment *)

(** [req.body.planId] as [PaymentPlan.findById] takes it: a value that
    casts to an ObjectId, or one that does not, on which the query throws a
    CastError with [message]. *)
Inductive PlanRef :=
| Casts (i : ObjectId)
| NoCast (message : string).

Record CreateRequest := mkCreateRequest {
  create_user : ObjectId;                  (* [req.user.id] *)
  body_planId : option PlanRef;            (* absent when falsy *)
  body_network : option string
}.

(** The clock readings and the random draw of one request. *)
Record CreateWorld := mkCreateWorld {
  now_id : Z;                              (* [Date.now()] in the payment id *)
  random36 : string;                       (* [Math.random().toString(36)] *)
  now_expiry : Z;                          (* [Date.now()] in the expiry *)
  now_created : Z                          (* the [createdAt] default *)
}.

Definition BEP20_PLACEHOLDER : string := "0x" ++ Js.zeros 40.
Definition SOL_PLACEHOLDER : string := Js.zeros 44.

Definition configured (v : option string) (placeholder : string) : string :=
  match v with
  | Some s => if Js.nonempty s then s else placeholder
  | None => placeholder
  end.

(** The time values a [Date] holds: [new Date(t)] beyond them is an
    invalid Date, which the schema does not cast.  The expiry is computed
    here in [Z]; the doubles of the code agree with it while the result
    stays within these values, the clock reading being one of them, and
    leave them when it does. *)
Definition MAX_DATE : Z := 8640000000000000.

Definition createCryptoPayment_try (env : Env) (w : CreateWorld)
    (req : CreateRequest) : Route Response :=
  match body_planId req, body_network req with
  | Some planRef, Some network_name =>
  if negb (Js.nonempty network_name) then
    reply 400 (Failure "Missing required fields: planId, network" false)
  else
  match (if String.eqb network_name "BEP20" then Some BEP20
         else if String.eqb network_name "SOL" then Some SOL else None) with
  | None => reply 400 (Failure "Invalid network. Must be BEP20 or SOL" false)
  | Some network =>
  d <- read_db ;;
  match planRef with
  | NoCast e => raise e
  | Casts planId =>
  match PaymentPlan.findById (plans d) planId with
  | None => reply 404 (Failure "Payment plan not found or inactive" false)
  | Some plan =>
  if negb (PaymentPlan.isActive plan) then
    reply 404 (Failure "Payment plan not found or inactive" false)
  else
  match User.findById (users d) (create_user req) with
  | None => reply 404 (Failure "User not found" false)
  | Some user =>
  let paymentId :=
    "crypto-" ++ Js.Z_toString (now_id w) ++ "-" ++ Js.substr 2 9 (random36 w) in
  let '(walletAddress, token) :=
    match network with
    | BEP20 => (configured (BEP20_WALLET_ADDRESS env) BEP20_PLACEHOLDER, USDT)
    | SOL => (configured (SOL_WALLET_ADDRESS env) SOL_PLACEHOLDER, SOLcoin)
    end in
  if String.eqb walletAddress BEP20_PLACEHOLDER
     || String.eqb walletAddress SOL_PLACEHOLDER
  then reply 500
         (Failure "Crypto payment is not configured. Please contact support."
            false)
  else
  let memo :=
    "TXN-" ++ Js.slice_last 6 (ObjectId_toString (User._id user))
    ++ "-" ++ Js.slice_last 6 paymentId in
  match Js.parseInt (match CRYPTO_PAYMENT_EXPIRY_MINUTES env with
                     | Some s => if Js.nonempty s then s else "30"
                     | None => "30"
                     end) with
  | None => raise "CryptoPayment validation failed"      (* an invalid Date *)
  | Some expiryMinutes =>
  let expiresAt := now_expiry w + expiryMinutes * 60 * 1000 in
  if MAX_DATE <? Z.abs expiresAt then
    raise "CryptoPayment validation failed"               (* an invalid Date *)
  else
  let doc (fresh : ObjectId) :=
    CryptoPayment.mk fresh paymentId (create_user req)
      (PaymentPlan._id plan) network token (PaymentPlan.price plan)
      walletAddress memo None pending expiresAt (now_created w) None None None
      (Some 0) None in
  insert_payment doc ;;;
  ret (mkResponse 200
         (Created (mkCreatedData paymentId walletAddress
                     (PaymentPlan.price plan) token network memo expiresAt
                     (PaymentPlan.name plan) (PaymentPlan.quotaAmount plan))))
  end
  end
  end
  end
  end
  | _, _ => reply 400 (Failure "Missing required fields: planId, network" false)
  end.

Definition createCryptoPayment (env : Env) (w : CreateWorld)
    (req : CreateRequest) : State -> Response * State :=
  handle (createCryptoPayment_try env w req)
    (fun e => mkResponse 500
                (FailureWithDetails "Failed to create crypto payment" e)).

(** ** POST /verify-crypto-transaction *)

Record VerifyRequest := mkVerifyRequest {
  verify_user : ObjectId;                  (* [req.user.id] *)
  body_paymentId : option string;
  body_txnHash : option string
}.

(** What one request observes of the outside: the clock at the expiry check
    and at the confirmation, the two chains, and the price feed with the
    clock of the rate lookup. *)
Record World := mkWorld {
  now_check : Z;
  now_confirm : Z;
  bsc : Bsc;
  solana : Solana;
  now_rate : Z;
  feed : Feed
}.

Record VerificationData := mkVerificationData {
  vd_amount : option float;
  vd_fromAddress : option string;
  vd_confirmationCount : option Z
}.

Definition USD_PER_CREDIT : float := Js.of_ratio 45 100.

(** Input validation, the lookup and the ownership check. *)
Definition load_payment (req : VerifyRequest)
  : Route (CryptoPayment.t * string) :=
  match body_paymentId req, body_txnHash req with
  | Some paymentId, Some txnHash =>
      if Js.nonempty paymentId && Js.nonempty txnHash then
        d <- read_db ;;
        match CryptoPayment.findByPaymentId (payments d) paymentId with
        | None => reply 404 (Failure "Payment not found" false)
        | Some cryptoPayment =>
            if negb (Nat.eqb (CryptoPayment.userId cryptoPayment)
                       (verify_user req))
            then reply 403 (Failure "Access denied" false)
            else ret (cryptoPayment, txnHash)
        end
      else reply 400
             (Failure "Missing required fields: paymentId, txnHash" false)
  | _, _ =>
      reply 400 (Failure "Missing required fields: paymentId, txnHash" false)
  end.

(** The guards on a submission, and the transition to [processing]. *)
Definition submit (w : World) (cryptoPayment : CryptoPayment.t)
    (txnHash : string) : Route CryptoPayment.t :=
  if Status_eqb (CryptoPayment.status cryptoPayment) confirmed then
    reply 200 (Failure "This payment has already been confirmed" true)
  else
    d <- read_db ;;
    match CryptoPayment.findConfirmedWithHash (payments d) txnHash
            (CryptoPayment._id cryptoPayment) with
    | Some existingPayment =>
        reply 200
          (Failure
             "This transaction hash has already been used for another payment"
             true)
    | None =>
        if CryptoPayment.isExpired (now_check w) cryptoPayment then
          save_payment (CryptoPayment.set_status cryptoPayment expired) [] ;;;
          reply 400
            (Failure "This payment has expired. Please create a new payment."
               false)
        else
          let cryptoPayment :=
            CryptoPayment.set_transactionHash
              (CryptoPayment.set_status cryptoPayment processing) txnHash in
          save_payment cryptoPayment [] ;;;
          ret cryptoPayment
    end.

(** The chain verifier matching the payment's network. *)
Definition run_verifier (env : Env) (w : World)
    (cryptoPayment : CryptoPayment.t) (txnHash : string) : Verification :=
  match CryptoPayment.network cryptoPayment with
  | BEP20 =>
      verifyBEP20Transaction env (bsc w) txnHash
        (CryptoPayment.walletAddress cryptoPayment) None
        (Some (CryptoPayment.memo cryptoPayment))
  | SOL =>
      verifySOLTransaction env (solana w) txnHash
        (CryptoPayment.walletAddress cryptoPayment) None
        (Some (CryptoPayment.memo cryptoPayment))
  end.

Definition default_error (n : Network) : string :=
  match n with
  | BEP20 => "BEP20 verification failed"
  | SOL => "SOL verification failed"
  end.

(** [result.error || '<network> verification failed']. *)
Definition verificationError (n : Network) (r : Verification) : string :=
  match v_error r with
  | Some e => if Js.nonempty e then e else default_error n
  | None => default_error n
  end.

(** Verification on chain: a failure marks the payment [failed]. *)
Definition verify_on_chain (env : Env) (w : World)
    (cryptoPayment : CryptoPayment.t) (txnHash : string)
  : Route VerificationData :=
  let result := run_verifier env w cryptoPayment txnHash in
  if verified result then
    ret (mkVerificationData (v_amount result) (v_fromAddress result)
           (v_confirmationCount result))
  else
    let e := verificationError (CryptoPayment.network cryptoPayment) result in
    save_payment (CryptoPayment.fail cryptoPayment e) [] ;;;
    reply 400 (Failure e false).

(** The payment is marked [confirmed] with the on-chain amount. *)
Definition mark_confirmed (w : World) (cryptoPayment : CryptoPayment.t)
    (v : VerificationData) (txnHash : string) : Route CryptoPayment.t :=
  let cryptoPayment :=
    CryptoPayment.confirm (now_confirm w) cryptoPayment (vd_amount v)
      (vd_fromAddress v) (vd_confirmationCount v) txnHash in
  save_payment cryptoPayment [vd_amount v] ;;;
  ret cryptoPayment.

Definition load_plan_and_user (req : VerifyRequest)
    (cryptoPayment : CryptoPayment.t) : Route (PaymentPlan.t * User.t) :=
  d <- read_db ;;
  match PaymentPlan.findById (plans d) (CryptoPayment.planId cryptoPayment) with
  | None => reply 404 (Failure "Payment plan not found" false)
  | Some plan =>
      match User.findById (users d) (verify_user req) with
      | None => reply 404 (Failure "User not found" false)
      | Some user => ret (plan, user)
      end
  end.

Definition insufficient (usdAmount : float) : string :=
  "Insufficient amount. Sent ~$" ++ Js.toFixed2 usdAmount
  ++ "; minimum 1 credit requires $" ++ Js.toFixed2 USD_PER_CREDIT ++ ".".

(** [Math.floor(usdAmount / USD_PER_CREDIT)]. *)
Definition dynamicCredits (usdAmount : float) : float :=
  Js.floor (PrimFloat.div usdAmount USD_PER_CREDIT).

(** The dynamic conversion: the rate of the payment's network, the credits,
    and the effective USD amount written back to the payment. *)
Record Conversion := mkConversion {
  quotaToAdd : float;
  usdAmountForTransaction : float;
  converted : CryptoPayment.t
}.

(** [getSolUsdRate()] for SOL, [getUsdtUsdRate()] for BEP20. *)
Definition rate_lookup (env : Env) (w : World) (n : Network) : Cache -> Lookup :=
  match n with
  | SOL => getSolUsdRate env (now_rate w) (feed w)
  | BEP20 => getUsdtUsdRate env (now_rate w) (feed w)
  end.

Definition convert (env : Env) (w : World) (cryptoPayment : CryptoPayment.t)
    (v : VerificationData) : Route Conversion :=
  usdRate <- lookup (rate_lookup env w (CryptoPayment.network cryptoPayment)) ;;
  let usdAmount := PrimFloat.mul (Js.num (vd_amount v)) usdRate in
  if Js.le (dynamicCredits usdAmount) 0 then
    reply 400 (Failure (insufficient usdAmount) false)
  else
    let effective := Js.parseFloat (Js.toFixed2 usdAmount) in
    let cryptoPayment := CryptoPayment.set_amount cryptoPayment effective in
    save_payment cryptoPayment [Some effective] ;;;
    ret (mkConversion (dynamicCredits usdAmount) usdAmount cryptoPayment).

(** [confirmationCount?.toString() || '0']. *)
Definition confirmations_text (c : option Z) : string :=
  match c with Some n => Js.Z_toString n | None => "0" end.

Definition ledger_entry (req : VerifyRequest) (plan : PaymentPlan.t)
    (c : Conversion) (v : VerificationData) (txnHash : string)
  : Transaction.t :=
  let cryptoPayment := converted c in
  Transaction.mk 0%nat (verify_user req) None None
    (Some txnHash)
    (Some (Network_name (CryptoPayment.network cryptoPayment)))
    (Some (Token_name (CryptoPayment.token cryptoPayment)))
    (Js.round (PrimFloat.mul (usdAmountForTransaction c) (Js.of_Z 100)))
    "usd"
    (quotaToAdd c)
    "succeeded"
    "crypto"
    ("Purchase " ++ Js.Number_toString (quotaToAdd c) ++ " credits via "
     ++ Network_name (CryptoPayment.network cryptoPayment)
     ++ " (dynamic rate) - " ++ PaymentPlan.name plan)
    [("cryptoPaymentId", ObjectId_toString (CryptoPayment._id cryptoPayment));
     ("planId", ObjectId_toString (PaymentPlan._id plan));
     ("planName", PaymentPlan.name plan);
     ("confirmations", confirmations_text (vd_confirmationCount v))]
    None.

(** The commit: the duplicate guard on the hash, the ledger entry, the
    credits.  [user.totalSpent = (user.totalSpent || 0) + usd] sets a
    property of the document in memory that is not a schema path; no save
    follows it, and it is left out. *)
Definition settle (req : VerifyRequest) (plan : PaymentPlan.t)
    (user : User.t) (c : Conversion) (v : VerificationData)
    (txnHash : string) : Route Response :=
  d <- read_db ;;
  match Transaction.findByCryptoHash (transactions d) txnHash with
  | Some existingTransaction =>
      ret (mkResponse 200
             (Verified (mkVerifiedData
                (Transaction.quotaAmount existingTransaction)
                (User.availableUsage user)
                (Transaction._id existingTransaction)
                (PrimFloat.div (Transaction.amount existingTransaction)
                   (Js.of_Z 100))
                (vd_confirmationCount v)
                true)))
  | None =>
      transaction <- create_transaction (ledger_entry req plan c v txnHash) ;;
      addQuota user (quotaToAdd c) (Transaction._id transaction) ;;;
      ret (mkResponse 200
             (Verified (mkVerifiedData
                (quotaToAdd c)
                (User.availableUsage user)
                (Transaction._id transaction)
                (usdAmountForTransaction c)
                (vd_confirmationCount v)
                false)))
  end.

Definition verifyCryptoTransaction_try (env : Env) (w : World)
    (req : VerifyRequest) : Route Response :=
  loaded <- load_payment req ;;
  let txnHash := snd loaded in
  cryptoPayment <- submit w (fst loaded) txnHash ;;
  verificationData <- verify_on_chain env w cryptoPayment txnHash ;;
  cryptoPayment <- mark_confirmed w cryptoPayment verificationData txnHash ;;
  found <- load_plan_and_user req cryptoPayment ;;
  conversion <- convert env w cryptoPayment verificationData ;;
  settle req (fst found) (snd found) conversion verificationData txnHash.

Definition verifyCryptoTransaction (env : Env) (w : World)
    (req : VerifyRequest) : State -> Response * State :=
  handle (verifyCryptoTransaction_try env w req)
    (fun _ => mkResponse 500 (Failure "Failed to verify crypto transaction"
                                false)).

(* ================================================================== *)
(** * The other writers, and the reachable states *)
(* ================================================================== *)

Definition with_payments (st : State) (l : list CryptoPayment.t) : State :=
  mkState (mkDatabase (users (db st)) (plans (db st)) l
             (transactions (db st)) (next_id (db st)))
    (cache st) (feed_requests st).

Definition with_transactions (st : State) (l : list Transaction.t) : State :=
  mkState (mkDatabase (users (db st)) (plans (db st)) (payments (db st)) l
             (next_id (db st)))
    (cache st) (feed_requests st).

Definition with_accounts (st : State) (us : list User.t)
    (ps : list PaymentPlan.t) : State :=
  mkState (mkDatabase us ps (payments (db st)) (transactions (db st))
             (next_id (db st)))
    (cache st) (feed_requests st).

(** The expiry sweep, [CryptoPayment.cleanupExpired()]. *)
Definition sweep (now : Z) (st : State) : State :=
  with_payments st (fst (CryptoPayment.cleanupExpired now (payments (db st)))).

(** The card routes write the ledger too.  POST /create-payment-intent
    creates a pending entry keyed by the processor's intent id, with no
    crypto field. *)
Definition card_entry (user : ObjectId) (intent : string) (cents : float)
    (currency : string) (quota : float) (description : string)
    (meta : list (string * string)) : Transaction.t :=
  Transaction.mk 0%nat user (Some intent) None None None None cents currency
    quota "pending" "card" description meta None.

(** One [Transaction.create], whoever issues it: a card route with a
    [card_entry], or a request running between the awaits of another. *)
Definition ledger_insert (doc : Transaction.t) (st : State) : State :=
  snd (create_transaction doc st).

(** The confirmation routes and the webhook set [status] and
    [failureReason] on the entries they select. *)
Definition card_status (selected : Transaction.t -> bool) (s : string)
    (why : option string) (st : State) : State :=
  with_transactions st
    (map (fun d => if selected d then Transaction.set_status d s why else d)
       (transactions (db st))).

Definition initial : State :=
  mkState (mkDatabase [] [] [] [] 0%nat) empty_cache 0%nat.

(** One request served, by the crypto routes or by another writer, or one
    write to the ledger on its own; users and plans belong to the account
    and plan routes, which may leave them in any state. *)
Inductive step : State -> State -> Prop :=
| step_create env w req st :
    step st (snd (createCryptoPayment env w req st))
| step_verify env w req st :
    step st (snd (verifyCryptoTransaction env w req st))
| step_sweep now st :
    step st (sweep now st)
| step_ledger_insert doc st :
    step st (ledger_insert doc st)
| step_card_status selected s why st :
    step st (card_status selected s why st)
| step_accounts us ps st :
    step st (with_accounts st us ps).

Inductive reachable : State -> Prop :=
| reachable_initial : reachable initial
| reachable_step st st' : reachable st -> step st st' -> reachable st'.

(** The payment a request names, as stored. *)
Definition stored_payment (st : State) (paymentId : string)
  : option CryptoPayment.t :=
  CryptoPayment.findByPaymentId (payments (db st)) paymentId.

(** The credits of a user, as stored. *)
Definition credits_of (st : State) (u : ObjectId) : option float :=
  match User.findById (users (db st)) u with
  | Some user => Some (User.availableUsage user)
  | None => None
  end.

(** A well-formed request: both fields present and non-empty. *)
Definition names (req : VerifyRequest) (paymentId txnHash : string) : Prop :=
  body_paymentId req = Some paymentId /\ body_txnHash req = Some txnHash
  /\ Js.nonempty paymentId = true /\ Js.nonempty txnHash = true.

(** The replies of the guards. *)
Definition already_confirmed : Response :=
  mkResponse 200 (Failure "This payment has already been confirmed" true).

Definition duplicate_hash : Response :=
  mkResponse 200
    (Failure "This transaction hash has already been used for another payment"
       true).

Definition payment_expired : Response :=
  mkResponse 400
    (Failure "This payment has expired. Please create a new payment." false).

Definition internal_error : Response :=
  mkResponse 500 (Failure "Failed to verify crypto transaction" false).


(* ================================================================== *)
(** * Relating the state before and after a handler *)
(* ================================================================== *)

(** Whatever a handler step does from a state, [R] relates that state to
    the one it leaves. *)
Definition respects (R : State -> State -> Prop) {A} (m : Route A) : Prop :=
  forall st, R st (snd (m st)).

(** The ledger holds each transaction hash at most once. *)
Definition distinct_hashes (st : State) : Prop :=
  NoDup (Transaction.hashes (transactions (db st))).

Definition keeps_distinct (st st' : State) : Prop :=
  distinct_hashes st -> distinct_hashes st'.

(** Neither the ledger nor the accounts were written. *)
Definition untouched (st st' : State) : Prop :=
  transactions (db st') = transactions (db st)
  /\ users (db st') = users (db st).

(** No confirmed payment other than [self] carries the hash [h]. *)
Definition hash_unused (st : State) (h : string) (self : ObjectId) : Prop :=
  forall a, In a (payments (db st)) ->
            CryptoPayment.status a = confirmed ->
            CryptoPayment.transactionHash a = Some h ->
            CryptoPayment._id a = self.

(** The payment as the submission leaves it: [processing], with the hash. *)
Definition submitted (cp : CryptoPayment.t) (h : string) : CryptoPayment.t :=
  CryptoPayment.set_transactionHash (CryptoPayment.set_status cp processing) h.

(** The payment as a verified transfer leaves it. *)
Definition confirmed_with (w : World) (cp : CryptoPayment.t) (h : string)
    (r : Verification) : CryptoPayment.t :=
  CryptoPayment.confirm (now_confirm w) (submitted cp h) (v_amount r)
    (v_fromAddress r) (v_confirmationCount r) h.

(** What the verifier's result is copied into. *)
Definition data_of (r : Verification) : VerificationData :=
  mkVerificationData (v_amount r) (v_fromAddress r) (v_confirmationCount r).

(** The USD value of a verified amount at a rate, and the amount written
    back to the payment: [parseFloat(usdAmount.toFixed(2))]. *)
Definition usd_value (a : option float) (r : float) : float :=
  PrimFloat.mul (Js.num a) r.

Definition two_decimals (usd : float) : float :=
  Js.parseFloat (Js.toFixed2 usd).

(** The message of the BEP20 verifier below the confirmation floor. *)
Definition needs_confirmations (depth : Z) : string :=
  "Transaction needs at least 3 confirmations. Current: " ++ Js.Z_toString depth.

(* ================================================================== *)
(** * Sample data *)
(* ================================================================== *)

Module Sample.

Definition env : Env :=
  mkEnv (Some "0xAbC0000000000000000000000000000000000001")
    (Some "So1WalletAddr") None (Some "https://bsc.example")
    (Some "https://sol.example") None None.

Definition alice : User.t := User.mk 1%nat "alice@example.com" (Js.of_Z 40).
Definition bob : User.t := User.mk 2%nat "bob@example.com" (Js.of_Z 40).

Definition plan : PaymentPlan.t :=
  PaymentPlan.mk 10%nat "Starter" (Js.of_Z 50) (Js.of_ratio 999 100) true.

(** A pending SOL request of Alice and a pending BEP20 request of Bob, both
    expiring at [2000]. *)
Definition sol_request : CryptoPayment.t :=
  CryptoPayment.mk 20%nat "crypto-1000-aaaaaaaaa" 1%nat 10%nat SOL SOLcoin
    (Js.of_ratio 999 100) "So1WalletAddr" "TXN-000001-aaaaaa" None pending
    2000 1000 None None None (Some 0) None.

Definition bep_request : CryptoPayment.t :=
  CryptoPayment.mk 21%nat "crypto-1000-bbbbbbbbb" 2%nat 10%nat BEP20 USDT
    (Js.of_ratio 999 100) "0xAbC0000000000000000000000000000000000001"
    "TXN-000002-bbbbbb" None pending 2000 1000 None None None (Some 0) None.

(** Alice's request once settled with the signature [SIG1]. *)
Definition sol_settled : CryptoPayment.t :=
  CryptoPayment.mk 20%nat "crypto-1000-aaaaaaaaa" 1%nat 10%nat SOL SOLcoin
    (Js.of_Z 20) "So1WalletAddr" "TXN-000001-aaaaaa" (Some "SIG1") confirmed
    2000 1000 (Some 1500) (Some (Js.of_Z 1)) (Some "Sender1") (Some 40) None.

(** Bob's request once confirmed with the hash [0xH2]. *)
Definition bep_settled : CryptoPayment.t :=
  CryptoPayment.mk 21%nat "crypto-1000-bbbbbbbbb" 2%nat 10%nat BEP20 USDT
    (Js.of_Z 10) "0xAbC0000000000000000000000000000000000001"
    "TXN-000002-bbbbbb" (Some "0xH2") confirmed 2000 1000 (Some 1500)
    (Some (Js.of_Z 10)) (Some "0xSender") (Some 5) None.

Definition state (ps : list CryptoPayment.t) : State :=
  mkState (mkDatabase [alice; bob] [plan] ps [] 30%nat) empty_cache 0%nat.

(** A Solana node on which the signature moved [lamports] from [Sender1] to
    the wallet, 40 slots ago. *)
Definition sol_transfer (lamports : Z) : SolTransaction :=
  mkSolTransaction 100
    (Some (mkMeta None [5000000000; 0] [5000000000 - lamports - 5000; lamports]))
    ["Sender1"; "So1WalletAddr"] (Some []).

Definition sol_node (lamports : Z) : Solana :=
  mkSolana (fun _ => Done true) (fun _ => Done (Some (sol_transfer lamports)))
    (fun _ => Done None) (Done 140).

Definition sol_down : Solana :=
  mkSolana (fun _ => Throw "fetch failed") (fun _ => Throw "fetch failed")
    (fun _ => Throw "fetch failed") (Throw "fetch failed").

(** A BSC node on which the hash is a successful USDT transfer to the
    wallet, mined at block 100, the head being at [100 + depth]; the value
    formats as [amount]. *)
Definition usdt_log : Log :=
  mkLog "0x55d398326f99059ff775485246999027b3197955"
    ["0xddf252ad1be2c89b69c2b068fc378daa952ba7f163c4a11628f55a4df523b3ef";
     "0x000000000000000000000000def0000000000000000000000000000000000002";
     "0x000000000000000000000000abc0000000000000000000000000000000000001"]
    "0x8ac7230489e80000".

Definition bsc_node (depth : Z) (amount : string) : Bsc :=
  mkBsc (fun _ => Done (Some (mkReceipt (Some 1) 100 [usdt_log])))
    (Done (100 + depth)) (fun _ => Done true) (Done 18)
    (fun a => Done a) (fun _ _ => Done amount).

Definition bsc_down : Bsc :=
  mkBsc (fun _ => Throw "fetch failed") (Throw "fetch failed")
    (fun _ => Throw "fetch failed") (Throw "fetch failed")
    (fun _ => Throw "invalid address") (fun _ _ => Throw "invalid value").

(** A request served at time [now], confirmed at [later], the feed quoting
    [usd]. *)
Definition world (now later : Z) (b : Bsc) (s : Solana) (usd : float) : World :=
  mkWorld now later b s later (FeedReply (Some usd)).

Definition by_alice (h : string) : VerifyRequest :=
  mkVerifyRequest 1%nat (Some "crypto-1000-aaaaaaaaa") (Some h).

Definition by_bob (h : string) : VerifyRequest :=
  mkVerifyRequest 2%nat (Some "crypto-1000-bbbbbbbbb") (Some h).

(** A Solana node that knows the one signature [SIG1] and nothing else. *)
Definition sol_ledger : Solana :=
  mkSolana (fun s => Done (String.eqb s "SIG1"))
    (fun s => if String.eqb s "SIG1"
              then Done (Some (sol_transfer 1000000000)) else Done None)
    (fun _ => Done None) (Done 140).

(** The signature followed by a space. *)
Definition SIG1_spaced : string := "SIG1 ".

(** A plan purchase requested by Alice on the SOL network. *)
Definition create_world : CreateWorld :=
  mkCreateWorld 1000 "0.4fzyo82mvyr" 1001 1002.

Definition create_by_alice : CreateRequest :=
  mkCreateRequest 1%nat (Some (Casts 10%nat)) (Some "SOL").

(** From the empty database: the accounts are registered, Alice requests a
    SOL payment, pays 1 SOL and submits the signature. *)
Definition registered : State := with_accounts initial [alice; bob] [plan].

Definition requested : State :=
  snd (createCryptoPayment env create_world create_by_alice registered).

Definition by_alice_created (h : string) : VerifyRequest :=
  mkVerifyRequest 1%nat (Some "crypto-1000-4fzyo82mv") (Some h).

Definition settled : State :=
  snd (verifyCryptoTransaction env
         (world 1500 1600 bsc_down (sol_node 1000000000) (Js.of_Z 20))
         (by_alice_created "SIG1") requested).

(** A cache holding a USDT rate until [5000], and an environment with an
    operator override for the fallback. *)
Definition warm_cache : Cache :=
  mkCache (mkEntry None 0) (mkEntry (Some (Js.of_ratio 999 1000)) 5000).

Definition env_with_override : Env :=
  mkEnv (Some "0xAbC0000000000000000000000000000000000001")
    (Some "So1WalletAddr") None (Some "https://bsc.example")
    (Some "https://sol.example") None (Some "0.998").

End Sample.

(* ================================================================== *)
(** * The rate cache over the life of a process *)
(* ================================================================== *)

(** The caches a process can hold: the module starts with both entries
    empty, and only the two lookups write them. *)
Inductive cache_reachable : Cache -> Prop :=
| cache_start : cache_reachable empty_cache
| cache_sol env now feed c :
    cache_reachable c ->
    cache_reachable (cache_after (getSolUsdRate env now feed c))
| cache_usdt env now feed c :
    cache_reachable c ->
    cache_reachable (cache_after (getUsdtUsdRate env now feed c)).

(** An entry holds no value that is [<= 0]. *)
Definition no_nonpositive (e : Entry) : Prop :=
  match value e with
  | Some v => Js.le v 0 = false
  | None => True
  end.

(* ================================================================== *)
(** * The logs of a BSC receipt *)
(* ================================================================== *)

(** [log.address.toLowerCase() === USDT_BSC_CONTRACT.toLowerCase()]. *)
Definition from_usdt (log : Log) : bool :=
  String.eqb (Js.toLowerCase (log_address log))
             (Js.toLowerCase USDT_BSC_CONTRACT).

(** The first topic is the signature of [Transfer]. *)
Definition is_transfer (log : Log) : bool :=
  match topics log with
  | t0 :: _ => String.eqb (Js.toLowerCase t0)
                          (Js.toLowerCase transferEventSignature)
  | [] => false
  end.

(** A log the scan passes over: another contract's, or one of the USDT
    contract whose first topic is there and is another event's. *)
Definition passed_over (log : Log) : bool :=
  negb (from_usdt log)
  || match topics log with
     | _ :: _ => negb (is_transfer log)
     | [] => false
     end.

(** The amount a system-program instruction carries, when its data has the
    twelve bytes of a transfer. *)
Definition instruction_amount (i : Instruction) : option float :=
  match data i with
  | Some bytes =>
      match lamports_of bytes with
      | Some lamports => Some (PrimFloat.div (Js.of_Z lamports) LAMPORTS)
      | None => None
      end
  | None => None
  end.

(** The test of the instruction scan: an instruction of the system program
    whose second account is the expected address. *)
Definition pays (expectedToAddress : string) (i : Instruction) : bool :=
  String.eqb (programId i) SYSTEM_PROGRAM
  && match nth_error (accounts i) 1 with
     | Some toKey => Js.nonempty toKey && String.eqb toKey expectedToAddress
     | None => false
     end.

(** [a || null] on an account key. *)
Definition key_or_null (a : option string) : option string :=
  match a with
  | Some k => if Js.nonempty k then Some k else None
  | None => None
  end.

(** The signature as the SOL verifier sends it to the node. *)
Definition sanitized (txnHash : string) : string := Js.strip_spaces txnHash.

(** The transaction the SOL verifier works on: the finalized one, or else
    the confirmed one. *)
Definition fetched_transaction (node : Solana) (signature : string)
  : Try (option SolTransaction) :=
  match getTransaction_finalized node signature with
  | Throw m => Throw m
  | Done (Some t) => Done (Some t)
  | Done None => getTransaction_confirmed node signature
  end.

(* ================================================================== *)
(** * models/CryptoPayment: the expiry sweep *)
(* ================================================================== *)

(** The documents an update changed, out of the documents before and
    after: [modifiedCount]. *)
Fixpoint modified (l l' : list CryptoPayment.t) : Z :=
  match l, l' with
  | p :: r, p' :: r' =>
      (if Status_eqb (CryptoPayment.status p) (CryptoPayment.status p')
       then 0 else 1) + modified r r'
  | _, _ => 0
  end.

(* ================================================================== *)
(** * routes/payments: GET /crypto-status/:paymentId *)
(* ================================================================== *)

Record StatusRequest := mkStatusRequest {
  status_user : ObjectId;                  (* [req.user.id] *)
  param_paymentId : string                 (* [req.params.paymentId] *)
}.

Record StatusData := mkStatusData {
  sd_status : Status;
  sd_confirmedAt : option Z;
  sd_transactionHash : option string;
  sd_errorMessage : option string;
  sd_expiresAt : Z;
  sd_isExpired : bool
}.

Inductive StatusBody :=
| StatusFailure (error : string)
| StatusOk (data : StatusData).

Record StatusResponse := mkStatusResponse {
  status_code : Z;
  status_body : StatusBody
}.

(** The handler reads one payment and writes nothing; [now] is the clock
    [isExpired()] reads. *)
Definition cryptoStatus (now : Z) (req : StatusRequest) (st : State)
  : StatusResponse :=
  match CryptoPayment.findByPaymentId (payments (db st))
          (param_paymentId req) with
  | None => mkStatusResponse 404 (StatusFailure "Payment not found")
  | Some cryptoPayment =>
      if negb (Nat.eqb (CryptoPayment.userId cryptoPayment) (status_user req))
      then mkStatusResponse 403 (StatusFailure "Access denied")
      else
        mkStatusResponse 200
          (StatusOk
             (mkStatusData (CryptoPayment.status cryptoPayment)
                (CryptoPayment.confirmedAt cryptoPayment)
                (CryptoPayment.transactionHash cryptoPayment)
                (CryptoPayment.errorMessage cryptoPayment)
                (CryptoPayment.expiresAt cryptoPayment)
                (CryptoPayment.isExpired now cryptoPayment)))
  end.

(* ================================================================== *)
(** * routes/payments: what a call commits *)
(* ================================================================== *)

(** What a step of the handler does to the ledger and the accounts:
    nothing; or it throws, having appended one ledger entry for the hash
    [h], which the ledger did not hold, and nothing else. *)
Definition commits (req : VerifyRequest) (h : string) (st : State)
    (s : Step Response) (st' : State) : Prop :=
  untouched st st'
  \/ exists t e,
       s = Raise e
       /\ Transaction.findByCryptoHash (transactions (db st)) h = None
       /\ transactions (db st') = (transactions (db st) ++ [t])%list
       /\ users (db st') = users (db st)
       /\ Transaction.cryptoTransactionHash t = Some h
       /\ Transaction.userId t = verify_user req
       /\ Transaction.status t = "succeeded"
       /\ Transaction.paymentMethod t = "crypto"
       /\ Js.le 1 (Transaction.quotaAmount t) = true.

(* ================================================================== *)
(** * models/PaymentPlan: the seeding of the default plans *)
(* ================================================================== *)

(** [s.trim()], on the ASCII range. *)
Fixpoint trimEnd (s : string) : string :=
  match s with
  | String c r =>
      match trimEnd r with
      | EmptyString => if Js.is_space c then EmptyString
                       else String c EmptyString
      | r' => String c r'
      end
  | EmptyString => EmptyString
  end.

Definition trim (s : string) : string := trimEnd (Js.trimStart s).

Module PlanDoc.

(** The plan document with all the paths of the schema but [metadata] and
    the timestamps; [PaymentPlan.t] above is the part of it the routes
    read. *)
Record t := mk {
  _id : ObjectId;
  name : string;
  description : string;
  quotaAmount : float;
  price : float;
  currency : string;
  stripePriceId : option string;
  stripeProductId : option string;
  isActive : bool;
  isPopular : bool;
  sortOrder : float;
  features : list string
}.

(** What [initializeDefaultPlans] hands to [create]. *)
Record data := mkData {
  d_name : string;
  d_description : string;
  d_quotaAmount : float;
  d_price : float;
  d_isPopular : bool;
  d_sortOrder : float;
  d_features : list string
}.

(** Schema validation of such data: [required] on the trimmed strings,
    [min], and numbers that cast. *)
Definition valid (d : data) : bool :=
  Js.nonempty (trim (d_name d))
  && Js.nonempty (trim (d_description d))
  && Js.le 1 (d_quotaAmount d)
  && Js.le 0 (d_price d)
  && negb (Js.isNaN (d_sortOrder d)).

(** The document stored: strings trimmed, the defaults filled in
    ([currency] is 'usd', upper-cased; [isActive] is true), and no Stripe
    id, so that the two sparse unique indexes do not see it. *)
Definition stored (fresh : ObjectId) (d : data) : t :=
  mk fresh (trim (d_name d)) (trim (d_description d)) (d_quotaAmount d)
     (d_price d) (Js.toUpperCase "usd") None None true (d_isPopular d)
     (d_sortOrder d) (map trim (d_features d)).

Definition create (l : list t) (fresh : ObjectId) (d : data)
  : Try (t * list t) :=
  if valid d then Done (stored fresh d, (l ++ [stored fresh d])%list)
  else Throw "PaymentPlan validation failed".

(** [findOne({ quotaAmount })]: the first stored plan whose amount is that
    number. *)
Definition findByQuota (l : list t) (q : float) : option t :=
  find (fun p => PrimFloat.eqb (quotaAmount p) q) l.

(** [getPlanByQuota]: [findOne({ quotaAmount, isActive: true })]. *)
Definition getPlanByQuota (l : list t) (q : float) : option t :=
  find (fun p => PrimFloat.eqb (quotaAmount p) q && isActive p) l.

Definition defaultPlans : list data :=
  [ mkData "Starter Pack" "Perfect for casual players" (Js.of_Z 20)
      (Js.of_Z 10) false (Js.of_Z 1)
      ["20 Analysis Credits"; "Basic Support"; "Basic Validity"];
    mkData "Player Pack" "Great for regular players" (Js.of_Z 55)
      (Js.of_Z 25) true (Js.of_Z 2)
      ["55 Analysis Credits"; "Priority Support"; "Best Value"];
    mkData "Pro Pack" "For serious poker players" (Js.of_Z 120)
      (Js.of_Z 50) false (Js.of_Z 3)
      ["120 Analysis Credits"; "Premium Support"; "Advanced Analytics"] ].

(** The loop of [initializeDefaultPlans] over the plans still to seed; the
    collection and the id counter are threaded through. *)
Fixpoint seed (todo : list data) (l : list t) (fresh : ObjectId)
  : Try (list t * ObjectId) :=
  match todo with
  | [] => Done (l, fresh)
  | planData :: rest =>
      match findByQuota l (d_quotaAmount planData) with
      | Some existingPlan => seed rest l fresh
      | None =>
          match create l fresh planData with
          | Done (_, l') => seed rest l' (S fresh)
          | Throw e => Throw e
          end
      end
  end.

Definition initializeDefaultPlans (l : list t) (fresh : ObjectId)
  : Try (list t * ObjectId) :=
  seed defaultPlans l fresh.

End PlanDoc.

(* ================================================================== *)
(** * More sample data *)
(* ================================================================== *)

Module Cases.

(** A transfer of another token (BUSD) to the wallet, an [Approval] of the
    USDT contract, and a USDT transfer to another address. *)
Definition busd_log : Log :=
  mkLog "0xe9e7cea3dedca5984780bafc599bd69add087d56"
    ["0xddf252ad1be2c89b69c2b068fc378daa952ba7f163c4a11628f55a4df523b3ef";
     "0x000000000000000000000000def0000000000000000000000000000000000002";
     "0x000000000000000000000000abc0000000000000000000000000000000000001"]
    "0x8ac7230489e80000".

Definition usdt_approval_log : Log :=
  mkLog "0x55d398326f99059ff775485246999027b3197955"
    ["0x8c5be1e5ebec7d5bd14f71427d1e84f3dd0314c0f7b2291e5b200ac8c7c3b925";
     "0x000000000000000000000000def0000000000000000000000000000000000002";
     "0x000000000000000000000000abc0000000000000000000000000000000000001"]
    "0x8ac7230489e80000".

Definition usdt_log_elsewhere : Log :=
  mkLog "0x55d398326f99059ff775485246999027b3197955"
    ["0xddf252ad1be2c89b69c2b068fc378daa952ba7f163c4a11628f55a4df523b3ef";
     "0x000000000000000000000000def0000000000000000000000000000000000002";
     "0x000000000000000000000000fee0000000000000000000000000000000000003"]
    "0x8ac7230489e80000".

(** A BSC node on which the hash is a successful transaction with the logs
    [l], mined at block 100, the head being at [100 + depth]. *)
Definition bsc_with (l : list Log) (depth : Z) : Bsc :=
  mkBsc (fun _ => Done (Some (mkReceipt (Some 1) 100 l)))
    (Done (100 + depth)) (fun _ => Done true) (Done 18)
    (fun a => Done a) (fun _ _ => Done "10.0").

(** A Solana node on which every signature is the transfer of 1 SOL of
    slot 100, the current slot being [current]. *)
Definition sol_node_at (current : Z) : Solana :=
  mkSolana (fun _ => Done true)
    (fun _ => Done (Some (Sample.sol_transfer 1000000000)))
    (fun _ => Done None) (Done current).

(** A transfer of 1 SOL as the node returns it: the message lists the
    account keys, and its one instruction names the program and the accounts
    by their index in that list, so that it has no [programId] and its
    accounts are the numbers 0 and 1. *)
Definition sol_compiled : SolTransaction :=
  mkSolTransaction 100
    (Some (mkMeta None [5000000000; 0; 1] [3999995000; 1000000000; 1]))
    ["Sender1"; "So1WalletAddr"; SYSTEM_PROGRAM]
    (Some [mkInstruction "" [""; "1"]
             (Some [2; 0; 0; 0; 0; 202; 154; 59; 0; 0; 0; 0])]).

(** After Alice's request, Bob requests a BEP20 payment of the same plan. *)
Definition create_by_bob : CreateRequest :=
  mkCreateRequest 2%nat (Some (Casts 10%nat)) (Some "BEP20").

Definition two_requests : State :=
  snd (createCryptoPayment Sample.env
         (mkCreateWorld 1100 "0.9zzzzzzzzzq" 1101 1102) create_by_bob
         Sample.requested).

(** Alice requests a second SOL payment of the plan and pays once, with
    the signature [SIG1], the only one the node knows.  She submits it for
    the first request as it is, and for the second followed by a space. *)
Definition requested_twice : State :=
  snd (createCryptoPayment Sample.env
         (mkCreateWorld 1100 "0.9zzzzzzzzzq" 1101 1102) Sample.create_by_alice
         Sample.requested).

Definition by_alice_again (h : string) : VerifyRequest :=
  mkVerifyRequest 1%nat (Some "crypto-1100-9zzzzzzzz") (Some h).

Definition paid_once : World :=
  Sample.world 1500 1600 Sample.bsc_down Sample.sol_ledger (Js.of_Z 20).

Definition submitted_once : State :=
  snd (verifyCryptoTransaction Sample.env paid_once
         (Sample.by_alice_created "SIG1") requested_twice).

Definition submitted_twice : State :=
  snd (verifyCryptoTransaction Sample.env paid_once
         (by_alice_again Sample.SIG1_spaced) submitted_once).

(** An environment whose expiry setting does not start with a digit. *)
Definition env_bad_expiry : Env :=
  mkEnv (Some "0xAbC0000000000000000000000000000000000001")
    (Some "So1WalletAddr") (Some "half an hour") (Some "https://bsc.example")
    (Some "https://sol.example") None None.

End Cases.

(* ================================================================== *)
(** * Payments over time *)
(* ================================================================== *)

(** What a payment request is made of at its creation. *)
Record Request := mkRequest {
  r_id : ObjectId;
  r_paymentId : string;
  r_userId : ObjectId;
  r_planId : ObjectId;
  r_network : Network;
  r_token : Token;
  r_walletAddress : string;
  r_memo : string;
  r_expiresAt : Z;
  r_createdAt : Z
}.

Definition request_of (p : CryptoPayment.t) : Request :=
  mkRequest (CryptoPayment._id p) (CryptoPayment.paymentId p)
    (CryptoPayment.userId p) (CryptoPayment.planId p)
    (CryptoPayment.network p) (CryptoPayment.token p)
    (CryptoPayment.walletAddress p) (CryptoPayment.memo p)
    (CryptoPayment.expiresAt p) (CryptoPayment.createdAt p).

Definition same_request (p p' : CryptoPayment.t) : Prop :=
  request_of p' = request_of p.

(** A later version of a stored payment: the same request, and the same
    document once it was confirmed. *)
Definition later_version (p p' : CryptoPayment.t) : Prop :=
  same_request p p' /\ (CryptoPayment.status p = confirmed -> p' = p).

(** The collection later on: every payment in a later version, in place,
    and new ones after them. *)
Definition evolves (l l' : list CryptoPayment.t) : Prop :=
  exists l1 l2, l' = (l1 ++ l2)%list /\ Forall2 later_version l l1.

(** Every payment has its own [_id], allocated below the counter, and its
    own [paymentId]. *)
Definition well_keyed (st : State) : Prop :=
  NoDup (map CryptoPayment._id (payments (db st)))
  /\ NoDup (map CryptoPayment.paymentId (payments (db st)))
  /\ Forall (fun p => (CryptoPayment._id p < next_id (db st))%nat)
       (payments (db st)).

(** The payments are as they were, or the stored version of the request
    [cp0] was replaced by another version of it. *)
Definition rewrites (cp0 : CryptoPayment.t) (st st' : State) : Prop :=
  payments (db st') = payments (db st)
  \/ exists p, same_request cp0 p
               /\ CryptoPayment.replace (payments (db st)) p
                  = Some (payments (db st')).

(** What a handler step continues with satisfies [Q]. *)
Definition returns {A} (Q : A -> Prop) (m : Route A) : Prop :=
  forall st, match fst (m st) with Next a => Q a | _ => True end.

(** Any number of requests served one after the other. *)
Inductive steps : State -> State -> Prop :=
| steps_none st : steps st st
| steps_more st st' st'' : steps st st' -> step st' st'' -> steps st st''.
(* ================================================================== *)
(** * Collections *)
(* ================================================================== *)

Unset Implicit Arguments.

Lemma Status_eqb_eq (a b : Status) : Status_eqb a b = true <-> a = b.
Proof. destruct a, b; simpl; split; congruence. Qed.

Lemma Status_eqb_neq (a b : Status) : Status_eqb a b = false <-> a <> b.
Proof. destruct a, b; simpl; split; congruence. Qed.

(** Saving a document found by its payment id succeeds, and the lookup by
    that id then returns what was saved. *)
Lemma replace_found (l : list CryptoPayment.t) (pid : string)
    (cp p : CryptoPayment.t) :
  CryptoPayment.findByPaymentId l pid = Some cp ->
  CryptoPayment._id p = CryptoPayment._id cp ->
  CryptoPayment.paymentId p = pid ->
  exists l', CryptoPayment.replace l p = Some l'
             /\ CryptoPayment.findByPaymentId l' pid = Some p.
Proof.
  intros Hfind Hid Hpid. induction l as [|q r IH]; simpl in *; [discriminate|].
  destruct (Nat.eqb (CryptoPayment._id q) (CryptoPayment._id p)) eqn:E.
  - exists (p :: r). split; [reflexivity|]. simpl.
    rewrite Hpid, String.eqb_refl. reflexivity.
  - destruct (String.eqb (CryptoPayment.paymentId q) pid) eqn:Eq.
    + inversion Hfind; subst q. rewrite Hid, Nat.eqb_refl in E. discriminate.
    + destruct (IH Hfind) as (l' & Hr & Hf). exists (q :: l').
      rewrite Hr. split; [reflexivity|]. simpl. rewrite Eq. exact Hf.
Qed.

(** A save of the payment itself leaves the duplicate-hash query without a
    match when it had none. *)
Lemma replace_keeps_no_duplicate (l l' : list CryptoPayment.t) (h : string)
    (p : CryptoPayment.t) :
  CryptoPayment.findConfirmedWithHash l h (CryptoPayment._id p) = None ->
  CryptoPayment.replace l p = Some l' ->
  CryptoPayment.findConfirmedWithHash l' h (CryptoPayment._id p) = None.
Proof.
  unfold CryptoPayment.findConfirmedWithHash. revert l'.
  induction l as [|q r IH]; simpl; intros l' Hnone Hrep; [discriminate|].
  destruct (CryptoPayment.confirmed_elsewhere h (CryptoPayment._id p) q) eqn:Eq;
    [discriminate|].
  destruct (Nat.eqb (CryptoPayment._id q) (CryptoPayment._id p)) eqn:E.
  - inversion Hrep; subst l'. simpl.
    unfold CryptoPayment.confirmed_elsewhere at 1.
    rewrite Nat.eqb_refl, andb_false_r. exact Hnone.
  - destruct (CryptoPayment.replace r p) as [r'|] eqn:Er; [|discriminate].
    inversion Hrep; subst l'. simpl. rewrite Eq. apply IH; auto.
Qed.

(** A confirmed payment carrying the hash, other than the one submitted
    for, is what the duplicate-hash query finds. *)
Lemma duplicate_found (l : list CryptoPayment.t) (h : string) (self : ObjectId)
    (a : CryptoPayment.t) :
  In a l -> CryptoPayment.status a = confirmed ->
  CryptoPayment.transactionHash a = Some h -> CryptoPayment._id a <> self ->
  exists e, CryptoPayment.findConfirmedWithHash l h self = Some e.
Proof.
  intros Hin Hst Hh Hid. unfold CryptoPayment.findConfirmedWithHash.
  destruct (find (CryptoPayment.confirmed_elsewhere h self) l) as [e|] eqn:E.
  - exists e. reflexivity.
  - exfalso. pose proof (find_none _ _ E _ Hin) as Hf.
    unfold CryptoPayment.confirmed_elsewhere, CryptoPayment.same_hash in Hf.
    rewrite Hh, Hst, String.eqb_refl in Hf. simpl in Hf.
    apply Nat.eqb_neq in Hid. rewrite Hid in Hf. discriminate.
Qed.

(** ** The ledger's hashes *)

Lemma hashes_app (l : list Transaction.t) (d : Transaction.t) :
  Transaction.hashes (l ++ [d]) =
  (Transaction.hashes l ++
   match Transaction.cryptoTransactionHash d with
   | Some h => [h]
   | None => []
   end)%list.
Proof.
  induction l as [|q r IH]; simpl.
  - destruct (Transaction.cryptoTransactionHash d); reflexivity.
  - rewrite IH. destruct (Transaction.cryptoTransactionHash q); reflexivity.
Qed.

Lemma holds_hash_In (l : list Transaction.t) (h : string) :
  existsb (Transaction.holds Transaction.cryptoTransactionHash h) l = true
  <-> In h (Transaction.hashes l).
Proof.
  induction l as [|q r IH]; simpl; [split; [discriminate|tauto]|].
  unfold Transaction.holds at 1.
  destruct (Transaction.cryptoTransactionHash q) as [h'|]; simpl.
  - destruct (String.eqb h' h) eqn:E; simpl.
    + apply String.eqb_eq in E. subst. tauto.
    + apply String.eqb_neq in E. rewrite IH. split; [tauto|].
      intros [H|H]; [contradiction|exact H].
  - exact IH.
Qed.

(** The index refuses a document exactly when the document has a hash and
    the ledger already holds that hash. *)
Lemma index_refuses_iff (l : list Transaction.t) (d : Transaction.t) :
  Transaction.index_admits Transaction.cryptoTransactionHash l d = false
  <-> exists h, Transaction.cryptoTransactionHash d = Some h
                /\ In h (Transaction.hashes l).
Proof.
  unfold Transaction.index_admits.
  destruct (Transaction.cryptoTransactionHash d) as [h|].
  - rewrite negb_false_iff, holds_hash_In. split.
    + intros H. exists h. auto.
    + intros (h' & Heq & Hin). inversion Heq; subst. exact Hin.
  - split; [discriminate|]. intros (h & Heq & _). discriminate.
Qed.

Lemma stored_hash (fresh : ObjectId) (d : Transaction.t) :
  Transaction.cryptoTransactionHash (Transaction.stored fresh d)
  = Transaction.cryptoTransactionHash d.
Proof. reflexivity. Qed.

(** What a successful [create] returns. *)
Lemma create_done (l l' : list Transaction.t) (fresh : ObjectId)
    (d t : Transaction.t) :
  Transaction.create l fresh d = Done (t, l') ->
  t = Transaction.stored fresh d /\ l' = (l ++ [t])%list
  /\ Transaction.valid d = true
  /\ Transaction.index_admits Transaction.cryptoTransactionHash l d = true.
Proof.
  unfold Transaction.create. intros H.
  destruct (Transaction.valid d); [|discriminate].
  destruct (Transaction.index_admits Transaction.stripePaymentIntentId l d);
    [|discriminate].
  destruct (Transaction.index_admits Transaction.stripeSessionId l d);
    [|discriminate].
  destruct (Transaction.index_admits Transaction.cryptoTransactionHash l d);
    [|discriminate].
  inversion H; subst. auto.
Qed.

(** An insert keeps the hashes of the ledger pairwise distinct. *)
Lemma create_keeps_distinct (l l' : list Transaction.t) (fresh : ObjectId)
    (d t : Transaction.t) :
  Transaction.create l fresh d = Done (t, l') ->
  NoDup (Transaction.hashes l) -> NoDup (Transaction.hashes l').
Proof.
  intros H Hnd. destruct (create_done _ _ _ _ _ H) as (Ht & Hl & _ & Hadm).
  subst l'. rewrite hashes_app. subst t. rewrite stored_hash.
  unfold Transaction.index_admits in Hadm.
  destruct (Transaction.cryptoTransactionHash d) as [h|].
  - apply negb_true_iff in Hadm.
    assert (~ In h (Transaction.hashes l)) as Hnot.
    { intros Hin. apply holds_hash_In in Hin. congruence. }
    clear Hadm. induction (Transaction.hashes l) as [|x xs IH]; simpl.
    + constructor; [simpl; tauto | constructor].
    + inversion Hnd; subst. constructor.
      * intros Hin. apply in_app_or in Hin. destruct Hin as [Hin|[Hin|[]]].
        -- contradiction.
        -- subst. apply Hnot. left. reflexivity.
      * apply IH; auto. intros Hin. apply Hnot. right. exact Hin.
  - rewrite app_nil_r. exact Hnd.
Qed.

Lemma hashes_set_status (selected : Transaction.t -> bool) (s : string)
    (why : option string) (l : list Transaction.t) :
  Transaction.hashes
    (map (fun d => if selected d then Transaction.set_status d s why else d) l)
  = Transaction.hashes l.
Proof.
  induction l as [|q r IH]; simpl; [reflexivity|].
  rewrite IH. destruct (selected q); reflexivity.
Qed.

(* ================================================================== *)
(** * Handler steps *)
(* ================================================================== *)

Lemma bind_Next {A B} (m : Route A) (k : A -> Route B) (st st' : State) (a : A) :
  m st = (Next a, st') -> bind m k st = k a st'.
Proof. unfold bind. intros ->. reflexivity. Qed.

Lemma bind_Reply {A B} (m : Route A) (k : A -> Route B) (st st' : State)
    (r : Response) :
  m st = (Reply r, st') -> bind m k st = (Reply r, st').
Proof. unfold bind. intros ->. reflexivity. Qed.

Lemma bind_Raise {A B} (m : Route A) (k : A -> Route B) (st st' : State)
    (e : string) :
  m st = (Raise e, st') -> bind m k st = (Raise e, st').
Proof. unfold bind. intros ->. reflexivity. Qed.

(** The state a handler leaves is the state its body leaves. *)
Lemma handle_state (h : Route Response) (on_error : string -> Response)
    (st : State) :
  snd (handle h on_error st) = snd (h st).
Proof. unfold handle. destruct (h st) as [[r|r|e] st']; reflexivity. Qed.

Lemma save_payment_done (st : State) (p : CryptoPayment.t)
    (assigned : list (option float)) (l' : list CryptoPayment.t) :
  forallb CryptoPayment.castable assigned = true ->
  CryptoPayment.replace (payments (db st)) p = Some l' ->
  save_payment p assigned st = (Next tt, with_payments st l').
Proof.
  intros Hc Hr. unfold save_payment, bind, read_db, attempt, CryptoPayment.save.
  rewrite Hc, Hr. reflexivity.
Qed.

(** A save either writes the payments or throws with the state as it was. *)
Lemma save_payment_cases (st : State) (p : CryptoPayment.t)
    (assigned : list (option float)) :
  (exists l', CryptoPayment.replace (payments (db st)) p = Some l'
              /\ save_payment p assigned st = (Next tt, with_payments st l'))
  \/ (exists e, save_payment p assigned st = (Raise e, st)).
Proof.
  unfold save_payment, bind, read_db, attempt, CryptoPayment.save.
  destruct (forallb CryptoPayment.castable assigned).
  - destruct (CryptoPayment.replace (payments (db st)) p) as [l'|].
    + left. exists l'. auto.
    + right. eexists. reflexivity.
  - right. eexists. reflexivity.
Qed.

(** An insert either appends the payment and takes the id, or throws with
    the state as it was. *)
Lemma insert_payment_cases (doc : ObjectId -> CryptoPayment.t) (st : State) :
  (exists l',
      CryptoPayment.create (payments (db st)) (doc (next_id (db st))) = Done l'
      /\ insert_payment doc st
         = (Next tt,
            mkState (mkDatabase (users (db st)) (plans (db st)) l'
                       (transactions (db st)) (S (next_id (db st))))
              (cache st) (feed_requests st)))
  \/ (exists e, insert_payment doc st = (Raise e, st)).
Proof.
  unfold insert_payment, bind, read_db, attempt.
  destruct (CryptoPayment.create (payments (db st)) (doc (next_id (db st))))
    as [l'|e].
  - left. exists l'. split; reflexivity.
  - right. exists e. reflexivity.
Qed.

Section Respects.

Variable R : State -> State -> Prop.
Hypothesis R_refl : forall st, R st st.
Hypothesis R_trans : forall a b c, R a b -> R b c -> R a c.
Hypothesis R_payments : forall st l, R st (with_payments st l).
Hypothesis R_cache : forall st c n, R st (mkState (db st) c n).
Hypothesis R_insert :
  forall st l,
    R st (mkState (mkDatabase (users (db st)) (plans (db st)) l
                     (transactions (db st)) (S (next_id (db st))))
            (cache st) (feed_requests st)).

Lemma respects_ret {A} (a : A) : respects R (ret a).
Proof. intros st. apply R_refl. Qed.

Lemma respects_reply {A} (c : Z) (b : Body) : respects R (@reply A c b).
Proof. intros st. apply R_refl. Qed.

Lemma respects_raise {A} (e : string) : respects R (@raise A e).
Proof. intros st. apply R_refl. Qed.

Lemma respects_read_db : respects R read_db.
Proof. intros st. apply R_refl. Qed.

Lemma respects_bind {A B} (m : Route A) (k : A -> Route B) :
  respects R m -> (forall a, respects R (k a)) -> respects R (bind m k).
Proof.
  intros Hm Hk st. unfold bind. specialize (Hm st).
  destruct (m st) as [[a|r|e] st']; simpl in *; auto.
  eapply R_trans; [exact Hm | apply Hk].
Qed.

Lemma respects_save_payment (p : CryptoPayment.t)
    (assigned : list (option float)) :
  respects R (save_payment p assigned).
Proof.
  intros st. destruct (save_payment_cases st p assigned)
    as [(l' & _ & ->)|(e & ->)]; simpl; auto.
Qed.

Lemma respects_insert_payment (doc : ObjectId -> CryptoPayment.t) :
  respects R (insert_payment doc).
Proof.
  intros st. destruct (insert_payment_cases doc st)
    as [(l' & _ & ->)|(e & ->)]; simpl; auto.
Qed.

Lemma respects_lookup (f : Cache -> Lookup) : respects R (lookup f).
Proof.
  intros st. unfold lookup, after_lookup.
  destruct (rate (f (cache st))); simpl; apply R_cache.
Qed.

Ltac respects_step :=
  first
    [ apply respects_ret | apply respects_reply | apply respects_raise
    | apply respects_read_db | apply respects_save_payment
    | apply respects_lookup | apply respects_insert_payment
    | apply respects_bind; [ | intros ]
    | match goal with
      | |- respects _ (match ?x with _ => _ end) => destruct x
      | |- respects _ (if ?x then _ else _) => destruct x
      end ].

Lemma respects_load_payment (req : VerifyRequest) :
  respects R (load_payment req).
Proof. unfold load_payment. repeat respects_step. Qed.

Lemma respects_submit (w : World) (cp : CryptoPayment.t) (h : string) :
  respects R (submit w cp h).
Proof. unfold submit. repeat respects_step. Qed.

Lemma respects_verify_on_chain (env : Env) (w : World) (cp : CryptoPayment.t)
    (h : string) :
  respects R (verify_on_chain env w cp h).
Proof. unfold verify_on_chain. cbv zeta. repeat respects_step. Qed.

Lemma respects_mark_confirmed (w : World) (cp : CryptoPayment.t)
    (v : VerificationData) (h : string) :
  respects R (mark_confirmed w cp v h).
Proof. unfold mark_confirmed. cbv zeta. repeat respects_step. Qed.

Lemma respects_load_plan_and_user (req : VerifyRequest) (cp : CryptoPayment.t) :
  respects R (load_plan_and_user req cp).
Proof. unfold load_plan_and_user. repeat respects_step. Qed.

Lemma respects_convert (env : Env) (w : World) (cp : CryptoPayment.t)
    (v : VerificationData) :
  respects R (convert env w cp v).
Proof. unfold convert. cbv zeta. repeat respects_step. Qed.

(** The whole handler, given that the commit respects [R]. *)
Lemma respects_verify (env : Env) (w : World) (req : VerifyRequest) :
  (forall plan user c v h, respects R (settle req plan user c v h)) ->
  forall st, R st (snd (verifyCryptoTransaction env w req st)).
Proof.
  intros Hsettle st. unfold verifyCryptoTransaction. rewrite handle_state.
  revert st. change (respects R (verifyCryptoTransaction_try env w req)).
  unfold verifyCryptoTransaction_try.
  apply respects_bind; [apply respects_load_payment | intros].
  apply respects_bind; [apply respects_submit | intros].
  apply respects_bind; [apply respects_verify_on_chain | intros].
  apply respects_bind; [apply respects_mark_confirmed | intros].
  apply respects_bind; [apply respects_load_plan_and_user | intros].
  apply respects_bind; [apply respects_convert | intros].
  apply Hsettle.
Qed.

Lemma respects_create (env : Env) (w : CreateWorld) (req : CreateRequest) :
  forall st, R st (snd (createCryptoPayment env w req st)).
Proof.
  intros st. unfold createCryptoPayment. rewrite handle_state.
  revert st. change (respects R (createCryptoPayment_try env w req)).
  unfold createCryptoPayment_try.
  repeat respects_step.
Qed.

End Respects.

(* ================================================================== *)
(** * The ledger holds each transaction hash once *)
(* ================================================================== *)

Lemma create_transaction_cases (doc : Transaction.t) (st : State) :
  (exists t l',
      Transaction.create (transactions (db st)) (next_id (db st)) doc
      = Done (t, l')
      /\ create_transaction doc st
         = (Next t,
            mkState (mkDatabase (users (db st)) (plans (db st))
                       (payments (db st)) l' (S (next_id (db st))))
              (cache st) (feed_requests st)))
  \/ (exists e, create_transaction doc st = (Raise e, st)).
Proof.
  unfold create_transaction, bind, read_db, attempt.
  destruct (Transaction.create (transactions (db st)) (next_id (db st)) doc)
    as [[t l']|e].
  - left. exists t, l'. split; reflexivity.
  - right. exists e. reflexivity.
Qed.

Lemma keeps_distinct_refl (st : State) : keeps_distinct st st.
Proof. unfold keeps_distinct. auto. Qed.

Lemma keeps_distinct_trans (a b c : State) :
  keeps_distinct a b -> keeps_distinct b c -> keeps_distinct a c.
Proof. unfold keeps_distinct. auto. Qed.

Lemma create_transaction_keeps_distinct (doc : Transaction.t) :
  respects keeps_distinct (create_transaction doc).
Proof.
  intros st. destruct (create_transaction_cases doc st)
    as [(t & l' & Hc & ->)|(e & ->)]; simpl.
  - unfold keeps_distinct, distinct_hashes. simpl.
    apply (create_keeps_distinct _ _ _ _ _ Hc).
  - apply keeps_distinct_refl.
Qed.

Lemma settle_keeps_distinct (req : VerifyRequest) (plan : PaymentPlan.t)
    (user : User.t) (c : Conversion) (v : VerificationData) (h : string) :
  respects keeps_distinct (settle req plan user c v h).
Proof.
  unfold settle. apply (respects_bind _ keeps_distinct_trans).
  - intros st. apply keeps_distinct_refl.
  - intros d.
    destruct (Transaction.findByCryptoHash (transactions d) h).
    + intros st. apply keeps_distinct_refl.
    + apply (respects_bind _ keeps_distinct_trans).
      * apply create_transaction_keeps_distinct.
      * intros t st. unfold keeps_distinct, distinct_hashes. simpl. auto.
Qed.

Lemma verify_keeps_distinct (env : Env) (w : World) (req : VerifyRequest)
    (st : State) :
  keeps_distinct st (snd (verifyCryptoTransaction env w req st)).
Proof.
  apply (respects_verify _ keeps_distinct_refl keeps_distinct_trans).
  - intros s l. unfold keeps_distinct, distinct_hashes. simpl. auto.
  - intros s c n. unfold keeps_distinct, distinct_hashes. simpl. auto.
  - intros. apply settle_keeps_distinct.
Qed.

(** Creating a payment request does not write the ledger. *)
Lemma create_payment_ledger (env : Env) (w : CreateWorld) (req : CreateRequest)
    (st : State) :
  transactions (db (snd (createCryptoPayment env w req st)))
  = transactions (db st).
Proof.
  apply (respects_create
           (fun a b => transactions (db b) = transactions (db a))).
  - reflexivity.
  - intros a b c Hab Hbc. congruence.
  - reflexivity.
Qed.

Lemma step_keeps_distinct (st st' : State) :
  step st st' -> keeps_distinct st st'.
Proof.
  intros Hstep. destruct Hstep.
  - unfold keeps_distinct, distinct_hashes.
    rewrite create_payment_ledger. auto.
  - apply verify_keeps_distinct.
  - unfold keeps_distinct, distinct_hashes. simpl. auto.
  - apply create_transaction_keeps_distinct.
  - unfold keeps_distinct, distinct_hashes. simpl.
    rewrite hashes_set_status. auto.
  - unfold keeps_distinct, distinct_hashes. simpl. auto.
Qed.

Lemma reachable_distinct (st : State) : reachable st -> distinct_hashes st.
Proof.
  induction 1 as [|st st' _ IH Hstep].
  - unfold distinct_hashes. simpl. constructor.
  - exact (step_keeps_distinct _ _ Hstep IH).
Qed.

(** The duplicate guard of the commit: with an entry for the hash in the
    ledger, the reply is built from that entry and nothing is written. *)
Lemma settle_existing (req : VerifyRequest) (plan : PaymentPlan.t)
    (user : User.t) (c : Conversion) (v : VerificationData) (h : string)
    (st : State) (t : Transaction.t) :
  Transaction.findByCryptoHash (transactions (db st)) h = Some t ->
  settle req plan user c v h st
  = (Next (mkResponse 200
             (Verified (mkVerifiedData (Transaction.quotaAmount t)
                          (User.availableUsage user) (Transaction._id t)
                          (PrimFloat.div (Transaction.amount t) (Js.of_Z 100))
                          (vd_confirmationCount v) true))), st).
Proof.
  intros Hf. unfold settle, bind, read_db. rewrite Hf. reflexivity.
Qed.

(** A refused insert throws. *)
Lemma refused_insert_throws (l : list Transaction.t) (fresh : ObjectId)
    (d : Transaction.t) :
  Transaction.index_admits Transaction.cryptoTransactionHash l d = false ->
  exists e, Transaction.create l fresh d = Throw e.
Proof.
  intros H. unfold Transaction.create. rewrite H.
  destruct (Transaction.valid d); [|eexists; reflexivity].
  destruct (Transaction.index_admits Transaction.stripePaymentIntentId l d);
    [|eexists; reflexivity].
  destruct (Transaction.index_admits Transaction.stripeSessionId l d);
    eexists; reflexivity.
Qed.

(** C1 on a transfer submitted twice.  The guards of the handler and the
    unique index compare the hash as it was submitted, while the SOL
    verifier strips the white space from it before it asks the node.  Alice
    holds two pending requests and pays once, with the signature [SIG1]; the
    node knows no other signature.  She submits [SIG1] for the first request
    and [SIG1] followed by a space for the second.  Both submissions verify
    against the one transfer and both payments are confirmed with its
    amount; each call records a Transaction and then fails with the
    internal error.  The state reached holds two Transactions for the one
    on-chain transaction: their hashes differ as strings, which is all the
    index sees, and name the same signature. *)
Theorem one_transfer_is_recorded_twice :
  reachable Cases.submitted_twice
  /\ Js.strip_spaces Sample.SIG1_spaced = "SIG1"
  /\ getSignatureStatuses Sample.sol_ledger Sample.SIG1_spaced = Done false
  /\ map (fun p => (CryptoPayment.paymentId p, CryptoPayment.status p,
                    CryptoPayment.transactionHash p,
                    CryptoPayment.verifiedAmount p))
       (payments (db Cases.submitted_twice))
     = [("crypto-1000-4fzyo82mv", confirmed, Some "SIG1", Some (Js.of_Z 1));
        ("crypto-1100-9zzzzzzzz", confirmed, Some Sample.SIG1_spaced,
         Some (Js.of_Z 1))]
  /\ fst (verifyCryptoTransaction Sample.env Cases.paid_once
            (Sample.by_alice_created "SIG1") Cases.requested_twice)
     = internal_error
  /\ fst (verifyCryptoTransaction Sample.env Cases.paid_once
            (Cases.by_alice_again Sample.SIG1_spaced) Cases.submitted_once)
     = internal_error
  /\ map Transaction.cryptoTransactionHash
       (transactions (db Cases.submitted_twice))
     = [Some "SIG1"; Some Sample.SIG1_spaced]
  /\ map Js.strip_spaces
       (Transaction.hashes (transactions (db Cases.submitted_twice)))
     = ["SIG1"; "SIG1"]
  /\ distinct_hashes Cases.submitted_twice.
Proof.
  assert (reachable Cases.submitted_twice) as Hreach.
  { apply reachable_step with (st := Cases.submitted_once);
      [|apply step_verify].
    apply reachable_step with (st := Cases.requested_twice);
      [|apply step_verify].
    apply reachable_step with (st := Sample.requested);
      [|apply step_create].
    apply reachable_step with (st := Sample.registered);
      [|apply step_create].
    apply reachable_step with (st := initial);
      [apply reachable_initial | apply step_accounts]. }
  split; [exact Hreach|].
  repeat split; try (vm_compute; reflexivity).
  exact (reachable_distinct _ Hreach).
Qed.

(* ================================================================== *)
(** * The phases of POST /verify-crypto-transaction *)
(* ================================================================== *)

Lemma stored_after_save (st : State) (pid : string) (cp p : CryptoPayment.t) :
  stored_payment st pid = Some cp ->
  CryptoPayment._id p = CryptoPayment._id cp ->
  CryptoPayment.paymentId p = pid ->
  exists l', CryptoPayment.replace (payments (db st)) p = Some l'
             /\ stored_payment (with_payments st l') pid = Some p.
Proof. unfold stored_payment. simpl. apply replace_found. Qed.

Lemma stored_paymentId (st : State) (pid : string) (cp : CryptoPayment.t) :
  stored_payment st pid = Some cp -> CryptoPayment.paymentId cp = pid.
Proof.
  unfold stored_payment. induction (payments (db st)) as [|q r IH]; simpl.
  - discriminate.
  - destruct (String.eqb (CryptoPayment.paymentId q) pid) eqn:E; auto.
    intros H. inversion H; subst. apply String.eqb_eq. exact E.
Qed.

Lemma hash_unused_none (st : State) (h : string) (self : ObjectId) :
  hash_unused st h self ->
  CryptoPayment.findConfirmedWithHash (payments (db st)) h self = None.
Proof.
  intros Hun. unfold CryptoPayment.findConfirmedWithHash.
  destruct (find (CryptoPayment.confirmed_elsewhere h self) (payments (db st)))
    as [e|] eqn:E; [|reflexivity].
  apply find_some in E. destruct E as [Hin He].
  unfold CryptoPayment.confirmed_elsewhere, CryptoPayment.same_hash in He.
  apply andb_true_iff in He. destruct He as [He Hid].
  apply andb_true_iff in He. destruct He as [Hh Hs].
  destruct (CryptoPayment.transactionHash e) as [h'|] eqn:Eh; [|discriminate].
  apply String.eqb_eq in Hh. subst h'. apply Status_eqb_eq in Hs.
  rewrite (Hun e Hin Hs Eh), Nat.eqb_refl in Hid. discriminate.
Qed.

(** Phase 1: validation, lookup, ownership. *)
Lemma load_payment_ok (req : VerifyRequest) (pid h : string) (st : State)
    (cp : CryptoPayment.t) :
  names req pid h -> stored_payment st pid = Some cp ->
  CryptoPayment.userId cp = verify_user req ->
  load_payment req st = (Next (cp, h), st).
Proof.
  intros (Hp & Hh & Hnp & Hnh) Hs Hu. unfold load_payment.
  rewrite Hp, Hh, Hnp, Hnh. simpl. unfold bind, read_db.
  unfold stored_payment in Hs. rewrite Hs, Hu, Nat.eqb_refl. reflexivity.
Qed.

Lemma load_payment_cases (req : VerifyRequest) (st : State) :
  (exists pid h cp,
      names req pid h /\ stored_payment st pid = Some cp
      /\ CryptoPayment.userId cp = verify_user req
      /\ load_payment req st = (Next (cp, h), st))
  \/ (exists r, load_payment req st = (Reply r, st)
                /\ success (body r) = false).
Proof.
  unfold load_payment.
  destruct (body_paymentId req) as [pid|] eqn:Ep;
    [|right; eexists; split; reflexivity].
  destruct (body_txnHash req) as [h|] eqn:Eh;
    [|right; eexists; split; reflexivity].
  destruct (Js.nonempty pid) eqn:Enp; simpl;
    [|right; eexists; split; reflexivity].
  destruct (Js.nonempty h) eqn:Enh; simpl;
    [|right; eexists; split; reflexivity].
  unfold bind, read_db.
  destruct (CryptoPayment.findByPaymentId (payments (db st)) pid) as [cp|] eqn:Ef;
    [|right; eexists; split; reflexivity].
  destruct (Nat.eqb (CryptoPayment.userId cp) (verify_user req)) eqn:Eu; simpl;
    [|right; eexists; split; reflexivity].
  left. exists pid, h, cp. apply Nat.eqb_eq in Eu.
  repeat split; auto.
Qed.

(** Phase 2: the guards. *)
Lemma submit_confirmed (w : World) (cp : CryptoPayment.t) (h : string)
    (st : State) :
  CryptoPayment.status cp = confirmed ->
  submit w cp h st = (Reply already_confirmed, st).
Proof. intros Hs. unfold submit. rewrite Hs. reflexivity. Qed.

Lemma submit_duplicate (w : World) (cp e : CryptoPayment.t) (h : string)
    (st : State) :
  CryptoPayment.status cp <> confirmed ->
  CryptoPayment.findConfirmedWithHash (payments (db st)) h
    (CryptoPayment._id cp) = Some e ->
  submit w cp h st = (Reply duplicate_hash, st).
Proof.
  intros Hs Hf. unfold submit. apply Status_eqb_neq in Hs. rewrite Hs.
  unfold bind, read_db. rewrite Hf. reflexivity.
Qed.

Lemma submit_expired (w : World) (cp : CryptoPayment.t) (h pid : string)
    (st : State) :
  stored_payment st pid = Some cp ->
  CryptoPayment.status cp <> confirmed ->
  CryptoPayment.findConfirmedWithHash (payments (db st)) h
    (CryptoPayment._id cp) = None ->
  CryptoPayment.expiresAt cp < now_check w ->
  exists l',
    CryptoPayment.replace (payments (db st))
      (CryptoPayment.set_status cp expired) = Some l'
    /\ stored_payment (with_payments st l') pid
       = Some (CryptoPayment.set_status cp expired)
    /\ submit w cp h st = (Reply payment_expired, with_payments st l').
Proof.
  intros Hst Hs Hf Hexp.
  destruct (stored_after_save st pid cp (CryptoPayment.set_status cp expired)
              Hst eq_refl (stored_paymentId _ _ _ Hst)) as (l' & Hr & Hst').
  exists l'. split; [exact Hr|]. split; [exact Hst'|].
  unfold submit. apply Status_eqb_neq in Hs. rewrite Hs.
  unfold bind at 1. unfold read_db at 1. rewrite Hf.
  unfold CryptoPayment.isExpired. apply Z.ltb_lt in Hexp. rewrite Hexp.
  rewrite (bind_Next _ _ _ _ _ (save_payment_done st _ [] l' eq_refl Hr)).
  reflexivity.
Qed.

Lemma submit_accepted (w : World) (cp : CryptoPayment.t) (h pid : string)
    (st : State) :
  stored_payment st pid = Some cp ->
  CryptoPayment.status cp <> confirmed ->
  CryptoPayment.findConfirmedWithHash (payments (db st)) h
    (CryptoPayment._id cp) = None ->
  now_check w <= CryptoPayment.expiresAt cp ->
  exists l',
    CryptoPayment.replace (payments (db st)) (submitted cp h) = Some l'
    /\ stored_payment (with_payments st l') pid = Some (submitted cp h)
    /\ submit w cp h st = (Next (submitted cp h), with_payments st l').
Proof.
  intros Hst Hs Hf Hexp.
  destruct (stored_after_save st pid cp (submitted cp h)
              Hst eq_refl (stored_paymentId _ _ _ Hst)) as (l' & Hr & Hst').
  exists l'. split; [exact Hr|]. split; [exact Hst'|].
  unfold submit. apply Status_eqb_neq in Hs. rewrite Hs.
  unfold bind at 1. unfold read_db at 1. rewrite Hf.
  unfold CryptoPayment.isExpired. apply Z.ltb_ge in Hexp. rewrite Hexp.
  fold (submitted cp h).
  rewrite (bind_Next _ _ _ _ _ (save_payment_done st _ [] l' eq_refl Hr)).
  reflexivity.
Qed.

(* ================================================================== *)
(** * Hash reuse across payments *)
(* ================================================================== *)

(** C4, as amended.  Payment A is confirmed with hash H; the owner of a
    different payment B, itself not yet confirmed, submits H for B.  The
    call is rejected with the duplicate-hash reply and leaves the state as
    it was, so no credits are granted.  Nothing relates A's owner to the
    submitter: the check ranges over the payments of all users. *)
Theorem duplicate_hash_rejected (env : Env) (w : World) (req : VerifyRequest)
    (st : State) (pid h : string) (A B : CryptoPayment.t) :
  names req pid h ->
  stored_payment st pid = Some B ->
  CryptoPayment.userId B = verify_user req ->
  CryptoPayment.status B <> confirmed ->
  In A (payments (db st)) ->
  CryptoPayment._id A <> CryptoPayment._id B ->
  CryptoPayment.status A = confirmed ->
  CryptoPayment.transactionHash A = Some h ->
  verifyCryptoTransaction env w req st = (duplicate_hash, st).
Proof.
  intros Hn Hst Hu HsB Hin Hid HsA Hh.
  destruct (duplicate_found _ _ _ _ Hin HsA Hh Hid) as (e & He).
  unfold verifyCryptoTransaction, handle, verifyCryptoTransaction_try.
  rewrite (bind_Next _ _ _ _ _ (load_payment_ok _ _ _ _ _ Hn Hst Hu)).
  simpl fst. simpl snd.
  rewrite (bind_Reply _ _ _ _ _ (submit_duplicate w _ _ _ _ HsB He)).
  reflexivity.
Qed.

(** Bob submits, for his pending request, the signature that settled
    Alice's. *)
Lemma duplicate_hash_rejected_witness :
  verifyCryptoTransaction Sample.env
    (Sample.world 1500 1600 Sample.bsc_down Sample.sol_down (Js.of_Z 1))
    (Sample.by_bob "SIG1")
    (Sample.state [Sample.sol_settled; Sample.bep_request])
  = (duplicate_hash, Sample.state [Sample.sol_settled; Sample.bep_request]).
Proof.
  apply (duplicate_hash_rejected _ _ _ _ "crypto-1000-bbbbbbbbb" "SIG1"
           Sample.sol_settled Sample.bep_request).
  - repeat split; reflexivity.
  - reflexivity.
  - reflexivity.
  - discriminate.
  - left. reflexivity.
  - discriminate.
  - reflexivity.
  - reflexivity.
Defined.

(** C4, as stated, fails when B is itself confirmed: Bob submits Alice's
    settled signature for his own confirmed payment, and the reply is the
    already-confirmed one, not the duplicate-hash one. *)
Lemma confirmed_payment_masks_duplicate :
  In Sample.sol_settled
     (payments (db (Sample.state [Sample.sol_settled; Sample.bep_settled])))
  /\ CryptoPayment.status Sample.sol_settled = confirmed
  /\ CryptoPayment.transactionHash Sample.sol_settled = Some "SIG1"
  /\ stored_payment (Sample.state [Sample.sol_settled; Sample.bep_settled])
       "crypto-1000-bbbbbbbbb" = Some Sample.bep_settled
  /\ CryptoPayment._id Sample.sol_settled <> CryptoPayment._id Sample.bep_settled
  /\ fst (verifyCryptoTransaction Sample.env
            (Sample.world 1500 1600 Sample.bsc_down Sample.sol_down (Js.of_Z 1))
            (Sample.by_bob "SIG1")
            (Sample.state [Sample.sol_settled; Sample.bep_settled]))
     = already_confirmed
  /\ already_confirmed <> duplicate_hash.
Proof.
  repeat split; try reflexivity; try discriminate.
  left. reflexivity.
Qed.

(** Phase 3: verification on chain. *)
Lemma verify_on_chain_verified (env : Env) (w : World) (cp : CryptoPayment.t)
    (h : string) (st : State) :
  verified (run_verifier env w cp h) = true ->
  verify_on_chain env w cp h st
  = (Next (data_of (run_verifier env w cp h)), st).
Proof. intros Hv. unfold verify_on_chain. cbv zeta. rewrite Hv. reflexivity. Qed.

Lemma verify_on_chain_failed (env : Env) (w : World) (cp : CryptoPayment.t)
    (h pid : string) (st : State) :
  stored_payment st pid = Some cp ->
  verified (run_verifier env w cp h) = false ->
  let e := verificationError (CryptoPayment.network cp)
             (run_verifier env w cp h) in
  exists l',
    CryptoPayment.replace (payments (db st)) (CryptoPayment.fail cp e) = Some l'
    /\ stored_payment (with_payments st l') pid = Some (CryptoPayment.fail cp e)
    /\ verify_on_chain env w cp h st
       = (Reply (mkResponse 400 (Failure e false)), with_payments st l').
Proof.
  intros Hst Hv e.
  destruct (stored_after_save st pid cp (CryptoPayment.fail cp e)
              Hst eq_refl (stored_paymentId _ _ _ Hst)) as (l' & Hr & Hst').
  exists l'. split; [exact Hr|]. split; [exact Hst'|].
  unfold verify_on_chain. cbv zeta. rewrite Hv. fold e.
  rewrite (bind_Next _ _ _ _ _ (save_payment_done st _ [] l' eq_refl Hr)).
  reflexivity.
Qed.

(** Phase 4: the payment is marked confirmed. *)
Lemma mark_confirmed_ok (w : World) (cp : CryptoPayment.t)
    (v : VerificationData) (h pid : string) (st : State) :
  stored_payment st pid = Some cp ->
  CryptoPayment.castable (vd_amount v) = true ->
  let cp2 := CryptoPayment.confirm (now_confirm w) cp (vd_amount v)
               (vd_fromAddress v) (vd_confirmationCount v) h in
  exists l',
    CryptoPayment.replace (payments (db st)) cp2 = Some l'
    /\ stored_payment (with_payments st l') pid = Some cp2
    /\ mark_confirmed w cp v h st = (Next cp2, with_payments st l').
Proof.
  intros Hst Hc cp2.
  destruct (stored_after_save st pid cp cp2 Hst eq_refl
              (stored_paymentId _ _ _ Hst))
    as (l' & Hr & Hst').
  exists l'. split; [exact Hr|]. split; [exact Hst'|].
  unfold mark_confirmed. cbv zeta. fold cp2.
  assert (forallb CryptoPayment.castable [vd_amount v] = true) as Hall
      by (simpl; rewrite Hc; reflexivity).
  rewrite (bind_Next _ _ _ _ _ (save_payment_done st _ _ l' Hall Hr)).
  reflexivity.
Qed.

Lemma mark_confirmed_nan (w : World) (cp : CryptoPayment.t)
    (v : VerificationData) (h : string) (st : State) :
  CryptoPayment.castable (vd_amount v) = false ->
  exists e, mark_confirmed w cp v h st = (Raise e, st).
Proof.
  intros Hc. unfold mark_confirmed, save_payment, bind, read_db, attempt,
    CryptoPayment.save. simpl. rewrite Hc. simpl. eexists. reflexivity.
Qed.

(** Phase 5: the plan and the user. *)
Lemma load_plan_and_user_cases (req : VerifyRequest) (cp : CryptoPayment.t)
    (st : State) :
  (exists plan user,
      PaymentPlan.findById (plans (db st)) (CryptoPayment.planId cp) = Some plan
      /\ User.findById (users (db st)) (verify_user req) = Some user
      /\ load_plan_and_user req cp st = (Next (plan, user), st))
  \/ (exists r, load_plan_and_user req cp st = (Reply r, st)
                /\ success (body r) = false).
Proof.
  unfold load_plan_and_user, bind, read_db.
  destruct (PaymentPlan.findById (plans (db st)) (CryptoPayment.planId cp))
    as [plan|]; [|right; eexists; split; reflexivity].
  destruct (User.findById (users (db st)) (verify_user req)) as [user|];
    [|right; eexists; split; reflexivity].
  left. exists plan, user. auto.
Qed.

(** Phase 6: the conversion. *)
Lemma convert_rate_unavailable (env : Env) (w : World) (cp : CryptoPayment.t)
    (v : VerificationData) (st : State) (e : string) :
  rate (rate_lookup env w (CryptoPayment.network cp) (cache st)) = Throw e ->
  convert env w cp v st
  = (Raise e,
     after_lookup st (rate_lookup env w (CryptoPayment.network cp) (cache st))).
Proof.
  intros Hr. unfold convert, bind, lookup. cbv zeta. rewrite Hr. reflexivity.
Qed.

Lemma convert_insufficient (env : Env) (w : World) (cp : CryptoPayment.t)
    (v : VerificationData) (st : State) (r : float) :
  rate (rate_lookup env w (CryptoPayment.network cp) (cache st)) = Done r ->
  Js.le (dynamicCredits (usd_value (vd_amount v) r)) 0 = true ->
  convert env w cp v st
  = (Reply (mkResponse 400
              (Failure (insufficient (usd_value (vd_amount v) r)) false)),
     after_lookup st (rate_lookup env w (CryptoPayment.network cp) (cache st))).
Proof.
  intros Hr Hle. unfold convert, bind, lookup. cbv zeta. rewrite Hr.
  fold (usd_value (vd_amount v) r). rewrite Hle. reflexivity.
Qed.

Lemma convert_credits (env : Env) (w : World) (cp : CryptoPayment.t)
    (v : VerificationData) (pid : string) (st : State) (r : float) :
  stored_payment st pid = Some cp ->
  rate (rate_lookup env w (CryptoPayment.network cp) (cache st)) = Done r ->
  let usd := usd_value (vd_amount v) r in
  Js.le (dynamicCredits usd) 0 = false ->
  Js.isNaN (two_decimals usd) = false ->
  let cp3 := CryptoPayment.set_amount cp (two_decimals usd) in
  let st1 := after_lookup st
               (rate_lookup env w (CryptoPayment.network cp) (cache st)) in
  exists l',
    CryptoPayment.replace (payments (db st)) cp3 = Some l'
    /\ stored_payment (with_payments st1 l') pid = Some cp3
    /\ convert env w cp v st
       = (Next (mkConversion (dynamicCredits usd) usd cp3), with_payments st1 l').
Proof.
  intros Hst Hr usd Hle Hnan cp3 st1.
  assert (stored_payment st1 pid = Some cp) as Hst1 by exact Hst.
  destruct (stored_after_save st1 pid cp cp3 Hst1 eq_refl
              (stored_paymentId _ _ _ Hst))
    as (l' & Hrep & Hst').
  exists l'. split; [exact Hrep|]. split; [exact Hst'|].
  unfold convert. unfold bind at 1. unfold lookup. cbv zeta. rewrite Hr.
  fold (usd_value (vd_amount v) r). fold usd. rewrite Hle.
  fold (two_decimals usd). fold cp3. fold st1.
  assert (forallb CryptoPayment.castable [Some (two_decimals usd)] = true)
    as Hall by (simpl; rewrite Hnan; reflexivity).
  rewrite (bind_Next _ _ _ _ _ (save_payment_done st1 _ _ l' Hall Hrep)).
  reflexivity.
Qed.

(** Whatever the conversion comes to, the stored payment is the one it was
    given, up to its [amount]. *)
Lemma convert_stored (env : Env) (w : World) (cp : CryptoPayment.t)
    (v : VerificationData) (pid : string) (st : State) :
  stored_payment st pid = Some cp ->
  let st' := snd (convert env w cp v st) in
  stored_payment st' pid = Some cp
  \/ exists x, stored_payment st' pid = Some (CryptoPayment.set_amount cp x).
Proof.
  intros Hst.
  destruct (rate (rate_lookup env w (CryptoPayment.network cp) (cache st)))
    as [r|e] eqn:Hr.
  - destruct (Js.le (dynamicCredits (usd_value (vd_amount v) r)) 0) eqn:Hle.
    + rewrite (convert_insufficient _ _ _ _ _ _ Hr Hle). left. exact Hst.
    + destruct (Js.isNaN (two_decimals (usd_value (vd_amount v) r))) eqn:Hn.
      * left. unfold convert. unfold bind at 1. unfold lookup. cbv zeta.
        rewrite Hr. fold (usd_value (vd_amount v) r). rewrite Hle.
        fold (two_decimals (usd_value (vd_amount v) r)).
        unfold save_payment, bind, read_db, attempt, CryptoPayment.save.
        simpl. rewrite Hn. simpl. exact Hst.
      * destruct (convert_credits _ _ _ v _ _ _ Hst Hr Hle Hn)
          as (l' & _ & Hs' & ->).
        right. eexists. exact Hs'.
  - rewrite (convert_rate_unavailable _ _ _ v _ _ Hr). left. exact Hst.
Qed.

(** Phase 7: the commit does not write the payments. *)
Lemma settle_payments (req : VerifyRequest) (plan : PaymentPlan.t)
    (user : User.t) (c : Conversion) (v : VerificationData) (h : string)
    (st : State) :
  payments (db (snd (settle req plan user c v h st))) = payments (db st).
Proof.
  unfold settle. unfold bind at 1. unfold read_db at 1.
  destruct (Transaction.findByCryptoHash (transactions (db st)) h);
    [reflexivity|].
  destruct (create_transaction_cases (ledger_entry req plan c v h) st)
    as [(t & l' & _ & Hc)|(e & Hc)].
  - rewrite (bind_Next _ _ _ _ _ Hc). reflexivity.
  - rewrite (bind_Raise _ _ _ _ _ Hc). reflexivity.
Qed.

(* ================================================================== *)
(** * From an accepted submission to the confirmed payment *)
(* ================================================================== *)

(** An accepted submission whose transfer verifies: the payment is stored
    confirmed, and the handler goes on to the plan, the conversion and the
    commit from there. *)
Lemma through_confirmation (env : Env) (w : World) (req : VerifyRequest)
    (st : State) (pid h : string) (cp : CryptoPayment.t) :
  names req pid h ->
  stored_payment st pid = Some cp ->
  CryptoPayment.userId cp = verify_user req ->
  CryptoPayment.status cp <> confirmed ->
  CryptoPayment.findConfirmedWithHash (payments (db st)) h
    (CryptoPayment._id cp) = None ->
  now_check w <= CryptoPayment.expiresAt cp ->
  verified (run_verifier env w cp h) = true ->
  CryptoPayment.castable (v_amount (run_verifier env w cp h)) = true ->
  let r := run_verifier env w cp h in
  exists l2,
    stored_payment (with_payments st l2) pid = Some (confirmed_with w cp h r)
    /\ verifyCryptoTransaction_try env w req st
       = (found <- load_plan_and_user req (confirmed_with w cp h r) ;;
          conversion <- convert env w (confirmed_with w cp h r) (data_of r) ;;
          settle req (fst found) (snd found) conversion (data_of r) h)
           (with_payments st l2).
Proof.
  intros Hn Hst Hu Hs Hf Hexp Hv Hc r.
  destruct (submit_accepted w cp h pid st Hst Hs Hf Hexp)
    as (l1 & _ & Hst1 & Hsub).
  change (run_verifier env w cp h)
    with (run_verifier env w (submitted cp h) h) in Hv, Hc.
  destruct (mark_confirmed_ok w (submitted cp h)
              (data_of (run_verifier env w (submitted cp h) h)) h pid
              (with_payments st l1) Hst1 Hc) as (l2 & _ & Hst2 & Hmark).
  exists l2. split; [exact Hst2|].
  unfold verifyCryptoTransaction_try.
  rewrite (bind_Next _ _ _ _ _ (load_payment_ok _ _ _ _ _ Hn Hst Hu)).
  simpl fst. simpl snd.
  rewrite (bind_Next _ _ _ _ _ Hsub).
  rewrite (bind_Next _ _ _ _ _
             (verify_on_chain_verified _ _ _ _ (with_payments st l1) Hv)).
  rewrite (bind_Next _ _ _ _ _ Hmark). reflexivity.
Qed.

(** The plan lookup, the conversion and the commit leave the payment as
    confirmed, up to its [amount]. *)
Lemma credit_keeps_payment (env : Env) (w : World) (req : VerifyRequest)
    (cp2 : CryptoPayment.t) (v : VerificationData) (h pid : string)
    (st2 : State) :
  stored_payment st2 pid = Some cp2 ->
  let st' :=
    snd ((found <- load_plan_and_user req cp2 ;;
          conversion <- convert env w cp2 v ;;
          settle req (fst found) (snd found) conversion v h) st2) in
  stored_payment st' pid = Some cp2
  \/ exists x, stored_payment st' pid = Some (CryptoPayment.set_amount cp2 x).
Proof.
  intros Hst. cbv zeta.
  destruct (load_plan_and_user_cases req cp2 st2)
    as [(plan & user & _ & _ & Hl)|(r & Hl & _)].
  - rewrite (bind_Next _ _ _ _ _ Hl). simpl fst. simpl snd.
    pose proof (convert_stored env w cp2 v pid st2 Hst) as Hc. cbv zeta in Hc.
    destruct (convert env w cp2 v st2) as [[c|r|e] st3] eqn:Hconv;
      simpl in Hc.
    + rewrite (bind_Next _ _ _ _ _ Hconv).
      unfold stored_payment in *. rewrite settle_payments. exact Hc.
    + rewrite (bind_Reply _ _ _ _ _ Hconv). exact Hc.
    + rewrite (bind_Raise _ _ _ _ _ Hconv). exact Hc.
  - rewrite (bind_Reply _ _ _ _ _ Hl). left. exact Hst.
Qed.

(** The replies after the confirmation are never the expiry reply. *)
Lemma credit_reply_not_expired (env : Env) (w : World) (req : VerifyRequest)
    (cp2 : CryptoPayment.t) (v : VerificationData) (h : string) (st2 : State) :
  fst (handle (found <- load_plan_and_user req cp2 ;;
               conversion <- convert env w cp2 v ;;
               settle req (fst found) (snd found) conversion v h)
         (fun _ => internal_error) st2)
  <> payment_expired.
Proof.
  unfold handle, load_plan_and_user. unfold bind at 1 2. unfold read_db at 1.
  destruct (PaymentPlan.findById (plans (db st2)) (CryptoPayment.planId cp2))
    as [plan|]; [|discriminate].
  destruct (User.findById (users (db st2)) (verify_user req)) as [user|];
    [|discriminate].
  unfold ret at 1. simpl fst. simpl snd. unfold bind at 1.
  unfold convert. unfold bind at 1. unfold lookup. cbv zeta.
  destruct (rate (rate_lookup env w (CryptoPayment.network cp2) (cache st2)));
    [|discriminate].
  destruct (Js.le _ 0); [discriminate|].
  unfold bind at 1.
  match goal with
  | |- context [save_payment ?p ?a ?s] =>
      destruct (save_payment_cases s p a) as [(l' & _ & ->)|(e & ->)]
  end; [|discriminate].
  unfold ret at 1. unfold settle. unfold bind at 1. unfold read_db at 1.
  match goal with
  | |- context [Transaction.findByCryptoHash ?l ?x] =>
      destruct (Transaction.findByCryptoHash l x)
  end; [discriminate|].
  unfold bind at 1.
  match goal with
  | |- context [create_transaction ?d ?s] =>
      destruct (create_transaction_cases d s) as [(t & l2 & _ & ->)|(e & ->)]
  end; discriminate.
Qed.

Lemma verify_unfold (env : Env) (w : World) (req : VerifyRequest) (st : State) :
  verifyCryptoTransaction env w req st
  = handle (verifyCryptoTransaction_try env w req) (fun _ => internal_error) st.
Proof. reflexivity. Qed.

Lemma handle_ext (m m' : Route Response) (f : string -> Response)
    (st st' : State) :
  m st = m' st' -> handle m f st = handle m' f st'.
Proof. unfold handle. intros ->. reflexivity. Qed.

Lemma accepted_submission_confirms (env : Env) (w : World)
    (req : VerifyRequest) (st : State) (pid h : string) (cp : CryptoPayment.t) :
  names req pid h ->
  stored_payment st pid = Some cp ->
  CryptoPayment.userId cp = verify_user req ->
  CryptoPayment.status cp <> confirmed ->
  CryptoPayment.findConfirmedWithHash (payments (db st)) h
    (CryptoPayment._id cp) = None ->
  now_check w <= CryptoPayment.expiresAt cp ->
  verified (run_verifier env w cp h) = true ->
  CryptoPayment.castable (v_amount (run_verifier env w cp h)) = true ->
  exists p',
    stored_payment (snd (verifyCryptoTransaction env w req st)) pid = Some p'
    /\ CryptoPayment.status p' = confirmed
    /\ CryptoPayment.confirmedAt p' = Some (now_confirm w)
    /\ CryptoPayment.transactionHash p' = Some h
    /\ CryptoPayment.verifiedAmount p' = v_amount (run_verifier env w cp h)
    /\ fst (verifyCryptoTransaction env w req st) <> payment_expired.
Proof.
  intros Hn Hst Hu Hs Hf Hexp Hv Hc.
  destruct (through_confirmation env w req st pid h cp Hn Hst Hu Hs Hf Hexp
              Hv Hc) as (l2 & Hst2 & Hrun).
  rewrite verify_unfold.
  rewrite (handle_ext _ _ _ _ _ Hrun).
  rewrite handle_state.
  pose proof (credit_keeps_payment env w req _ (data_of (run_verifier env w cp h))
                h pid _ Hst2) as Hk. cbv zeta in Hk.
  destruct Hk as [Hk|(x & Hk)].
  - eexists. split; [exact Hk|]. repeat split.
    apply credit_reply_not_expired.
  - eexists. split; [exact Hk|]. repeat split.
    apply credit_reply_not_expired.
Qed.

(* ================================================================== *)
(** * Expiry *)
(* ================================================================== *)

(** C5, as amended.  The owner of a still-pending payment submits a hash
    that no other confirmed payment carries.  If [expiresAt] has passed when
    the submission is checked, the call fails with the expiry reply and its
    only write stores the payment as [expired]: it never becomes
    [processing], and the ledger and the accounts are untouched.  If it has
    not passed, and the transfer verifies, the payment is stored confirmed
    whatever the time of the confirmation ([now_confirm], which may lie
    after [expiresAt]): expiry is read once, at submission, and the reply is
    never the expiry reply. *)
Theorem expiry_gates_submission (env : Env) (w : World) (req : VerifyRequest)
    (st : State) (pid h : string) (cp : CryptoPayment.t) :
  names req pid h ->
  stored_payment st pid = Some cp ->
  CryptoPayment.userId cp = verify_user req ->
  CryptoPayment.status cp = pending ->
  hash_unused st h (CryptoPayment._id cp) ->
  (CryptoPayment.expiresAt cp < now_check w ->
   exists l',
     CryptoPayment.replace (payments (db st))
       (CryptoPayment.set_status cp expired) = Some l'
     /\ verifyCryptoTransaction env w req st
        = (payment_expired, with_payments st l')
     /\ stored_payment (with_payments st l') pid
        = Some (CryptoPayment.set_status cp expired)
     /\ untouched st (with_payments st l'))
  /\ (now_check w <= CryptoPayment.expiresAt cp ->
      verified (run_verifier env w cp h) = true ->
      CryptoPayment.castable (v_amount (run_verifier env w cp h)) = true ->
      exists p',
        stored_payment (snd (verifyCryptoTransaction env w req st)) pid
        = Some p'
        /\ CryptoPayment.status p' = confirmed
        /\ CryptoPayment.confirmedAt p' = Some (now_confirm w)
        /\ CryptoPayment.transactionHash p' = Some h
        /\ CryptoPayment.verifiedAmount p'
           = v_amount (run_verifier env w cp h)
        /\ fst (verifyCryptoTransaction env w req st) <> payment_expired).
Proof.
  intros Hn Hst Hu Hs Hun.
  assert (CryptoPayment.status cp <> confirmed) as Hnc
      by (rewrite Hs; discriminate).
  pose proof (hash_unused_none _ _ _ Hun) as Hf.
  split.
  - intros Hexp.
    destruct (submit_expired w cp h pid st Hst Hnc Hf Hexp)
      as (l' & Hr & Hst' & Hsub).
    exists l'. split; [exact Hr|]. split; [|split; [exact Hst'|]].
    + rewrite verify_unfold. unfold handle, verifyCryptoTransaction_try.
      rewrite (bind_Next _ _ _ _ _ (load_payment_ok _ _ _ _ _ Hn Hst Hu)).
      simpl fst. simpl snd.
      rewrite (bind_Reply _ _ _ _ _ Hsub). reflexivity.
    + split; reflexivity.
  - intros Hexp Hv Hc.
    exact (accepted_submission_confirms env w req st pid h cp Hn Hst Hu Hnc Hf
             Hexp Hv Hc).
Qed.

Lemma sample_hash_unused (ps : list CryptoPayment.t) (h : string)
    (self : ObjectId) :
  CryptoPayment.findConfirmedWithHash ps h self = None ->
  hash_unused (Sample.state ps) h self.
Proof.
  intros Hnone a Hin Hs Hh. simpl in Hin.
  pose proof (find_none _ _ Hnone _ Hin) as Hf.
  unfold CryptoPayment.confirmed_elsewhere, CryptoPayment.same_hash in Hf.
  rewrite Hh, Hs, String.eqb_refl in Hf. simpl in Hf.
  apply negb_false_iff in Hf. apply Nat.eqb_eq in Hf. exact Hf.
Qed.

(** Bob submits at 3000, past the expiry at 2000; Alice submits at 1900 and
    her transfer is confirmed at 2500, past it too. *)
Lemma expiry_gates_submission_witness :
  (exists l',
      verifyCryptoTransaction Sample.env
        (Sample.world 3000 3100 (Sample.bsc_node 5 "10.0") Sample.sol_down
           (Js.of_Z 1))
        (Sample.by_bob "0xH9") (Sample.state [Sample.bep_request])
      = (payment_expired,
         with_payments (Sample.state [Sample.bep_request]) l'))
  /\ (exists p',
         stored_payment
           (snd (verifyCryptoTransaction Sample.env
                   (Sample.world 1900 2500 Sample.bsc_down
                      (Sample.sol_node 1000000000) (Js.of_Z 20))
                   (Sample.by_alice "SIG1") (Sample.state [Sample.sol_request])))
           "crypto-1000-aaaaaaaaa" = Some p'
         /\ CryptoPayment.status p' = confirmed
         /\ CryptoPayment.confirmedAt p' = Some 2500).
Proof.
  split.
  - destruct (proj1 (expiry_gates_submission Sample.env
                (Sample.world 3000 3100 (Sample.bsc_node 5 "10.0")
                   Sample.sol_down (Js.of_Z 1))
                (Sample.by_bob "0xH9") (Sample.state [Sample.bep_request])
                "crypto-1000-bbbbbbbbb" "0xH9" Sample.bep_request
                (conj eq_refl (conj eq_refl (conj eq_refl eq_refl)))
                eq_refl eq_refl eq_refl
                (sample_hash_unused [Sample.bep_request] "0xH9" 21%nat
                   eq_refl)))
      as (l' & _ & H & _).
    + simpl. lia.
    + exists l'. exact H.
  - destruct (proj2 (expiry_gates_submission Sample.env
                (Sample.world 1900 2500 Sample.bsc_down
                   (Sample.sol_node 1000000000) (Js.of_Z 20))
                (Sample.by_alice "SIG1") (Sample.state [Sample.sol_request])
                "crypto-1000-aaaaaaaaa" "SIG1" Sample.sol_request
                (conj eq_refl (conj eq_refl (conj eq_refl eq_refl)))
                eq_refl eq_refl eq_refl
                (sample_hash_unused [Sample.sol_request] "SIG1" 20%nat
                   eq_refl)))
      as (p' & H1 & H2 & H3 & _).
    + simpl. lia.
    + vm_compute. reflexivity.
    + vm_compute. reflexivity.
    + exists p'. auto.
Defined.

(** C5, as stated, fails when the hash is already on another confirmed
    payment: Bob submits Alice's settled signature for his pending request
    after its expiry, and the call answers with the duplicate-hash reply and
    writes nothing, so the request stays [pending]. *)
Lemma expired_request_with_used_hash :
  stored_payment (Sample.state [Sample.sol_settled; Sample.bep_request])
    "crypto-1000-bbbbbbbbb" = Some Sample.bep_request
  /\ CryptoPayment.status Sample.bep_request = pending
  /\ CryptoPayment.expiresAt Sample.bep_request < 3000
  /\ verifyCryptoTransaction Sample.env
       (Sample.world 3000 3100 (Sample.bsc_node 5 "10.0") Sample.sol_down
          (Js.of_Z 1))
       (Sample.by_bob "SIG1")
       (Sample.state [Sample.sol_settled; Sample.bep_request])
     = (duplicate_hash, Sample.state [Sample.sol_settled; Sample.bep_request])
  /\ duplicate_hash <> payment_expired.
Proof.
  repeat split; try reflexivity; try discriminate.
Qed.

(* ================================================================== *)
(** * The confirmation floor of the BEP20 verifier *)
(* ================================================================== *)

(** A successful receipt fewer than three blocks deep is rejected with the
    message that carries the floor and the depth. *)
Lemma below_floor_rejected (env : Env) (node : Bsc) (h expectedTo : string)
    (expected : option float) (memo : option string) (url : string)
    (receipt : Receipt) (current : Z) :
  BSC_RPC_URL env = Some url ->
  getTransactionReceipt node h = Done (Some receipt) ->
  receipt_status receipt = Some 1 ->
  getBlockNumber node = Done current ->
  current - blockNumber receipt < 3 ->
  verifyBEP20Transaction env node h expectedTo expected memo
  = rejected (needs_confirmations (current - blockNumber receipt)).
Proof.
  intros Hurl Hrc Hok Hbn Hlow.
  unfold verifyBEP20Transaction, verifyBEP20_try.
  rewrite Hurl, Hrc, Hok, Hbn.
  apply Z.ltb_lt in Hlow. unfold minConfirmations_BSC. rewrite Hlow.
  reflexivity.
Qed.

(** What the scan refuses, it rejects. *)
Lemma scan_refusal_rejects (node : Bsc) (expectedTo : string) (l : list Log)
    (r : Verification) :
  scan_logs node expectedTo l = Refused r -> verified r = false.
Proof.
  induction l as [|log rest IH]; cbn [scan_logs]; [discriminate|].
  destruct (String.eqb (Js.toLowerCase (log_address log))
              (Js.toLowerCase USDT_BSC_CONTRACT)); [|exact IH].
  destruct (topics log) as [|t0 ts]; [discriminate|].
  destruct (String.eqb (Js.toLowerCase t0)
              (Js.toLowerCase transferEventSignature)); [|exact IH].
  destruct ts as [|t1 ts']; [discriminate|].
  destruct (getAddress node _) as [fromAddress|]; [|discriminate].
  destruct ts' as [|t2 ts'']; [discriminate|].
  destruct (getAddress node _) as [toAddress|]; [|discriminate].
  destruct (negb _).
  - intros H. inversion H. reflexivity.
  - destruct (formatUnits node _ _) as [amt|]; [|discriminate].
    destruct (Js.lt _ _); [|discriminate].
    intros H. inversion H. reflexivity.
Qed.




(* ================================================================== *)
(** * A failed verification and the resubmission *)
(* ================================================================== *)

Lemma needs_confirmations_nonempty (d : Z) :
  Js.nonempty (needs_confirmations d) = true.
Proof. reflexivity. Qed.

(** A failed verification, whatever its reason: the payment is stored
    [failed] with the verifier's message, the reply carries the message, and
    a later submission before [expiresAt] is verified again. *)
Lemma failed_verification_then_resubmission (env : Env) (w : World)
    (req : VerifyRequest) (st : State) (pid h : string) (cp : CryptoPayment.t) :
  names req pid h ->
  stored_payment st pid = Some cp ->
  CryptoPayment.userId cp = verify_user req ->
  CryptoPayment.status cp <> confirmed ->
  hash_unused st h (CryptoPayment._id cp) ->
  now_check w <= CryptoPayment.expiresAt cp ->
  verified (run_verifier env w cp h) = false ->
  let msg := verificationError (CryptoPayment.network cp)
               (run_verifier env w cp h) in
  exists st1,
    verifyCryptoTransaction env w req st
    = (mkResponse 400 (Failure msg false), st1)
    /\ stored_payment st1 pid = Some (CryptoPayment.fail (submitted cp h) msg)
    /\ CryptoPayment.status (CryptoPayment.fail (submitted cp h) msg) = failed
    /\ untouched st st1
    /\ forall w2,
         now_check w2 <= CryptoPayment.expiresAt cp ->
         verified (run_verifier env w2 cp h) = true ->
         CryptoPayment.castable (v_amount (run_verifier env w2 cp h)) = true ->
         exists p',
           stored_payment (snd (verifyCryptoTransaction env w2 req st1)) pid
           = Some p'
           /\ CryptoPayment.status p' = confirmed.
Proof.
  intros Hn Hst Hu Hs Hun Hexp Hv msg.
  pose proof (hash_unused_none _ _ _ Hun) as Hf.
  destruct (submit_accepted w cp h pid st Hst Hs Hf Hexp)
    as (l1 & Hr1 & Hst1 & Hsub).
  change (run_verifier env w cp h)
    with (run_verifier env w (submitted cp h) h) in Hv.
  destruct (verify_on_chain_failed env w (submitted cp h) h pid
              (with_payments st l1) Hst1 Hv) as (l2 & Hr2 & Hst2 & Hver).
  change (verificationError (CryptoPayment.network (submitted cp h))
            (run_verifier env w (submitted cp h) h)) with msg in Hr2, Hst2, Hver.
  exists (with_payments st l2).
  split; [|split; [exact Hst2|split; [reflexivity|split; [split; reflexivity|]]]].
  - rewrite verify_unfold. unfold handle, verifyCryptoTransaction_try.
    rewrite (bind_Next _ _ _ _ _ (load_payment_ok _ _ _ _ _ Hn Hst Hu)).
    simpl fst. simpl snd.
    rewrite (bind_Next _ _ _ _ _ Hsub).
    rewrite (bind_Reply _ _ _ _ _ Hver). reflexivity.
  - intros w2 Hexp2 Hv2 Hc2.
    assert (CryptoPayment.findConfirmedWithHash
              (payments (db (with_payments st l2))) h
              (CryptoPayment._id (CryptoPayment.fail (submitted cp h) msg))
            = None) as Hf2.
    { simpl payments.
      apply (replace_keeps_no_duplicate l1 l2 h
               (CryptoPayment.fail (submitted cp h) msg)); [|exact Hr2].
      apply (replace_keeps_no_duplicate (payments (db st)) l1 h
               (submitted cp h)); [exact Hf|exact Hr1]. }
    destruct (accepted_submission_confirms env w2 req (with_payments st l2) pid
                h (CryptoPayment.fail (submitted cp h) msg) Hn Hst2 Hu
                ltac:(simpl; discriminate) Hf2 Hexp2 Hv2 Hc2)
      as (p' & Hp & Hconf & _).
    exists p'. split; assumption.
Qed.

(** C7, as amended.  When the verifier of an accepted submission fails,
    whatever the reason, the handler marks the payment [failed], stores the
    verifier's message on it and replies with that message; the ledger and
    the accounts are untouched.  The recoverable "needs more confirmations"
    of the BEP20 verifier is such a failure and is handled like the
    permanent ones.  The [failed] status does not block the payment: a
    later submission of the same hash by the owner, checked before
    [expiresAt], is verified again, and when the transfer then verifies the
    payment is stored confirmed. *)
Theorem failed_verification_marks_failed_then_resubmits (env : Env) (w : World)
    (req : VerifyRequest) (st : State) (pid h : string) (cp : CryptoPayment.t) :
  names req pid h ->
  stored_payment st pid = Some cp ->
  CryptoPayment.userId cp = verify_user req ->
  CryptoPayment.status cp <> confirmed ->
  hash_unused st h (CryptoPayment._id cp) ->
  now_check w <= CryptoPayment.expiresAt cp ->
  verified (run_verifier env w cp h) = false ->
  let msg := verificationError (CryptoPayment.network cp)
               (run_verifier env w cp h) in
  (exists st1,
      verifyCryptoTransaction env w req st
      = (mkResponse 400 (Failure msg false), st1)
      /\ stored_payment st1 pid = Some (CryptoPayment.fail (submitted cp h) msg)
      /\ CryptoPayment.status (CryptoPayment.fail (submitted cp h) msg) = failed
      /\ untouched st st1
      /\ forall w2,
           now_check w2 <= CryptoPayment.expiresAt cp ->
           verified (run_verifier env w2 cp h) = true ->
           CryptoPayment.castable (v_amount (run_verifier env w2 cp h)) = true ->
           exists p',
             stored_payment (snd (verifyCryptoTransaction env w2 req st1)) pid
             = Some p'
             /\ CryptoPayment.status p' = confirmed)
  /\ (forall url receipt current,
        CryptoPayment.network cp = BEP20 ->
        BSC_RPC_URL env = Some url ->
        getTransactionReceipt (bsc w) h = Done (Some receipt) ->
        receipt_status receipt = Some 1 ->
        getBlockNumber (bsc w) = Done current ->
        current - blockNumber receipt < 3 ->
        msg = needs_confirmations (current - blockNumber receipt)).
Proof.
  intros Hn Hst Hu Hs Hun Hexp Hv msg. split.
  - exact (failed_verification_then_resubmission env w req st pid h cp Hn Hst
             Hu Hs Hun Hexp Hv).
  - intros url receipt current Hnet Hurl Hrc Hok Hbn Hlow.
    unfold msg, run_verifier. rewrite Hnet.
    rewrite (below_floor_rejected env (bsc w) h _ None _ url receipt current
               Hurl Hrc Hok Hbn Hlow).
    unfold verificationError, rejected. cbn [v_error].
    rewrite needs_confirmations_nonempty. reflexivity.
Qed.

(** Bob submits with the head two blocks past the receipt, then again with
    the head five blocks past it. *)
Lemma failed_verification_marks_failed_then_resubmits_witness :
  exists st1,
    verifyCryptoTransaction Sample.env
      (Sample.world 1500 1600 (Sample.bsc_node 2 "10.0") Sample.sol_down
         (Js.of_Z 1))
      (Sample.by_bob "0xH9") (Sample.state [Sample.bep_request])
    = (mkResponse 400
         (Failure "Transaction needs at least 3 confirmations. Current: 2"
            false), st1)
    /\ exists p',
         stored_payment
           (snd (verifyCryptoTransaction Sample.env
                   (Sample.world 1700 1800 (Sample.bsc_node 5 "10.0")
                      Sample.sol_down (Js.of_Z 1))
                   (Sample.by_bob "0xH9") st1))
           "crypto-1000-bbbbbbbbb" = Some p'
         /\ CryptoPayment.status p' = confirmed.
Proof.
  destruct (proj1 (failed_verification_marks_failed_then_resubmits Sample.env
              (Sample.world 1500 1600 (Sample.bsc_node 2 "10.0")
                 Sample.sol_down (Js.of_Z 1))
              (Sample.by_bob "0xH9") (Sample.state [Sample.bep_request])
              "crypto-1000-bbbbbbbbb" "0xH9" Sample.bep_request
              (conj eq_refl (conj eq_refl (conj eq_refl eq_refl)))
              eq_refl eq_refl ltac:(discriminate)
              (sample_hash_unused [Sample.bep_request] "0xH9" 21%nat eq_refl)
              ltac:(simpl; lia) ltac:(vm_compute; reflexivity)))
    as (st1 & H1 & _ & _ & _ & H5).
  exists st1. split; [exact H1|].
  apply (H5 (Sample.world 1700 1800 (Sample.bsc_node 5 "10.0")
               Sample.sol_down (Js.of_Z 1))).
  - simpl. lia.
  - vm_compute. reflexivity.
  - vm_compute. reflexivity.
Defined.

(** C7, as stated, fails: with the head two blocks past the receipt the
    verifier answers "needs more confirmations", and the handler stores the
    payment as [failed]. *)
Lemma needs_more_confirmations_marks_failed :
  v_error (run_verifier Sample.env
             (Sample.world 1500 1600 (Sample.bsc_node 2 "10.0") Sample.sol_down
                (Js.of_Z 1))
             Sample.bep_request "0xH9")
  = Some "Transaction needs at least 3 confirmations. Current: 2"
  /\ option_map CryptoPayment.status
       (stored_payment
          (snd (verifyCryptoTransaction Sample.env
                  (Sample.world 1500 1600 (Sample.bsc_node 2 "10.0")
                     Sample.sol_down (Js.of_Z 1))
                  (Sample.by_bob "0xH9") (Sample.state [Sample.bep_request])))
          "crypto-1000-bbbbbbbbb")
     = Some failed.
Proof. split; vm_compute; reflexivity. Qed.

(* ================================================================== *)
(** * A second call for a settled payment *)
(* ================================================================== *)

Lemma submit_cases (w : World) (cp : CryptoPayment.t) (h pid : string)
    (st : State) :
  stored_payment st pid = Some cp ->
  (exists l',
      stored_payment (with_payments st l') pid = Some (submitted cp h)
      /\ submit w cp h st = (Next (submitted cp h), with_payments st l'))
  \/ (exists r st', submit w cp h st = (Reply r, st')
                    /\ success (body r) = false).
Proof.
  intros Hst.
  destruct (Status_eqb (CryptoPayment.status cp) confirmed) eqn:Hs.
  - right. apply Status_eqb_eq in Hs. exists already_confirmed, st.
    split; [apply submit_confirmed; exact Hs | reflexivity].
  - apply Status_eqb_neq in Hs.
    destruct (CryptoPayment.findConfirmedWithHash (payments (db st)) h
                (CryptoPayment._id cp)) as [e|] eqn:Hf.
    + right. exists duplicate_hash, st.
      split; [exact (submit_duplicate w cp e h st Hs Hf) | reflexivity].
    + destruct (Z_lt_le_dec (CryptoPayment.expiresAt cp) (now_check w))
        as [Hexp|Hexp].
      * right.
        destruct (submit_expired w cp h pid st Hst Hs Hf Hexp)
          as (l' & _ & _ & Hsub).
        exists payment_expired, (with_payments st l').
        split; [exact Hsub | reflexivity].
      * left.
        destruct (submit_accepted w cp h pid st Hst Hs Hf Hexp)
          as (l' & _ & Hst' & Hsub).
        exists l'. split; assumption.
Qed.

(** The phases up to the confirmation leave the ledger as it is. *)
Lemma submit_ledger (w : World) (cp : CryptoPayment.t) (h : string)
    (st : State) :
  transactions (db (snd (submit w cp h st))) = transactions (db st).
Proof.
  apply (respects_submit
           (fun a b => transactions (db b) = transactions (db a))).
  - reflexivity.
  - intros a b c Hab Hbc. congruence.
  - reflexivity.
Qed.

(** A call that does not leave the payment of the request confirmed has
    replied without a success and has not written the ledger. *)
Lemma verify_confirms_or_declines (env : Env) (w : World)
    (req : VerifyRequest) (st : State) :
  (success (body (fst (verifyCryptoTransaction env w req st))) = false
   /\ transactions (db (snd (verifyCryptoTransaction env w req st)))
      = transactions (db st))
  \/ exists pid h p,
       names req pid h
       /\ stored_payment (snd (verifyCryptoTransaction env w req st)) pid
          = Some p
       /\ CryptoPayment.userId p = verify_user req
       /\ CryptoPayment.status p = confirmed.
Proof.
  rewrite verify_unfold. unfold verifyCryptoTransaction_try.
  destruct (load_payment_cases req st)
    as [(pid & h & cp & Hn & Hst & Hu & Hl)|(r & Hl & Hr)].
  2:{ left. unfold handle. rewrite (bind_Reply _ _ _ _ _ Hl).
      split; [exact Hr | reflexivity]. }
  destruct (submit_cases w cp h pid st Hst)
    as [(l1 & Hst1 & Hsub)|(r & st' & Hsub & Hr)].
  2:{ left. unfold handle. rewrite (bind_Next _ _ _ _ _ Hl).
      simpl fst. simpl snd. rewrite (bind_Reply _ _ _ _ _ Hsub).
      split; [exact Hr|]. pose proof (submit_ledger w cp h st) as Ht.
      rewrite Hsub in Ht. exact Ht. }
  destruct (verified (run_verifier env w (submitted cp h) h)) eqn:Hv.
  2:{ destruct (verify_on_chain_failed env w (submitted cp h) h pid
                  (with_payments st l1) Hst1 Hv) as (l2 & _ & _ & Hver).
      left. unfold handle. rewrite (bind_Next _ _ _ _ _ Hl).
      simpl fst. simpl snd. rewrite (bind_Next _ _ _ _ _ Hsub).
      rewrite (bind_Reply _ _ _ _ _ Hver). split; reflexivity. }
  pose proof (verify_on_chain_verified env w (submitted cp h) h
                (with_payments st l1) Hv) as Hver.
  destruct (CryptoPayment.castable
              (vd_amount (data_of (run_verifier env w (submitted cp h) h))))
    eqn:Hc.
  2:{ destruct (mark_confirmed_nan w (submitted cp h) _ h (with_payments st l1)
                  Hc) as (e & Hmark).
      left. unfold handle. rewrite (bind_Next _ _ _ _ _ Hl).
      simpl fst. simpl snd. rewrite (bind_Next _ _ _ _ _ Hsub).
      rewrite (bind_Next _ _ _ _ _ Hver).
      rewrite (bind_Raise _ _ _ _ _ Hmark). split; reflexivity. }
  destruct (mark_confirmed_ok w (submitted cp h) _ h pid (with_payments st l1)
              Hst1 Hc) as (l2 & _ & Hst2 & Hmark).
  right. exists pid, h.
  match goal with
  | |- context [handle ?m ?f st] =>
      assert (handle m f st
              = handle
                  (found <- load_plan_and_user req
                              (CryptoPayment.confirm (now_confirm w)
                                 (submitted cp h)
                                 (vd_amount (data_of (run_verifier env w (submitted cp h) h)))
                                 (vd_fromAddress (data_of (run_verifier env w (submitted cp h) h)))
                                 (vd_confirmationCount (data_of (run_verifier env w (submitted cp h) h)))
                                 h) ;;
                   conversion <- convert env w
                              (CryptoPayment.confirm (now_confirm w)
                                 (submitted cp h)
                                 (vd_amount (data_of (run_verifier env w (submitted cp h) h)))
                                 (vd_fromAddress (data_of (run_verifier env w (submitted cp h) h)))
                                 (vd_confirmationCount (data_of (run_verifier env w (submitted cp h) h)))
                                 h)
                              (data_of (run_verifier env w (submitted cp h) h)) ;;
                   settle req (fst found) (snd found) conversion
                     (data_of (run_verifier env w (submitted cp h) h)) h)
                  f (with_payments st l2)) as Heq
  end.
  { apply handle_ext.
    rewrite (bind_Next _ _ _ _ _ Hl). simpl fst. simpl snd.
    rewrite (bind_Next _ _ _ _ _ Hsub).
    rewrite (bind_Next _ _ _ _ _ Hver).
    rewrite (bind_Next _ _ _ _ _ Hmark). reflexivity. }
  rewrite Heq. rewrite handle_state.
  pose proof (credit_keeps_payment env w req _
                (data_of (run_verifier env w (submitted cp h) h)) h pid _ Hst2)
    as Hk. cbv zeta in Hk.
  destruct Hk as [Hk|(x & Hk)]; eexists; (split; [exact Hn|]);
    (split; [exact Hk|]); split; solve [exact Hu | reflexivity].
Qed.

(** C2, as amended.  Once a call has settled a payment (it has recorded
    the ledger entry, or it has replied with a success), a second call with
    the same payment id and hash, under any later conditions, creates no
    Transaction and grants no credits: it writes nothing at all.  Its reply
    is the already-confirmed one, sent with HTTP status 200 and
    [alreadyProcessed = true] but with [success = false] and an error
    message; it carries neither [quotaAdded] nor [transactionId]. *)
Theorem retry_is_already_confirmed (env : Env) (w1 w2 : World)
    (req : VerifyRequest) (st : State) :
  success (body (fst (verifyCryptoTransaction env w1 req st))) = true
  \/ transactions (db (snd (verifyCryptoTransaction env w1 req st)))
     <> transactions (db st) ->
  verifyCryptoTransaction env w2 req
    (snd (verifyCryptoTransaction env w1 req st))
  = (already_confirmed, snd (verifyCryptoTransaction env w1 req st))
  /\ code already_confirmed = 200
  /\ body already_confirmed
     = Failure "This payment has already been confirmed" true
  /\ success (body already_confirmed) = false.
Proof.
  intros Hsettled.
  split; [|repeat split].
  destruct (verify_confirms_or_declines env w1 req st)
    as [(Hf & Ht)|(pid & h & p & Hn & Hst & Hu & Hs)].
  { exfalso. destruct Hsettled as [Hok|Hne];
      [rewrite Hf in Hok; discriminate | exact (Hne Ht)]. }
  rewrite verify_unfold. unfold handle, verifyCryptoTransaction_try.
  rewrite (bind_Next _ _ _ _ _ (load_payment_ok _ _ _ _ _ Hn Hst Hu)).
  simpl fst. simpl snd.
  rewrite (bind_Reply _ _ _ _ _ (submit_confirmed w2 p h _ Hs)).
  reflexivity.
Qed.

(** Alice's transfer of 1 SOL at 20 USD is recorded in the ledger by the
    first call; she calls again. *)
Lemma retry_is_already_confirmed_witness :
  verifyCryptoTransaction Sample.env
    (Sample.world 1950 1960 Sample.bsc_down (Sample.sol_node 1000000000)
       (Js.of_Z 20))
    (Sample.by_alice "SIG1")
    (snd (verifyCryptoTransaction Sample.env
            (Sample.world 1900 1910 Sample.bsc_down (Sample.sol_node 1000000000)
               (Js.of_Z 20))
            (Sample.by_alice "SIG1") (Sample.state [Sample.sol_request])))
  = (already_confirmed,
     snd (verifyCryptoTransaction Sample.env
            (Sample.world 1900 1910 Sample.bsc_down (Sample.sol_node 1000000000)
               (Js.of_Z 20))
            (Sample.by_alice "SIG1") (Sample.state [Sample.sol_request]))).
Proof.
  apply (retry_is_already_confirmed Sample.env).
  right. vm_compute. discriminate.
Defined.

(** C2, as stated, fails.  Alice's first call confirms her payment and
    records the Transaction for [SIG1] (44 credits, id 30); the call then
    throws at [user.addQuota], so there is no success payload to return.
    Her second call, with the same arguments, adds nothing to the ledger and
    replies with [success = false] and an error, not with a success-shaped
    payload carrying [quotaAdded] and [transactionId]. *)
Lemma retry_reply_is_error_shaped :
  map (fun t => (Transaction._id t, Transaction.cryptoTransactionHash t,
                 Transaction.quotaAmount t))
    (transactions
       (db (snd (verifyCryptoTransaction Sample.env
                   (Sample.world 1900 1910 Sample.bsc_down
                      (Sample.sol_node 1000000000) (Js.of_Z 20))
                   (Sample.by_alice "SIG1")
                   (Sample.state [Sample.sol_request])))))
  = [(30%nat, Some "SIG1", Js.of_Z 44)]
  /\ option_map CryptoPayment.status
       (stored_payment
          (snd (verifyCryptoTransaction Sample.env
                  (Sample.world 1900 1910 Sample.bsc_down
                     (Sample.sol_node 1000000000) (Js.of_Z 20))
                  (Sample.by_alice "SIG1")
                  (Sample.state [Sample.sol_request])))
          "crypto-1000-aaaaaaaaa")
     = Some confirmed
  /\ fst (verifyCryptoTransaction Sample.env
            (Sample.world 1900 1910 Sample.bsc_down
               (Sample.sol_node 1000000000) (Js.of_Z 20))
            (Sample.by_alice "SIG1") (Sample.state [Sample.sol_request]))
     = internal_error
  /\ verifyCryptoTransaction Sample.env
       (Sample.world 1900 1910 Sample.bsc_down
          (Sample.sol_node 1000000000) (Js.of_Z 20))
       (Sample.by_alice "SIG1")
       (snd (verifyCryptoTransaction Sample.env
               (Sample.world 1900 1910 Sample.bsc_down
                  (Sample.sol_node 1000000000) (Js.of_Z 20))
               (Sample.by_alice "SIG1")
               (Sample.state [Sample.sol_request])))
     = (mkResponse 200
          (Failure "This payment has already been confirmed" true),
        snd (verifyCryptoTransaction Sample.env
               (Sample.world 1900 1910 Sample.bsc_down
                  (Sample.sol_node 1000000000) (Js.of_Z 20))
               (Sample.by_alice "SIG1")
               (Sample.state [Sample.sol_request])))
  /\ success (Failure "This payment has already been confirmed" true) = false.
Proof. repeat split; vm_compute; reflexivity. Qed.

(* ================================================================== *)
(** * The amount of the payment record *)
(* ================================================================== *)

(** A created payment request holds the plan's price as its amount. *)
Lemma created_amount_is_price (env : Env) (cw : CreateWorld)
    (creq : CreateRequest) (st : State) (data : CreatedData) :
  body (fst (createCryptoPayment env cw creq st)) = Created data ->
  exists p plan planId,
    body_planId creq = Some (Casts planId)
    /\ PaymentPlan.findById (plans (db st)) planId = Some plan
    /\ payments (db (snd (createCryptoPayment env cw creq st)))
       = (payments (db st) ++ [p])%list
    /\ CryptoPayment.paymentId p = data_paymentId data
    /\ CryptoPayment.status p = pending
    /\ CryptoPayment.amount p = PaymentPlan.price plan.
Proof.
  destruct (createCryptoPayment env cw creq st) as [r st'] eqn:Heq.
  cbn [fst snd]. revert Heq.
  unfold createCryptoPayment, handle, createCryptoPayment_try.
  destruct (body_planId creq) as [planId|];
    [|intros H; inversion H; discriminate].
  destruct (body_network creq) as [name|];
    [|intros H; inversion H; discriminate].
  destruct (negb (Js.nonempty name)); [intros H; inversion H; discriminate|].
  destruct (if String.eqb name "BEP20" then Some BEP20
            else if String.eqb name "SOL" then Some SOL else None)
    as [network|]; [|intros H; inversion H; discriminate].
  unfold bind at 1. unfold read_db at 1.
  destruct planId as [planId|e]; [|intros H; inversion H; discriminate].
  destruct (PaymentPlan.findById (plans (db st)) planId) as [plan|] eqn:Hplan;
    [|intros H; inversion H; discriminate].
  destruct (negb (PaymentPlan.isActive plan));
    [intros H; inversion H; discriminate|].
  destruct (User.findById (users (db st)) (create_user creq)) as [user|];
    [|intros H; inversion H; discriminate].
  destruct (match network with
            | BEP20 => _
            | SOL => _
            end) as [walletAddress token].
  destruct (String.eqb walletAddress BEP20_PLACEHOLDER
            || String.eqb walletAddress SOL_PLACEHOLDER);
    [intros H; inversion H; discriminate|].
  destruct (Js.parseInt _) as [expiryMinutes|];
    [|intros H; inversion H; discriminate].
  cbv zeta.
  destruct (MAX_DATE <? Z.abs _); [intros H; inversion H; discriminate|].
  match goal with
  | |- context [insert_payment ?doc] => set (d := doc)
  end.
  destruct (insert_payment_cases d st) as [(l' & Hc & Hi)|(e & Hi)].
  - rewrite (bind_Next _ _ _ _ _ Hi). unfold ret.
    intros H. inversion H; subst r st'; clear H.
    cbn [body]. intros H. inversion H; subst data; clear H.
    unfold CryptoPayment.create in Hc.
    destruct (CryptoPayment.castable _); [|discriminate].
    destruct (existsb _ _); [discriminate|].
    inversion Hc; subst l'; clear Hc.
    exists (d (next_id (db st))), plan, planId.
    split; [reflexivity|]. split; [exact Hplan|].
    subst d. repeat split.
  - rewrite (bind_Raise _ _ _ _ _ Hi). intros H; inversion H; discriminate.
Qed.

Lemma load_plan_and_user_ok (req : VerifyRequest) (cp : CryptoPayment.t)
    (st : State) (plan : PaymentPlan.t) (user : User.t) :
  PaymentPlan.findById (plans (db st)) (CryptoPayment.planId cp) = Some plan ->
  User.findById (users (db st)) (verify_user req) = Some user ->
  load_plan_and_user req cp st = (Next (plan, user), st).
Proof.
  intros Hp Hu. unfold load_plan_and_user, bind, read_db.
  rewrite Hp, Hu. reflexivity.
Qed.

(** The conversion of a settlement that passes the minimum guard: the
    amount is written back and saved, and the commit starts from there. *)
Lemma conversion_writes_back (env : Env) (w : World) (req : VerifyRequest)
    (st : State) (pid h : string) (cp : CryptoPayment.t)
    (plan : PaymentPlan.t) (user : User.t) (r : float) :
  names req pid h ->
  stored_payment st pid = Some cp ->
  CryptoPayment.userId cp = verify_user req ->
  CryptoPayment.status cp <> confirmed ->
  hash_unused st h (CryptoPayment._id cp) ->
  now_check w <= CryptoPayment.expiresAt cp ->
  verified (run_verifier env w cp h) = true ->
  CryptoPayment.castable (v_amount (run_verifier env w cp h)) = true ->
  PaymentPlan.findById (plans (db st)) (CryptoPayment.planId cp)
  = Some plan ->
  User.findById (users (db st)) (verify_user req) = Some user ->
  rate (rate_lookup env w (CryptoPayment.network cp) (cache st))
  = Done r ->
  let usd := usd_value (v_amount (run_verifier env w cp h)) r in
  Js.le (dynamicCredits usd) 0 = false ->
  Js.isNaN (two_decimals usd) = false ->
  let written :=
    CryptoPayment.set_amount
      (confirmed_with w cp h (run_verifier env w cp h))
      (two_decimals usd) in
  exists st3,
    stored_payment st3 pid = Some written
    /\ untouched st st3
    /\ verifyCryptoTransaction env w req st
       = handle (settle req plan user
                   (mkConversion (dynamicCredits usd) usd written)
                   (data_of (run_verifier env w cp h)) h)
           (fun _ => internal_error) st3
    /\ stored_payment (snd (verifyCryptoTransaction env w req st)) pid
       = Some written
    /\ CryptoPayment.amount written = two_decimals usd.
Proof.
  intros Hn Hst Hu Hs Hun Hexp Hv Hc Hplan
    Huser Hrate usd Hle Hnan written.
  pose proof (hash_unused_none _ _ _ Hun) as Hf.
  destruct (through_confirmation env w req st pid h cp Hn Hst Hu Hs Hf Hexp
              Hv Hc) as (l2 & Hst2 & Hrun).
  cbv zeta in Hst2, Hrun.
  destruct (convert_credits env w
              (confirmed_with w cp h (run_verifier env w cp h))
              (data_of (run_verifier env w cp h)) pid (with_payments st l2) r
              Hst2 Hrate Hle Hnan) as (l3 & _ & Hst3 & Hconv).
  fold usd in Hst3, Hconv. fold written in Hst3, Hconv.
  match type of Hst3 with
  | stored_payment ?s _ = _ => exists s
  end.
  split; [exact Hst3|]. split; [split; reflexivity|].
  assert (verifyCryptoTransaction env w req st
          = handle (settle req plan user
                      (mkConversion (dynamicCredits usd) usd written)
                      (data_of (run_verifier env w cp h)) h)
              (fun _ => internal_error)
              (with_payments
                 (after_lookup (with_payments st l2)
                    (rate_lookup env w
                       (CryptoPayment.network
                          (confirmed_with w cp h (run_verifier env w cp h)))
                       (cache (with_payments st l2)))) l3)) as Heq.
  { rewrite verify_unfold. apply handle_ext. rewrite Hrun.
    rewrite (bind_Next _ _ _ _ _
               (load_plan_and_user_ok req _ (with_payments st l2) plan user
                  Hplan Huser)).
    simpl fst. simpl snd.
    rewrite (bind_Next _ _ _ _ _ Hconv). reflexivity. }
  split; [exact Heq|]. split; [|reflexivity].
  rewrite Heq, handle_state. unfold stored_payment in *.
  rewrite settle_payments. exact Hst3.
Qed.

(** C10, as amended.  A payment request is created with the plan's price as
    its amount.  For every settlement, SOL or BEP20, that reaches the
    conversion step and passes its minimum guard (the credit count is not
    [<= 0], and the rounded value is a number), the handler overwrites that
    amount with the computed USD value rounded to two decimals,
    [parseFloat(usdAmount.toFixed(2))], and saves the payment before the
    commit starts: in the state the commit starts from, the stored payment
    carries the new amount while the ledger and the accounts are as they
    were.  The record stored at the end of the call is the confirmed
    payment with that amount in place of the requested one. *)
Theorem conversion_overwrites_amount :
  (forall env cw creq st data,
      body (fst (createCryptoPayment env cw creq st)) = Created data ->
      exists p plan planId,
        body_planId creq = Some (Casts planId)
        /\ PaymentPlan.findById (plans (db st)) planId = Some plan
        /\ payments (db (snd (createCryptoPayment env cw creq st)))
           = (payments (db st) ++ [p])%list
        /\ CryptoPayment.paymentId p = data_paymentId data
        /\ CryptoPayment.status p = pending
        /\ CryptoPayment.amount p = PaymentPlan.price plan)
  /\ (forall env w req st pid h cp plan user r,
        names req pid h ->
        stored_payment st pid = Some cp ->
        CryptoPayment.userId cp = verify_user req ->
        CryptoPayment.status cp <> confirmed ->
        hash_unused st h (CryptoPayment._id cp) ->
        now_check w <= CryptoPayment.expiresAt cp ->
        verified (run_verifier env w cp h) = true ->
        CryptoPayment.castable (v_amount (run_verifier env w cp h)) = true ->
        PaymentPlan.findById (plans (db st)) (CryptoPayment.planId cp)
        = Some plan ->
        User.findById (users (db st)) (verify_user req) = Some user ->
        rate (rate_lookup env w (CryptoPayment.network cp) (cache st))
        = Done r ->
        let usd := usd_value (v_amount (run_verifier env w cp h)) r in
        Js.le (dynamicCredits usd) 0 = false ->
        Js.isNaN (two_decimals usd) = false ->
        let written :=
          CryptoPayment.set_amount
            (confirmed_with w cp h (run_verifier env w cp h))
            (two_decimals usd) in
        exists st3,
          stored_payment st3 pid = Some written
          /\ untouched st st3
          /\ verifyCryptoTransaction env w req st
             = handle (settle req plan user
                         (mkConversion (dynamicCredits usd) usd written)
                         (data_of (run_verifier env w cp h)) h)
                 (fun _ => internal_error) st3
          /\ stored_payment (snd (verifyCryptoTransaction env w req st)) pid
             = Some written
          /\ CryptoPayment.amount written = two_decimals usd).
Proof.
  split; [exact created_amount_is_price | exact conversion_writes_back].
Qed.

(** Bob's transfer of 10 USDT at a rate of 1: the amount 9.99 requested at
    creation is overwritten with 10.  Alice's new request holds the plan's
    price. *)
Lemma conversion_overwrites_amount_witness :
  option_map CryptoPayment.amount
    (stored_payment
       (snd (verifyCryptoTransaction Sample.env
               (Sample.world 1500 1600 (Sample.bsc_node 5 "10.0")
                  Sample.sol_down (Js.of_Z 1))
               (Sample.by_bob "0xH9") (Sample.state [Sample.bep_request])))
       "crypto-1000-bbbbbbbbb")
  = Some (Js.of_Z 10)
  /\ exists p plan planId,
       body_planId Sample.create_by_alice = Some (Casts planId)
       /\ PaymentPlan.findById (plans (db (Sample.state []))) planId = Some plan
       /\ payments (db (snd (createCryptoPayment Sample.env Sample.create_world
                               Sample.create_by_alice (Sample.state []))))
          = (payments (db (Sample.state [])) ++ [p])%list
       /\ CryptoPayment.paymentId p = "crypto-1000-4fzyo82mv"
       /\ CryptoPayment.status p = pending
       /\ CryptoPayment.amount p = PaymentPlan.price plan.
Proof.
  split.
  - destruct (proj2 conversion_overwrites_amount Sample.env
                (Sample.world 1500 1600 (Sample.bsc_node 5 "10.0")
                   Sample.sol_down (Js.of_Z 1))
                (Sample.by_bob "0xH9") (Sample.state [Sample.bep_request])
                "crypto-1000-bbbbbbbbb" "0xH9" Sample.bep_request Sample.plan
                Sample.bob (Js.of_Z 1)
                (conj eq_refl (conj eq_refl (conj eq_refl eq_refl)))
                eq_refl eq_refl ltac:(discriminate)
                (sample_hash_unused [Sample.bep_request] "0xH9" 21%nat eq_refl)
                ltac:(simpl; lia) ltac:(vm_compute; reflexivity)
                ltac:(vm_compute; reflexivity) eq_refl eq_refl
                ltac:(vm_compute; reflexivity) ltac:(vm_compute; reflexivity)
                ltac:(vm_compute; reflexivity))
      as (st3 & _ & _ & _ & H & _).
    rewrite H. vm_compute. reflexivity.
  - apply (proj1 conversion_overwrites_amount Sample.env Sample.create_world
             Sample.create_by_alice (Sample.state [])
             (mkCreatedData "crypto-1000-4fzyo82mv" "So1WalletAddr"
                (Js.of_ratio 999 100) SOLcoin SOL "TXN-000001-yo82mv" 1801001
                "Starter" (Js.of_Z 50))).
    vm_compute. reflexivity.
Defined.

(** C10, as stated, fails on a dust transfer: Alice's 0.01 SOL at 20 USD
    reaches the conversion step, which answers "Insufficient amount" and
    returns before the overwrite; the record keeps the 9.99 requested at
    creation, not 0.20. *)
Lemma dust_keeps_requested_amount :
  fst (verifyCryptoTransaction Sample.env
         (Sample.world 1900 1910 Sample.bsc_down (Sample.sol_node 10000000)
            (Js.of_Z 20))
         (Sample.by_alice "SIG1") (Sample.state [Sample.sol_request]))
  = mkResponse 400
      (Failure
         "Insufficient amount. Sent ~$0.20; minimum 1 credit requires $0.45."
         false)
  /\ option_map CryptoPayment.amount
       (stored_payment
          (snd (verifyCryptoTransaction Sample.env
                  (Sample.world 1900 1910 Sample.bsc_down
                     (Sample.sol_node 10000000) (Js.of_Z 20))
                  (Sample.by_alice "SIG1") (Sample.state [Sample.sol_request])))
          "crypto-1000-aaaaaaaaa")
     = Some (PaymentPlan.price Sample.plan)
  /\ two_decimals (usd_value (Some (Js.of_ratio 1 100)) (Js.of_Z 20))
     = Js.of_ratio 20 100
  /\ PrimFloat.eqb (PaymentPlan.price Sample.plan) (Js.of_ratio 20 100) = false.
Proof. repeat split; vm_compute; reflexivity. Qed.

(* ================================================================== *)
(** * The USDT rate: cache and fallback *)
(* ================================================================== *)

Lemma fallback_is_positive (v : option string) (f : float) :
  fallback_of v = Some f ->
  exists s, v = Some s /\ f = Js.parseFloat s
            /\ Js.gt f 0 = true /\ Js.isNaN f = false.
Proof.
  unfold fallback_of. destruct v as [s|]; [|discriminate].
  destruct (Js.nonempty s); [|discriminate].
  destruct (negb (Js.isNaN (Js.parseFloat s))) eqn:Hn; [|discriminate].
  destruct (Js.gt (Js.parseFloat s) 0) eqn:Hg; [|discriminate].
  simpl. intros H. inversion H; subst f. exists s.
  apply negb_true_iff in Hn. auto.
Qed.

(** The cache misses exactly when no value is held, the value held is
    not truthy, or its expiry is not after now. *)
Lemma fresh_miss (e : Entry) (now : Z) :
  fresh e now = None
  <-> (value e = None
       \/ (exists v, value e = Some v /\ Js.truthy v = false)
       \/ entry_expiresAt e <= now).
Proof.
  unfold fresh. destruct (value e) as [v|].
  - destruct (Js.truthy v) eqn:Ht; cbn [andb].
    + destruct (now <? entry_expiresAt e) eqn:Hn.
      * apply Z.ltb_lt in Hn. split; [discriminate|].
        intros [H|[(v' & H & Hf)|H]];
          [discriminate | inversion H; subst v'; congruence | lia].
      * apply Z.ltb_ge in Hn. split; [|reflexivity]. intros _.
        right. right. exact Hn.
    + split; [|reflexivity]. intros _. right. left. exists v. auto.
  - split; [|reflexivity]. intros _. left. reflexivity.
Qed.

(** The fetch fails exactly when the request throws or the reply carries no
    positive number. *)
Lemma fetched_fails (feed : Feed) (invalid : string) :
  (exists e, fetched feed invalid = Throw e)
  <-> ((exists m, feed = FeedDown m)
       \/ feed = FeedReply None
       \/ exists r, feed = FeedReply (Some r) /\ Js.le r 0 = true).
Proof.
  destruct feed as [m|[r|]]; cbn [fetched].
  - split; [|eexists; reflexivity]. intros _. left. exists m. reflexivity.
  - destruct (Js.le r 0) eqn:Hle.
    + split; [|eexists; reflexivity]. intros _. right. right. exists r. auto.
    + split; [intros (e & H); discriminate|].
      intros [(m & H)|[H|(r' & H & Hr)]]; try discriminate.
      inversion H; subst r'. congruence.
  - split; [|eexists; reflexivity]. intros _. right. left. reflexivity.
Qed.

(** The override counts exactly when it is set, not empty, and parses to a
    positive number. *)
Lemma fallback_of_spec (v : option string) :
  (forall s, v = Some s -> Js.nonempty s = true ->
             Js.isNaN (Js.parseFloat s) = false ->
             Js.gt (Js.parseFloat s) 0 = true ->
             fallback_of v = Some (Js.parseFloat s))
  /\ ((v = None
       \/ exists s, v = Some s
                    /\ (Js.nonempty s = false
                        \/ Js.isNaN (Js.parseFloat s) = true
                        \/ Js.gt (Js.parseFloat s) 0 = false)) ->
      fallback_of v = None).
Proof.
  unfold fallback_of. split.
  - intros s -> Hs Hn Hg. rewrite Hs, Hn, Hg. reflexivity.
  - intros [->|(s & -> & H)]; [reflexivity|].
    destruct (Js.nonempty s); [|reflexivity].
    destruct H as [H|[H|H]]; [discriminate| |]; rewrite H;
      [reflexivity | rewrite andb_false_r; reflexivity].
Qed.

(** C9.  If the cache holds a USDT rate that has not expired (a truthy
    value whose expiry lies after now), the lookup returns it, leaves the
    cache as it is and does not request the feed, whatever the feed would
    answer.  Otherwise (no value, a value that is not truthy, or an expiry
    that does not lie after now) the feed is requested, and if the fetch
    fails (the request throws, or the reply carries no number or a number
    [<= 0]) the lookup does not throw: it returns the value of
    USDT_USD_FALLBACK_RATE when that is set and parses to a positive number,
    and 1.0 in every other case, and caches the value returned until
    [now + 60000]. *)
Theorem usdt_rate_cache_and_fallback (env : Env) (now : Z) (feed : Feed)
    (c : Cache) :
  (forall v,
      value (usdtUsd c) = Some v -> Js.truthy v = true ->
      now < entry_expiresAt (usdtUsd c) ->
      getUsdtUsdRate env now feed c = mkLookup (Done v) c false)
  /\ (value (usdtUsd c) = None
      \/ (exists v, value (usdtUsd c) = Some v /\ Js.truthy v = false)
      \/ entry_expiresAt (usdtUsd c) <= now ->
      (exists m, feed = FeedDown m)
      \/ feed = FeedReply None
      \/ (exists r, feed = FeedReply (Some r) /\ Js.le r 0 = true) ->
      (forall s,
          USDT_USD_FALLBACK_RATE env = Some s ->
          Js.nonempty s = true ->
          Js.isNaN (Js.parseFloat s) = false ->
          Js.gt (Js.parseFloat s) 0 = true ->
          getUsdtUsdRate env now feed c
          = mkLookup (Done (Js.parseFloat s))
              (mkCache (solUsd c)
                 (mkEntry (Some (Js.parseFloat s)) (now + 60000)))
              true)
      /\ (USDT_USD_FALLBACK_RATE env = None
          \/ (exists s, USDT_USD_FALLBACK_RATE env = Some s
                        /\ (Js.nonempty s = false
                            \/ Js.isNaN (Js.parseFloat s) = true
                            \/ Js.gt (Js.parseFloat s) 0 = false)) ->
          getUsdtUsdRate env now feed c
          = mkLookup (Done PrimFloat.one)
              (mkCache (solUsd c) (mkEntry (Some PrimFloat.one) (now + 60000)))
              true)).
Proof.
  split.
  - intros v Hv Ht Hnow. unfold getUsdtUsdRate, fresh.
    apply Z.ltb_lt in Hnow. rewrite Hv, Ht, Hnow. reflexivity.
  - intros Hmiss Hfail.
    apply (proj2 (fresh_miss (usdtUsd c) now)) in Hmiss.
    apply (proj2 (fetched_fails feed "Invalid USDT/USD rate from provider"))
      in Hfail.
    destruct Hfail as (e & Hfail).
    destruct (fallback_of_spec (USDT_USD_FALLBACK_RATE env)) as (Hset & Hnot).
    split.
    + intros s Hs Hne Hn Hg. unfold getUsdtUsdRate.
      rewrite Hmiss, Hfail, (Hset s Hs Hne Hn Hg). reflexivity.
    + intros Hno. unfold getUsdtUsdRate.
      rewrite Hmiss, Hfail, (Hnot Hno). reflexivity.
Qed.

(** A warm cache read at 4000, before its expiry at 5000, with the feed
    down; the same cache read at 9000, past the expiry, with the feed down
    and no override; and an empty cache with a feed that replies without a
    number, under the operator's override 0.998. *)
Lemma usdt_rate_cache_and_fallback_witness :
  getUsdtUsdRate Sample.env 4000 (FeedDown "timeout") Sample.warm_cache
  = mkLookup (Done (Js.of_ratio 999 1000)) Sample.warm_cache false
  /\ getUsdtUsdRate Sample.env 9000 (FeedDown "timeout") Sample.warm_cache
     = mkLookup (Done PrimFloat.one)
         (mkCache (mkEntry None 0) (mkEntry (Some PrimFloat.one) 69000)) true
  /\ getUsdtUsdRate Sample.env_with_override 4000 (FeedReply None) empty_cache
     = mkLookup (Done (Js.of_ratio 998 1000))
         (mkCache (mkEntry None 0) (mkEntry (Some (Js.of_ratio 998 1000)) 64000))
         true.
Proof.
  split; [|split].
  - apply (proj1 (usdt_rate_cache_and_fallback Sample.env 4000
                    (FeedDown "timeout") Sample.warm_cache)).
    + reflexivity.
    + vm_compute. reflexivity.
    + simpl. lia.
  - apply (proj2 (proj2 (usdt_rate_cache_and_fallback Sample.env 9000
                           (FeedDown "timeout") Sample.warm_cache)
                    ltac:(right; right; simpl; lia)
                    ltac:(left; exists "timeout"; reflexivity))).
    left. reflexivity.
  - change (Js.of_ratio 998 1000) with (Js.parseFloat "0.998").
    apply (proj1 (proj2 (usdt_rate_cache_and_fallback Sample.env_with_override
                           4000 (FeedReply None) empty_cache)
                    ltac:(left; reflexivity)
                    ltac:(right; left; reflexivity))).
    + reflexivity.
    + reflexivity.
    + vm_compute. reflexivity.
    + vm_compute. reflexivity.
Defined.

(* ================================================================== *)
(** * The commit *)
(* ================================================================== *)

(** The ledger entry of a BEP20 settlement names its network [BEP20], which
    is not among the values the schema admits for [cryptoNetwork]: the
    entry does not validate. *)
Lemma bep20_entry_invalid (req : VerifyRequest) (plan : PaymentPlan.t)
    (c : Conversion) (v : VerificationData) (h : string) :
  CryptoPayment.network (converted c) = BEP20 ->
  Transaction.valid (ledger_entry req plan c v h) = false.
Proof.
  intros Hnet. unfold Transaction.valid, ledger_entry.
  cbn [Transaction.cryptoNetwork]. rewrite Hnet.
  change (Transaction.member (Network_name BEP20) Transaction.cryptoNetwork_enum)
    with false.
  repeat rewrite andb_false_r. reflexivity.
Qed.

(** So the commit of a BEP20 settlement throws, whatever the amount: no
    entry is created and no credits are granted. *)
Lemma bep20_commit_throws (req : VerifyRequest) (plan : PaymentPlan.t)
    (user : User.t) (c : Conversion) (v : VerificationData) (h : string)
    (st : State) :
  CryptoPayment.network (converted c) = BEP20 ->
  Transaction.findByCryptoHash (transactions (db st)) h = None ->
  settle req plan user c v h st
  = (Raise "Transaction validation failed", st).
Proof.
  intros Hnet Hnone. unfold settle. unfold bind at 1. unfold read_db at 1.
  rewrite Hnone. unfold create_transaction, bind, read_db, attempt.
  unfold Transaction.create. rewrite (bep20_entry_invalid req plan c v h Hnet).
  reflexivity.
Qed.

(** The commit of a settlement whose entry the ledger accepts: the entry is
    appended, and the call of [user.addQuota] throws.  Nothing after the
    throw runs: no credits, no success reply. *)
Lemma settle_new (req : VerifyRequest) (plan : PaymentPlan.t) (user : User.t)
    (c : Conversion) (v : VerificationData) (h : string) (st : State)
    (t : Transaction.t) (l' : list Transaction.t) :
  Transaction.findByCryptoHash (transactions (db st)) h = None ->
  Transaction.create (transactions (db st)) (next_id (db st))
    (ledger_entry req plan c v h) = Done (t, l') ->
  settle req plan user c v h st
  = (Raise "user.addQuota is not a function",
     mkState (mkDatabase (users (db st)) (plans (db st))
                (payments (db st)) l' (S (next_id (db st))))
       (cache st) (feed_requests st)).
Proof.
  intros Hnone Hc. unfold settle. unfold bind at 1.
  unfold read_db at 1. rewrite Hnone.
  unfold create_transaction, addQuota, bind, read_db, write_db, attempt, ret,
    raise.
  rewrite Hc. reflexivity.
Qed.

(** C3 on its own example.  Bob pays 10 USDT at a rate of 1.0 for a BEP20
    request, with 5 confirmations.  The conversion computes
    [floor(10 / 0.45) = 22] credits, but the ledger entry of a BEP20
    settlement does not pass the Transaction schema, whose [cryptoNetwork]
    admits SOL, USDT and USDC only: [Transaction.create] throws, the call
    replies with the internal error, no Transaction is recorded and Bob's
    credits stay at 40, while the payment is left confirmed. *)
Theorem bep20_settlement_is_refused :
  dynamicCredits (usd_value (Some (Js.of_Z 10)) (Js.of_Z 1)) = Js.of_Z 22
  /\ Transaction.member (Network_name BEP20) Transaction.cryptoNetwork_enum
     = false
  /\ verified (run_verifier Sample.env
                 (Sample.world 1500 1600 (Sample.bsc_node 5 "10.0")
                    Sample.sol_down (Js.of_Z 1))
                 Sample.bep_request "0xH9") = true
  /\ fst (verifyCryptoTransaction Sample.env
            (Sample.world 1500 1600 (Sample.bsc_node 5 "10.0") Sample.sol_down
               (Js.of_Z 1))
            (Sample.by_bob "0xH9") (Sample.state [Sample.bep_request]))
     = internal_error
  /\ transactions
       (db (snd (verifyCryptoTransaction Sample.env
                   (Sample.world 1500 1600 (Sample.bsc_node 5 "10.0")
                      Sample.sol_down (Js.of_Z 1))
                   (Sample.by_bob "0xH9") (Sample.state [Sample.bep_request]))))
     = []
  /\ credits_of
       (snd (verifyCryptoTransaction Sample.env
               (Sample.world 1500 1600 (Sample.bsc_node 5 "10.0")
                  Sample.sol_down (Js.of_Z 1))
               (Sample.by_bob "0xH9") (Sample.state [Sample.bep_request])))
       2%nat
     = Some (Js.of_Z 40)
  /\ option_map CryptoPayment.status
       (stored_payment
          (snd (verifyCryptoTransaction Sample.env
                  (Sample.world 1500 1600 (Sample.bsc_node 5 "10.0")
                     Sample.sol_down (Js.of_Z 1))
                  (Sample.by_bob "0xH9") (Sample.state [Sample.bep_request])))
          "crypto-1000-bbbbbbbbb")
     = Some confirmed.
Proof. repeat split; vm_compute; reflexivity. Qed.

(** C6 on its own example.  Alice pays 0.01 SOL with SOL/USD at 20: the USD
    value is 0.20 and the credit count 0.  The call replies with the
    insufficient-amount error and grants nothing, but the payment was
    marked confirmed before the conversion and the rejection does not
    change it: the record ends [confirmed], not [failed]. *)
Theorem dust_payment_stays_confirmed :
  usd_value (Some (Js.of_ratio 1 100)) (Js.of_Z 20) = Js.of_ratio 20 100
  /\ dynamicCredits (Js.of_ratio 20 100) = PrimFloat.zero
  /\ fst (verifyCryptoTransaction Sample.env
            (Sample.world 1900 1910 Sample.bsc_down (Sample.sol_node 10000000)
               (Js.of_Z 20))
            (Sample.by_alice "SIG1") (Sample.state [Sample.sol_request]))
     = mkResponse 400
         (Failure
            "Insufficient amount. Sent ~$0.20; minimum 1 credit requires $0.45."
            false)
  /\ credits_of
       (snd (verifyCryptoTransaction Sample.env
               (Sample.world 1900 1910 Sample.bsc_down
                  (Sample.sol_node 10000000) (Js.of_Z 20))
               (Sample.by_alice "SIG1") (Sample.state [Sample.sol_request])))
       1%nat
     = Some (Js.of_Z 40)
  /\ transactions
       (db (snd (verifyCryptoTransaction Sample.env
                   (Sample.world 1900 1910 Sample.bsc_down
                      (Sample.sol_node 10000000) (Js.of_Z 20))
                   (Sample.by_alice "SIG1")
                   (Sample.state [Sample.sol_request]))))
     = []
  /\ option_map CryptoPayment.status
       (stored_payment
          (snd (verifyCryptoTransaction Sample.env
                  (Sample.world 1900 1910 Sample.bsc_down
                     (Sample.sol_node 10000000) (Js.of_Z 20))
                  (Sample.by_alice "SIG1") (Sample.state [Sample.sol_request])))
          "crypto-1000-aaaaaaaaa")
     = Some confirmed.
Proof. repeat split; vm_compute; reflexivity. Qed.

(* ================================================================== *)
(** * A SOL settlement *)
(* ================================================================== *)

(** A credit count of at least one is not [<= 0]. *)
Lemma ge_one_not_le_zero (c : float) : Js.le 1 c = true -> Js.le c 0 = false.
Proof.
  unfold Js.le. rewrite !leb_spec.
  change (Prim2SF 1) with (S754_finite false 4503599627370496 (-52)).
  change (Prim2SF 0) with (S754_zero false).
  destruct (Prim2SF c) as [s|s| |s m e]; try destruct s; simpl;
    try reflexivity; try discriminate.
Qed.

Lemma no_entry_index_admits (l : list Transaction.t) (h : string)
    (d : Transaction.t) :
  Transaction.findByCryptoHash l h = None ->
  Transaction.cryptoTransactionHash d = Some h ->
  Transaction.index_admits Transaction.cryptoTransactionHash l d = true.
Proof.
  intros Hnone Hh. unfold Transaction.index_admits. rewrite Hh.
  apply negb_true_iff. unfold Transaction.findByCryptoHash in Hnone.
  destruct (existsb (Transaction.holds Transaction.cryptoTransactionHash h) l)
    eqn:E; [|reflexivity].
  apply existsb_exists in E. destruct E as (x & Hin & Hx).
  rewrite (find_none _ _ Hnone _ Hin) in Hx. discriminate.
Qed.

(** X1.  What a SOL settlement comes to.  For a SOL payment whose transfer
    verifies with amount [a], at a SOL/USD rate [r], with
    [credits = floor((a * r) / 0.45)] at least 1 and no entry for the hash in
    the ledger: the call appends one Transaction with the submitted hash,
    [quotaAmount = credits] and the USD value in cents as [amount], and then
    throws at [user.addQuota], which the User model does not define.  The
    reply is the internal error, sent with status 500; the accounts are as
    they were, so the user's credits have not moved; and the payment stays
    stored confirmed, with the USD value rounded to two decimals as its
    amount. *)
Theorem sol_settlement_records_and_fails (env : Env) (w : World)
    (req : VerifyRequest) (st : State) (pid h : string) (cp : CryptoPayment.t)
    (plan : PaymentPlan.t) (user : User.t) (r : float) :
  names req pid h ->
  stored_payment st pid = Some cp ->
  CryptoPayment.userId cp = verify_user req ->
  CryptoPayment.status cp <> confirmed ->
  hash_unused st h (CryptoPayment._id cp) ->
  now_check w <= CryptoPayment.expiresAt cp ->
  CryptoPayment.network cp = SOL ->
  verified (run_verifier env w cp h) = true ->
  CryptoPayment.castable (v_amount (run_verifier env w cp h)) = true ->
  PaymentPlan.findById (plans (db st)) (CryptoPayment.planId cp) = Some plan ->
  User.findById (users (db st)) (verify_user req) = Some user ->
  rate (getSolUsdRate env (now_rate w) (feed w) (cache st)) = Done r ->
  Transaction.findByCryptoHash (transactions (db st)) h = None ->
  let usd := usd_value (v_amount (run_verifier env w cp h)) r in
  let credits := Js.floor (PrimFloat.div usd USD_PER_CREDIT) in
  let cents := Js.round (PrimFloat.mul usd (Js.of_Z 100)) in
  Js.le 1 credits = true ->
  Js.le 0 cents = true ->
  Js.isNaN (two_decimals usd) = false ->
  exists t st',
    verifyCryptoTransaction env w req st
    = (mkResponse 500 (Failure "Failed to verify crypto transaction" false),
       st')
    /\ transactions (db st') = (transactions (db st) ++ [t])%list
    /\ Transaction.cryptoTransactionHash t = Some h
    /\ Transaction.userId t = verify_user req
    /\ Transaction.quotaAmount t = credits
    /\ Transaction.amount t = cents
    /\ users (db st') = users (db st)
    /\ credits_of st' (verify_user req) = Some (User.availableUsage user)
    /\ stored_payment st' pid
       = Some (CryptoPayment.set_amount
                 (confirmed_with w cp h (run_verifier env w cp h))
                 (two_decimals usd)).
Proof.
  intros Hn Hst Hu Hs Hun Hexp Hnet Hv Hc Hplan Huser Hrate Hnone usd credits
    cents Hcred Hcents Hnan.
  assert (rate (rate_lookup env w (CryptoPayment.network cp) (cache st))
          = Done r) as Hrate' by (rewrite Hnet; exact Hrate).
  destruct (conversion_writes_back env w req st pid h cp plan user
              r Hn Hst Hu Hs Hun Hexp Hv Hc Hplan Huser Hrate'
              (ge_one_not_le_zero _ Hcred) Hnan)
    as (st3 & _ & (Htx & Husers) & Heq & Hstored & _).
  fold usd in Heq, Hstored. fold credits in Heq.
  set (c := mkConversion (dynamicCredits usd) usd
              (CryptoPayment.set_amount
                 (confirmed_with w cp h (run_verifier env w cp h))
                 (two_decimals usd))) in *.
  set (v := data_of (run_verifier env w cp h)) in *.
  assert (exists t l',
             Transaction.create (transactions (db st3)) (next_id (db st3))
               (ledger_entry req plan c v h) = Done (t, l')
             /\ l' = (transactions (db st) ++ [t])%list
             /\ Transaction.cryptoTransactionHash t = Some h
             /\ Transaction.userId t = verify_user req
             /\ Transaction.quotaAmount t = credits
             /\ Transaction.amount t = cents) as (t & l' & Hcreate & Hl' & Hprops).
  { unfold Transaction.create.
    assert (Transaction.valid (ledger_entry req plan c v h) = true) as Hvalid.
    { unfold Transaction.valid, ledger_entry, c.
      cbn [Transaction.amount Transaction.currency Transaction.quotaAmount
           Transaction.status Transaction.paymentMethod Transaction.description
           Transaction.cryptoNetwork converted quotaToAdd
           usdAmountForTransaction].
      simpl CryptoPayment.network. rewrite Hnet.
      fold cents. rewrite Hcents. unfold dynamicCredits. fold credits.
      rewrite Hcred. reflexivity. }
    rewrite Hvalid.
    change (Transaction.index_admits Transaction.stripePaymentIntentId
              (transactions (db st3)) (ledger_entry req plan c v h)) with true.
    change (Transaction.index_admits Transaction.stripeSessionId
              (transactions (db st3)) (ledger_entry req plan c v h)) with true.
    rewrite (no_entry_index_admits (transactions (db st3)) h
               (ledger_entry req plan c v h)); [|rewrite Htx; exact Hnone
                                                |reflexivity].
    eexists. eexists. split; [reflexivity|]. rewrite Htx.
    split; [reflexivity|]. repeat split. }
  assert (Transaction.findByCryptoHash (transactions (db st3)) h = None)
    as Hnone3 by (rewrite Htx; exact Hnone).
  pose proof (settle_new req plan user c v h st3 t l' Hnone3 Hcreate) as Hset.
  exists t. eexists. split.
  - rewrite Heq. unfold handle. rewrite Hset. reflexivity.
  - cbn [db transactions users]. split; [exact Hl'|].
    destruct Hprops as (H1 & H2 & H3 & H4).
    split; [exact H1|]. split; [exact H2|]. split; [exact H3|].
    split; [exact H4|]. split; [exact Husers|]. split.
    + unfold credits_of. cbn [db users]. rewrite Husers, Huser. reflexivity.
    + rewrite Heq, handle_state, Hset in Hstored. exact Hstored.
Qed.

(** Alice's 1 SOL at 20 USD: the entry for 44 credits is recorded, the
    reply is the internal error, and her credits stay at 40. *)
Lemma sol_settlement_records_and_fails_witness :
  exists t st',
    verifyCryptoTransaction Sample.env
      (Sample.world 1900 1910 Sample.bsc_down (Sample.sol_node 1000000000)
         (Js.of_Z 20))
      (Sample.by_alice "SIG1") (Sample.state [Sample.sol_request])
    = (internal_error, st')
    /\ transactions (db st') = [t]
    /\ Transaction.cryptoTransactionHash t = Some "SIG1"
    /\ Transaction.quotaAmount t = Js.of_Z 44
    /\ Transaction.amount t = Js.of_Z 2000
    /\ credits_of st' 1%nat = Some (Js.of_Z 40).
Proof.
  destruct (sol_settlement_records_and_fails Sample.env
              (Sample.world 1900 1910 Sample.bsc_down
                 (Sample.sol_node 1000000000) (Js.of_Z 20))
              (Sample.by_alice "SIG1") (Sample.state [Sample.sol_request])
              "crypto-1000-aaaaaaaaa" "SIG1" Sample.sol_request Sample.plan
              Sample.alice (Js.of_Z 20)
              (conj eq_refl (conj eq_refl (conj eq_refl eq_refl)))
              eq_refl eq_refl ltac:(discriminate)
              (sample_hash_unused [Sample.sol_request] "SIG1" 20%nat eq_refl)
              ltac:(simpl; lia) eq_refl ltac:(vm_compute; reflexivity)
              ltac:(vm_compute; reflexivity) eq_refl eq_refl
              ltac:(vm_compute; reflexivity) eq_refl
              ltac:(vm_compute; reflexivity) ltac:(vm_compute; reflexivity)
              ltac:(vm_compute; reflexivity))
    as (t & st' & H1 & H2 & H3 & _ & H4 & H5 & _ & H6 & _).
  exists t, st'. repeat split; assumption.
Defined.

(* ================================================================== *)
(** * utils/cryptoRates: what the lookups return and keep *)
(* ================================================================== *)

Lemma gt_zero_not_le_zero (f : float) : Js.gt f 0 = true -> Js.le f 0 = false.
Proof.
  unfold Js.gt, Js.le. rewrite ltb_spec, leb_spec.
  change (Prim2SF 0) with (S754_zero false).
  destruct (Prim2SF f) as [s|s| |s m e]; try destruct s; simpl;
    try reflexivity; try discriminate.
Qed.

Lemma gt_zero_truthy (f : float) : Js.gt f 0 = true -> Js.truthy f = true.
Proof.
  unfold Js.gt, Js.truthy, PrimFloat.is_zero, PrimFloat.is_nan.
  rewrite ltb_spec, !eqb_spec.
  change (Prim2SF 0) with (S754_zero false).
  change (Prim2SF PrimFloat.zero) with (S754_zero false).
  destruct (Prim2SF f) as [s|s| |s m e]; try destruct s; simpl;
    try reflexivity; try discriminate.
  intros _. unfold SFeqb, SFcompare.
  rewrite Z.compare_refl, Pos.compare_refl. reflexivity.
Qed.

Lemma fetched_not_le_zero (feed : Feed) (invalid : string) (r : float) :
  fetched feed invalid = Done r -> Js.le r 0 = false.
Proof.
  unfold fetched. destruct feed as [m|[rate|]]; try discriminate.
  destruct (Js.le rate 0) eqn:E; [discriminate|].
  intros H. inversion H; subst. exact E.
Qed.

Lemma fresh_value (e : Entry) (now : Z) (v : float) :
  fresh e now = Some v ->
  value e = Some v /\ Js.truthy v = true /\ now < entry_expiresAt e.
Proof.
  unfold fresh. destruct (value e) as [x|]; [|discriminate].
  destruct (Js.truthy x) eqn:Ht; [|discriminate].
  destruct (now <? entry_expiresAt e) eqn:Hn; [|discriminate].
  simpl. intros H. inversion H; subst. apply Z.ltb_lt in Hn. auto.
Qed.

Lemma fresh_hit (e : Entry) (now : Z) (v : float) :
  value e = Some v -> Js.truthy v = true -> now < entry_expiresAt e ->
  fresh e now = Some v.
Proof.
  intros Hv Ht Hn. unfold fresh. apply Z.ltb_lt in Hn.
  rewrite Hv, Ht, Hn. reflexivity.
Qed.

Lemma fresh_stale (e : Entry) (now : Z) :
  entry_expiresAt e <= now -> fresh e now = None.
Proof.
  intros Hn. unfold fresh. destruct (value e); [|reflexivity].
  apply Z.ltb_ge in Hn. rewrite Hn, andb_false_r. reflexivity.
Qed.

Lemma sol_lookup_keeps (env : Env) (now : Z) (feed : Feed) (c : Cache) :
  no_nonpositive (solUsd c) -> no_nonpositive (usdtUsd c) ->
  no_nonpositive (solUsd (cache_after (getSolUsdRate env now feed c)))
  /\ no_nonpositive (usdtUsd (cache_after (getSolUsdRate env now feed c)))
  /\ forall v, rate (getSolUsdRate env now feed c) = Done v ->
               Js.le v 0 = false.
Proof.
  intros Hs Hu. unfold getSolUsdRate.
  destruct (fresh (solUsd c) now) as [v|] eqn:Hf.
  - simpl. repeat split; auto. intros v' H. inversion H; subst.
    apply fresh_value in Hf. destruct Hf as (Hv & _ & _).
    unfold no_nonpositive in Hs. rewrite Hv in Hs. exact Hs.
  - destruct (fetched feed "Invalid SOL/USD rate from provider") as [r|e] eqn:Hr.
    + simpl. pose proof (fetched_not_le_zero _ _ _ Hr) as Hp.
      repeat split; auto. intros v H. inversion H; subst. exact Hp.
    + destruct (fallback_of (SOL_USD_FALLBACK_RATE env)) as [f|] eqn:Hfb;
        simpl; repeat split; auto.
      * intros v H. inversion H; subst.
        destruct (fallback_is_positive _ _ Hfb) as (s & _ & _ & Hg & _).
        apply gt_zero_not_le_zero. exact Hg.
      * intros v H. discriminate.
Qed.

Lemma usdt_lookup_keeps (env : Env) (now : Z) (feed : Feed) (c : Cache) :
  no_nonpositive (solUsd c) -> no_nonpositive (usdtUsd c) ->
  no_nonpositive (solUsd (cache_after (getUsdtUsdRate env now feed c)))
  /\ no_nonpositive (usdtUsd (cache_after (getUsdtUsdRate env now feed c)))
  /\ exists v, rate (getUsdtUsdRate env now feed c) = Done v
               /\ Js.le v 0 = false.
Proof.
  intros Hs Hu. unfold getUsdtUsdRate.
  destruct (fresh (usdtUsd c) now) as [v|] eqn:Hf.
  - simpl. repeat split; auto. exists v. split; [reflexivity|].
    apply fresh_value in Hf. destruct Hf as (Hv & _ & _).
    unfold no_nonpositive in Hu. rewrite Hv in Hu. exact Hu.
  - destruct (fetched feed "Invalid USDT/USD rate from provider")
      as [r|e] eqn:Hr.
    + simpl. pose proof (fetched_not_le_zero _ _ _ Hr) as Hp.
      repeat split; auto. exists r. auto.
    + destruct (fallback_of (USDT_USD_FALLBACK_RATE env)) as [f|] eqn:Hfb;
        simpl.
      * destruct (fallback_is_positive _ _ Hfb) as (s & _ & _ & Hg & _).
        apply gt_zero_not_le_zero in Hg.
        repeat split; auto. exists f. auto.
      * repeat split; auto. exists PrimFloat.one. auto.
Qed.

Lemma reachable_cache_no_nonpositive (c : Cache) :
  cache_reachable c -> no_nonpositive (solUsd c) /\ no_nonpositive (usdtUsd c).
Proof.
  induction 1 as [|env now feed c _ [IHs IHu]|env now feed c _ [IHs IHu]].
  - split; exact I.
  - destruct (sol_lookup_keeps env now feed c IHs IHu) as (A & B & _). auto.
  - destruct (usdt_lookup_keeps env now feed c IHs IHu) as (A & B & _). auto.
Qed.

(** X3.  Over the life of a process, whatever the feed answered and
    whatever the environment held at each lookup: no lookup returns a rate
    that is zero or negative, and the USDT lookup always returns a rate,
    it never throws. *)
Theorem rates_are_never_nonpositive (c : Cache) :
  cache_reachable c ->
  (forall env now feed v,
      rate (getSolUsdRate env now feed c) = Done v -> Js.le v 0 = false)
  /\ (forall env now feed,
        exists v, rate (getUsdtUsdRate env now feed c) = Done v
                  /\ Js.le v 0 = false).
Proof.
  intros Hc. destruct (reachable_cache_no_nonpositive c Hc) as [Hs Hu]. split.
  - intros env now feed. exact (proj2 (proj2 (sol_lookup_keeps env now feed c Hs Hu))).
  - intros env now feed. exact (proj2 (proj2 (usdt_lookup_keeps env now feed c Hs Hu))).
Qed.

(** After a USDT lookup with the feed down and a SOL lookup that fetched 20:
    the next USDT lookup answers and the next SOL lookup, whatever it
    returns, does not return a rate [<= 0]. *)
Lemma rates_are_never_nonpositive_witness :
  (forall v,
      rate (getSolUsdRate Sample.env 9000 (FeedReply (Some (Js.of_Z 0)))
              (cache_after
                 (getSolUsdRate Sample.env 5000 (FeedReply (Some (Js.of_Z 20)))
                    (cache_after
                       (getUsdtUsdRate Sample.env 4000 (FeedDown "timeout")
                          empty_cache))))) = Done v ->
      Js.le v 0 = false)
  /\ exists v,
       rate (getUsdtUsdRate Sample.env 9000 (FeedReply (Some (Js.of_Z 0)))
               (cache_after
                  (getSolUsdRate Sample.env 5000 (FeedReply (Some (Js.of_Z 20)))
                     (cache_after
                        (getUsdtUsdRate Sample.env 4000 (FeedDown "timeout")
                           empty_cache))))) = Done v
       /\ Js.le v 0 = false.
Proof.
  destruct (rates_are_never_nonpositive
              (cache_after
                 (getSolUsdRate Sample.env 5000 (FeedReply (Some (Js.of_Z 20)))
                    (cache_after
                       (getUsdtUsdRate Sample.env 4000 (FeedDown "timeout")
                          empty_cache))))
              (@cache_sol Sample.env 5000 (FeedReply (Some (Js.of_Z 20))) _
                 (@cache_usdt Sample.env 4000 (FeedDown "timeout") _
                    cache_start))) as [Hs Hu].
  split.
  - exact (Hs Sample.env 9000 (FeedReply (Some (Js.of_Z 0)))).
  - exact (Hu Sample.env 9000 (FeedReply (Some (Js.of_Z 0)))).
Defined.

(** X4.  A rate fetched from the feed is served from the cache for one
    minute: a positive rate fetched at [now] is returned by every lookup
    strictly before [now + 60000], whatever the feed and the environment
    are by then and without a request to the feed; from [now + 60000] on
    the feed is requested again.  This holds for the SOL and for the USDT
    lookup, and a lookup of one asset leaves the entry of the other as it
    was. *)
Theorem fetched_rate_is_served_for_a_minute (env : Env) (now : Z) (r : float)
    (c : Cache) :
  Js.gt r 0 = true ->
  (fresh (solUsd c) now = None ->
   let first := getSolUsdRate env now (FeedReply (Some r)) c in
   rate first = Done r /\ requested first = true
   /\ usdtUsd (cache_after first) = usdtUsd c
   /\ forall env' now' feed',
        (now' < now + 60000 ->
         getSolUsdRate env' now' feed' (cache_after first)
         = mkLookup (Done r) (cache_after first) false)
        /\ (now + 60000 <= now' ->
            requested (getSolUsdRate env' now' feed' (cache_after first))
            = true))
  /\ (fresh (usdtUsd c) now = None ->
      let first := getUsdtUsdRate env now (FeedReply (Some r)) c in
      rate first = Done r /\ requested first = true
      /\ solUsd (cache_after first) = solUsd c
      /\ forall env' now' feed',
           (now' < now + 60000 ->
            getUsdtUsdRate env' now' feed' (cache_after first)
            = mkLookup (Done r) (cache_after first) false)
           /\ (now + 60000 <= now' ->
               requested (getUsdtUsdRate env' now' feed' (cache_after first))
               = true)).
Proof.
  intros Hr.
  pose proof (gt_zero_not_le_zero r Hr) as Hle.
  pose proof (gt_zero_truthy r Hr) as Ht.
  split; intros Hmiss first.
  - assert (first = mkLookup (Done r)
              (mkCache (mkEntry (Some r) (now + 60000)) (usdtUsd c)) true)
      as ->.
    { unfold first, getSolUsdRate, fetched. rewrite Hmiss, Hle. reflexivity. }
    cbn [rate requested cache_after usdtUsd].
    repeat split; try reflexivity.
    + intros Hn. unfold getSolUsdRate. cbn [solUsd].
      rewrite (fresh_hit (mkEntry (Some r) (now + 60000)) now' r eq_refl Ht Hn).
      reflexivity.
    + intros Hn. unfold getSolUsdRate. cbn [solUsd].
      rewrite (fresh_stale (mkEntry (Some r) (now + 60000)) now' Hn).
      destruct (fetched feed' "Invalid SOL/USD rate from provider");
        [reflexivity|].
      destruct (fallback_of (SOL_USD_FALLBACK_RATE env')); reflexivity.
  - assert (first = mkLookup (Done r)
              (mkCache (solUsd c) (mkEntry (Some r) (now + 60000))) true)
      as ->.
    { unfold first, getUsdtUsdRate, fetched. rewrite Hmiss, Hle. reflexivity. }
    cbn [rate requested cache_after solUsd].
    repeat split; try reflexivity.
    + intros Hn. unfold getUsdtUsdRate. cbn [usdtUsd].
      rewrite (fresh_hit (mkEntry (Some r) (now + 60000)) now' r eq_refl Ht Hn).
      reflexivity.
    + intros Hn. unfold getUsdtUsdRate. cbn [usdtUsd].
      rewrite (fresh_stale (mkEntry (Some r) (now + 60000)) now' Hn).
      destruct (fetched feed' "Invalid USDT/USD rate from provider");
        [reflexivity|].
      destruct (fallback_of (USDT_USD_FALLBACK_RATE env')); reflexivity.
Qed.

(** A SOL rate of 20 fetched at 5000 is served at 64999 with the feed down,
    and at 65000 the feed is requested. *)
Lemma fetched_rate_is_served_for_a_minute_witness :
  rate (getSolUsdRate Sample.env 64999 (FeedDown "timeout")
          (cache_after
             (getSolUsdRate Sample.env 5000 (FeedReply (Some (Js.of_Z 20)))
                empty_cache)))
  = Done (Js.of_Z 20)
  /\ requested
       (getSolUsdRate Sample.env 65000 (FeedDown "timeout")
          (cache_after
             (getSolUsdRate Sample.env 5000 (FeedReply (Some (Js.of_Z 20)))
                empty_cache)))
     = true.
Proof.
  destruct (proj1 (fetched_rate_is_served_for_a_minute Sample.env 5000
                     (Js.of_Z 20) empty_cache eq_refl) eq_refl)
    as (_ & _ & _ & H).
  split.
  - rewrite (proj1 (H Sample.env 64999 (FeedDown "timeout")));
      [reflexivity | simpl; lia].
  - apply (proj2 (H Sample.env 65000 (FeedDown "timeout"))). simpl. lia.
Defined.

(** A call on a payment stored confirmed, by its owner: the already-confirmed
    reply, and nothing written. *)
Lemma confirmed_payment_replies (env : Env) (w : World) (req : VerifyRequest)
    (st : State) (pid h : string) (p : CryptoPayment.t) :
  names req pid h ->
  stored_payment st pid = Some p ->
  CryptoPayment.userId p = verify_user req ->
  CryptoPayment.status p = confirmed ->
  verifyCryptoTransaction env w req st = (already_confirmed, st).
Proof.
  intros Hn Hst Hu Hs.
  rewrite verify_unfold. unfold handle, verifyCryptoTransaction_try.
  rewrite (bind_Next _ _ _ _ _ (load_payment_ok _ _ _ _ _ Hn Hst Hu)).
  simpl fst. simpl snd.
  rewrite (bind_Reply _ _ _ _ _ (submit_confirmed w p h _ Hs)).
  reflexivity.
Qed.

(** X5.  The SOL rate is looked up after the payment has been marked
    confirmed, and a failed lookup is not caught on the way: when a SOL
    transfer verifies but the cache holds no fresh SOL rate, the feed fails
    and no positive SOL_USD_FALLBACK_RATE is configured, the call replies
    500 with the internal error, writes no ledger entry and grants no
    credits, and leaves the payment stored confirmed; every later call for
    that payment is answered with the already-confirmed reply and writes
    nothing. *)
Theorem sol_feed_outage_leaves_payment_confirmed (env : Env) (w : World)
    (req : VerifyRequest) (st : State) (pid h : string) (cp : CryptoPayment.t)
    (plan : PaymentPlan.t) (user : User.t) (e : string) :
  names req pid h ->
  stored_payment st pid = Some cp ->
  CryptoPayment.userId cp = verify_user req ->
  CryptoPayment.status cp <> confirmed ->
  hash_unused st h (CryptoPayment._id cp) ->
  now_check w <= CryptoPayment.expiresAt cp ->
  CryptoPayment.network cp = SOL ->
  verified (run_verifier env w cp h) = true ->
  CryptoPayment.castable (v_amount (run_verifier env w cp h)) = true ->
  PaymentPlan.findById (plans (db st)) (CryptoPayment.planId cp) = Some plan ->
  User.findById (users (db st)) (verify_user req) = Some user ->
  fresh (solUsd (cache st)) (now_rate w) = None ->
  fetched (feed w) "Invalid SOL/USD rate from provider" = Throw e ->
  fallback_of (SOL_USD_FALLBACK_RATE env) = None ->
  let after := snd (verifyCryptoTransaction env w req st) in
  fst (verifyCryptoTransaction env w req st) = internal_error
  /\ stored_payment after pid
     = Some (confirmed_with w cp h (run_verifier env w cp h))
  /\ untouched st after
  /\ forall w2, verifyCryptoTransaction env w2 req after
                = (already_confirmed, after).
Proof.
  intros Hn Hst Hu Hs Hun Hexp Hnet Hv Hc Hplan Huser Hmiss Hfeed Hfb after.
  pose proof (hash_unused_none _ _ _ Hun) as Hf.
  destruct (through_confirmation env w req st pid h cp Hn Hst Hu Hs Hf Hexp
              Hv Hc) as (l2 & Hst2 & Hrun).
  cbv zeta in Hst2, Hrun.
  set (p := confirmed_with w cp h (run_verifier env w cp h)) in *.
  assert (rate (rate_lookup env w (CryptoPayment.network p)
                  (cache (with_payments st l2))) = Throw e) as Hrate.
  { change (CryptoPayment.network p) with (CryptoPayment.network cp).
    rewrite Hnet. unfold rate_lookup, getSolUsdRate.
    change (cache (with_payments st l2)) with (cache st).
    rewrite Hmiss, Hfeed, Hfb. reflexivity. }
  assert (verifyCryptoTransaction env w req st
          = (internal_error,
             after_lookup (with_payments st l2)
               (rate_lookup env w (CryptoPayment.network p)
                  (cache (with_payments st l2))))) as Heq.
  { rewrite verify_unfold. unfold handle. rewrite Hrun.
    rewrite (bind_Next _ _ _ _ _
               (load_plan_and_user_ok req p (with_payments st l2) plan user
                  Hplan Huser)).
    simpl fst. simpl snd.
    rewrite (bind_Raise _ _ _ _ _
               (convert_rate_unavailable env w p
                  (data_of (run_verifier env w cp h)) (with_payments st l2) e
                  Hrate)).
    reflexivity. }
  unfold after. rewrite Heq. cbn [fst snd].
  split; [reflexivity|]. split; [exact Hst2|].
  split; [split; reflexivity|].
  intros w2.
  refine (confirmed_payment_replies env w2 req _ pid h p Hn _ Hu _).
  - exact Hst2.
  - reflexivity.
Qed.

(** Alice's 1 SOL verifies while the price feed is down. *)
Lemma sol_feed_outage_leaves_payment_confirmed_witness :
  fst (verifyCryptoTransaction Sample.env
         (mkWorld 1500 1600 Sample.bsc_down (Sample.sol_node 1000000000) 1600
            (FeedDown "timeout"))
         (Sample.by_alice "SIG1") (Sample.state [Sample.sol_request]))
  = internal_error
  /\ option_map CryptoPayment.status
       (stored_payment
          (snd (verifyCryptoTransaction Sample.env
                  (mkWorld 1500 1600 Sample.bsc_down
                     (Sample.sol_node 1000000000) 1600 (FeedDown "timeout"))
                  (Sample.by_alice "SIG1") (Sample.state [Sample.sol_request])))
          "crypto-1000-aaaaaaaaa")
     = Some confirmed.
Proof.
  destruct (sol_feed_outage_leaves_payment_confirmed Sample.env
              (mkWorld 1500 1600 Sample.bsc_down (Sample.sol_node 1000000000)
                 1600 (FeedDown "timeout"))
              (Sample.by_alice "SIG1") (Sample.state [Sample.sol_request])
              "crypto-1000-aaaaaaaaa" "SIG1" Sample.sol_request Sample.plan
              Sample.alice "timeout"
              (conj eq_refl (conj eq_refl (conj eq_refl eq_refl)))
              eq_refl eq_refl ltac:(discriminate)
              (sample_hash_unused [Sample.sol_request] "SIG1" 20%nat eq_refl)
              ltac:(simpl; lia) eq_refl ltac:(vm_compute; reflexivity)
              ltac:(vm_compute; reflexivity) eq_refl eq_refl eq_refl eq_refl
              eq_refl) as (H1 & H2 & _).
  split; [exact H1|]. rewrite H2. reflexivity.
Defined.

(* ================================================================== *)
(** * utils/blockchainVerification: the BEP20 verifier *)
(* ================================================================== *)

(** The scan passes over the logs of other contracts and the other events
    of the USDT contract. *)
Lemma scan_passes_over (node : Bsc) (expectedTo : string) (l1 l : list Log) :
  forallb passed_over l1 = true ->
  scan_logs node expectedTo (l1 ++ l) = scan_logs node expectedTo l.
Proof.
  induction l1 as [|log rest IH]; intros Hp; [reflexivity|].
  cbn [forallb] in Hp. apply andb_true_iff in Hp. destruct Hp as [Hlog Hrest].
  cbn [app scan_logs]. unfold passed_over, from_usdt, is_transfer in Hlog.
  revert Hlog.
  destruct (String.eqb (Js.toLowerCase (log_address log))
              (Js.toLowerCase USDT_BSC_CONTRACT)); [|intros _; exact (IH Hrest)].
  destruct (topics log) as [|t0 ts]; [discriminate|].
  destruct (String.eqb (Js.toLowerCase t0)
              (Js.toLowerCase transferEventSignature)); [discriminate|].
  intros _. exact (IH Hrest).
Qed.

(** The scan stops at the first [Transfer] of the USDT contract. *)
Lemma scan_stops_at_transfer (node : Bsc) (expectedTo : string) (log : Log)
    (l2 : list Log) :
  from_usdt log = true -> is_transfer log = true ->
  scan_logs node expectedTo (log :: l2) = scan_logs node expectedTo [log].
Proof.
  unfold from_usdt, is_transfer. intros Ha. cbn [scan_logs]. rewrite Ha.
  destruct (topics log) as [|t0 ts]; [discriminate|].
  intros Ht. rewrite Ht. reflexivity.
Qed.

Lemma scan_transfer_inv (node : Bsc) (expectedTo : string) (l : list Log)
    (from amt : string) :
  scan_logs node expectedTo l = Transfer from amt ->
  exists l1 log l2 t0 t1 t2 rest toAddress,
    l = (l1 ++ log :: l2)%list
    /\ forallb passed_over l1 = true
    /\ from_usdt log = true /\ is_transfer log = true
    /\ topics log = t0 :: t1 :: t2 :: rest
    /\ getAddress node ("0x" ++ Js.slice_last 40 t1) = Done from
    /\ getAddress node ("0x" ++ Js.slice_last 40 t2) = Done toAddress
    /\ Js.toLowerCase toAddress = Js.toLowerCase expectedTo
    /\ formatUnits node (log_data log)
         (match decimals node with Done d => d | Throw _ => 18 end)
       = Done amt
    /\ Js.lt (Js.parseFloat amt) (Js.of_ratio 1 100) = false.
Proof.
  induction l as [|log rest IH]; [discriminate|].
  cbn [scan_logs].
  destruct (String.eqb (Js.toLowerCase (log_address log))
              (Js.toLowerCase USDT_BSC_CONTRACT)) eqn:Ha.
  2:{ intros H. destruct (IH H)
        as (l1 & g & l2 & t0 & t1 & t2 & r & toA & -> & Hp & Hrest).
      exists (log :: l1), g, l2, t0, t1, t2, r, toA.
      split; [reflexivity|]. split; [|exact Hrest].
      cbn [forallb]. unfold passed_over at 1, from_usdt. rewrite Ha, Hp.
      reflexivity. }
  destruct (topics log) as [|t0 ts] eqn:Htop; [discriminate|].
  destruct (String.eqb (Js.toLowerCase t0)
              (Js.toLowerCase transferEventSignature)) eqn:Hsig.
  2:{ intros H. destruct (IH H)
        as (l1 & g & l2 & u0 & t1 & t2 & r & toA & -> & Hp & Hrest).
      exists (log :: l1), g, l2, u0, t1, t2, r, toA.
      split; [reflexivity|]. split; [|exact Hrest].
      cbn [forallb]. unfold passed_over at 1, from_usdt, is_transfer.
      rewrite Ha, Htop, Hsig, Hp. reflexivity. }
  destruct ts as [|t1 ts]; [discriminate|].
  destruct (getAddress node ("0x" ++ Js.slice_last 40 t1)) as [fromA|m] eqn:Hf;
    [|discriminate].
  destruct ts as [|t2 ts]; [discriminate|].
  destruct (getAddress node ("0x" ++ Js.slice_last 40 t2)) as [toA|m] eqn:Ht;
    [|discriminate].
  destruct (String.eqb (Js.toLowerCase toA) (Js.toLowerCase expectedTo))
    eqn:Hto; [|discriminate].
  cbn [negb].
  destruct (formatUnits node (log_data log)
              (match decimals node with Done d => d | Throw _ => 18 end))
    as [a|m] eqn:Hfu; [|discriminate].
  destruct (Js.lt (Js.parseFloat a) (Js.of_ratio 1 100)) eqn:Hlt;
    [discriminate|].
  intros H. inversion H; subst fromA a.
  exists [], log, rest, t0, t1, t2, ts, toA.
  split; [reflexivity|]. split; [reflexivity|].
  unfold from_usdt, is_transfer. rewrite Ha, Htop, Hsig.
  apply String.eqb_eq in Hto. repeat split; auto.
Qed.

(** X6.  What a verified BEP20 result stands for.  Whenever
    [verifyBEP20Transaction] answers [verified], the node returned a receipt
    with status 1 that lies at least 3 blocks below the head, and the
    receipt holds a [Transfer] log of the USDT contract, the first one in
    it, whose recipient is the expected address up to letter case and whose
    value, formatted with the token's decimals, is not below 0.01.  The
    result carries that value, the sender of that log and the depth, and
    no error. *)
Theorem bep20_verified_means_usdt_transfer (env : Env) (node : Bsc)
    (h expectedTo : string) (expected : option float) (memo : option string) :
  verified (verifyBEP20Transaction env node h expectedTo expected memo) = true ->
  exists receipt current l1 log l2 t0 t1 t2 rest from toAddress amt,
    getTransactionReceipt node h = Done (Some receipt)
    /\ receipt_status receipt = Some 1
    /\ getBlockNumber node = Done current
    /\ 3 <= current - blockNumber receipt
    /\ logs receipt = (l1 ++ log :: l2)%list
    /\ forallb passed_over l1 = true
    /\ from_usdt log = true /\ is_transfer log = true
    /\ topics log = t0 :: t1 :: t2 :: rest
    /\ getAddress node ("0x" ++ Js.slice_last 40 t1) = Done from
    /\ getAddress node ("0x" ++ Js.slice_last 40 t2) = Done toAddress
    /\ Js.toLowerCase toAddress = Js.toLowerCase expectedTo
    /\ formatUnits node (log_data log)
         (match decimals node with Done d => d | Throw _ => 18 end)
       = Done amt
    /\ Js.lt (Js.parseFloat amt) (Js.of_ratio 1 100) = false
    /\ verifyBEP20Transaction env node h expectedTo expected memo
       = mkVerification true (Some (Js.parseFloat amt)) (Some from)
           (Some (current - blockNumber receipt)) None.
Proof.
  unfold verifyBEP20Transaction, verifyBEP20_try.
  destruct (BSC_RPC_URL env) as [url|]; [|discriminate].
  destruct (getTransactionReceipt node h) as [[receipt|]|m] eqn:Hrc;
    try discriminate.
  destruct (receipt_status receipt) as [[|[| |]|]|] eqn:Hst; try discriminate.
  destruct (getBlockNumber node) as [current|m] eqn:Hbn; [|discriminate].
  destruct (current - blockNumber receipt <? minConfirmations_BSC) eqn:Hd;
    [discriminate|].
  apply Z.ltb_ge in Hd. unfold minConfirmations_BSC in Hd.
  destruct (getTransaction node h) as [present|m]; [|discriminate].
  destruct (is_set memo && negb present); [discriminate|].
  destruct (scan_logs node expectedTo (logs receipt)) as [|from amt|r|m]
    eqn:Hscan; try discriminate.
  - intros _.
    destruct (scan_transfer_inv node expectedTo _ from amt Hscan)
      as (l1 & log & l2 & t0 & t1 & t2 & rest & toA & H).
    exists receipt, current, l1, log, l2, t0, t1, t2, rest, from, toA, amt.
    repeat split; solve [tauto | exact Hd | reflexivity].
  - rewrite (scan_refusal_rejects _ _ _ _ Hscan). discriminate.
Qed.

(** The sample transfer of 10 USDT, five blocks deep. *)
Lemma bep20_verified_means_usdt_transfer_witness :
  exists receipt current,
    getTransactionReceipt (Sample.bsc_node 5 "10.0") "0xH9"
    = Done (Some receipt)
    /\ receipt_status receipt = Some 1
    /\ getBlockNumber (Sample.bsc_node 5 "10.0") = Done current
    /\ 3 <= current - blockNumber receipt.
Proof.
  destruct (bep20_verified_means_usdt_transfer Sample.env
              (Sample.bsc_node 5 "10.0") "0xH9"
              "0xAbC0000000000000000000000000000000000001" None None
              ltac:(vm_compute; reflexivity))
    as (receipt & current & _ & _ & _ & _ & _ & _ & _ & _ & _ & _
        & H1 & H2 & H3 & H4 & _).
  exists receipt, current. repeat split; assumption.
Defined.

(** X7.  Only the USDT contract's [Transfer] counts.  For a receipt with
    status 1 and at least 3 confirmations in which every log is another
    contract's, or another event of the USDT contract, the BEP20 verifier
    answers that no USDT transfer was found, whatever those logs say about
    the expected address. *)
Theorem bep20_without_usdt_transfer_is_rejected (env : Env) (node : Bsc)
    (h expectedTo : string) (expected : option float) (memo : option string)
    (url : string) (receipt : Receipt) (current : Z) (present : bool) :
  BSC_RPC_URL env = Some url ->
  getTransactionReceipt node h = Done (Some receipt) ->
  receipt_status receipt = Some 1 ->
  getBlockNumber node = Done current ->
  3 <= current - blockNumber receipt ->
  getTransaction node h = Done present ->
  (is_set memo = true -> present = true) ->
  forallb passed_over (logs receipt) = true ->
  verifyBEP20Transaction env node h expectedTo expected memo
  = rejected "USDT Transfer event not found in transaction logs".
Proof.
  intros Hurl Hrc Hok Hbn Hd Htx Hmemo Hlogs.
  unfold verifyBEP20Transaction, verifyBEP20_try.
  rewrite Hurl, Hrc, Hok, Hbn.
  apply Z.ltb_ge in Hd. unfold minConfirmations_BSC. rewrite Hd, Htx.
  assert (is_set memo && negb present = false) as ->.
  { destruct (is_set memo); [|reflexivity]. rewrite (Hmemo eq_refl).
    reflexivity. }
  rewrite <- (app_nil_r (logs receipt)).
  rewrite (scan_passes_over node expectedTo (logs receipt) [] Hlogs).
  reflexivity.
Qed.

(** A transaction that moved BUSD to the wallet and approved a USDT
    allowance. *)
Lemma bep20_without_usdt_transfer_is_rejected_witness :
  verifyBEP20Transaction Sample.env
    (Cases.bsc_with [Cases.busd_log; Cases.usdt_approval_log] 5) "0xH9"
    "0xAbC0000000000000000000000000000000000001" None
    (Some "TXN-000002-bbbbbb")
  = rejected "USDT Transfer event not found in transaction logs".
Proof.
  apply (bep20_without_usdt_transfer_is_rejected Sample.env
           (Cases.bsc_with [Cases.busd_log; Cases.usdt_approval_log] 5) "0xH9"
           "0xAbC0000000000000000000000000000000000001" None
           (Some "TXN-000002-bbbbbb") "https://bsc.example"
           (mkReceipt (Some 1) 100 [Cases.busd_log; Cases.usdt_approval_log])
           105 true eq_refl eq_refl eq_refl eq_refl).
  - simpl. lia.
  - reflexivity.
  - reflexivity.
  - vm_compute. reflexivity.
Defined.

(** X8.  The first USDT transfer of a transaction decides.  When the first
    [Transfer] log of the USDT contract in the receipt names a recipient
    other than the expected address, the verifier answers with the
    recipient mismatch, whatever the logs after it hold: a later transfer
    to the expected address in the same transaction is never read. *)
Theorem bep20_first_transfer_decides (env : Env) (node : Bsc)
    (h expectedTo : string) (expected : option float) (memo : option string)
    (url : string) (receipt : Receipt) (current : Z) (present : bool)
    (l1 l2 : list Log) (log : Log) (t0 t1 t2 : string) (rest : list string)
    (from toAddress : string) :
  BSC_RPC_URL env = Some url ->
  getTransactionReceipt node h = Done (Some receipt) ->
  receipt_status receipt = Some 1 ->
  getBlockNumber node = Done current ->
  3 <= current - blockNumber receipt ->
  getTransaction node h = Done present ->
  (is_set memo = true -> present = true) ->
  logs receipt = (l1 ++ log :: l2)%list ->
  forallb passed_over l1 = true ->
  from_usdt log = true -> is_transfer log = true ->
  topics log = t0 :: t1 :: t2 :: rest ->
  getAddress node ("0x" ++ Js.slice_last 40 t1) = Done from ->
  getAddress node ("0x" ++ Js.slice_last 40 t2) = Done toAddress ->
  Js.toLowerCase toAddress <> Js.toLowerCase expectedTo ->
  verifyBEP20Transaction env node h expectedTo expected memo
  = rejected ("Recipient address mismatch. Expected: " ++ expectedTo
              ++ ", Got: " ++ toAddress).
Proof.
  intros Hurl Hrc Hok Hbn Hd Htx Hmemo Hlogs Hp Ha Ht Htop Hfrom Hto Hne.
  unfold verifyBEP20Transaction, verifyBEP20_try.
  rewrite Hurl, Hrc, Hok, Hbn.
  apply Z.ltb_ge in Hd. unfold minConfirmations_BSC. rewrite Hd, Htx.
  assert (is_set memo && negb present = false) as ->.
  { destruct (is_set memo); [|reflexivity]. rewrite (Hmemo eq_refl).
    reflexivity. }
  rewrite Hlogs, (scan_passes_over node expectedTo l1 _ Hp).
  rewrite (scan_stops_at_transfer node expectedTo log l2 Ha Ht).
  unfold from_usdt, is_transfer in Ha, Ht. rewrite Htop in Ht.
  cbn [scan_logs]. rewrite Ha, Htop, Ht, Hfrom, Hto.
  apply String.eqb_neq in Hne. rewrite Hne. reflexivity.
Qed.

(** A transaction whose first USDT transfer pays another address and whose
    second pays the wallet. *)
Lemma bep20_first_transfer_decides_witness :
  verifyBEP20Transaction Sample.env
    (Cases.bsc_with
       [Cases.busd_log; Cases.usdt_log_elsewhere; Sample.usdt_log] 5) "0xH9"
    "0xAbC0000000000000000000000000000000000001" None None
  = rejected
      ("Recipient address mismatch. Expected: "
       ++ "0xAbC0000000000000000000000000000000000001"
       ++ ", Got: " ++ "0xfee0000000000000000000000000000000000003").
Proof.
  apply (bep20_first_transfer_decides Sample.env
           (Cases.bsc_with
              [Cases.busd_log; Cases.usdt_log_elsewhere; Sample.usdt_log] 5)
           "0xH9" "0xAbC0000000000000000000000000000000000001" None None
           "https://bsc.example"
           (mkReceipt (Some 1) 100
              [Cases.busd_log; Cases.usdt_log_elsewhere; Sample.usdt_log])
           105 true [Cases.busd_log] [Sample.usdt_log]
           Cases.usdt_log_elsewhere
           "0xddf252ad1be2c89b69c2b068fc378daa952ba7f163c4a11628f55a4df523b3ef"
           "0x000000000000000000000000def0000000000000000000000000000000000002"
           "0x000000000000000000000000fee0000000000000000000000000000000000003"
           [] "0xdef0000000000000000000000000000000000002"
           "0xfee0000000000000000000000000000000000003"
           eq_refl eq_refl eq_refl eq_refl).
  - simpl. lia.
  - reflexivity.
  - reflexivity.
  - reflexivity.
  - vm_compute. reflexivity.
  - vm_compute. reflexivity.
  - vm_compute. reflexivity.
  - reflexivity.
  - vm_compute. reflexivity.
  - vm_compute. reflexivity.
  - vm_compute. discriminate.
Defined.

(* ================================================================== *)
(** * utils/blockchainVerification: the SOL verifier *)
(* ================================================================== *)

Lemma strip_spaces_idempotent (s : string) :
  Js.strip_spaces (Js.strip_spaces s) = Js.strip_spaces s.
Proof.
  induction s as [|c r IH]; [reflexivity|]. cbn [Js.strip_spaces].
  destruct (Js.is_space c) eqn:E; [exact IH|].
  cbn [Js.strip_spaces]. rewrite E, IH. reflexivity.
Qed.

(** X9.  The SOL verifier works on the signature with all white space
    removed: a signature and any respelling of it with blanks, tabs or line
    breaks get the same answer from the same node. *)
Theorem sol_signature_is_sanitized (env : Env) (node : Solana)
    (txnHash expectedTo : string) (expected : option float)
    (memo : option string) :
  verifySOLTransaction env node txnHash expectedTo expected memo
  = verifySOLTransaction env node (sanitized txnHash) expectedTo expected memo.
Proof.
  unfold verifySOLTransaction, verifySOL_try, sanitized.
  rewrite strip_spaces_idempotent. reflexivity.
Qed.

(** An amount mismatch is a rejection with its message. *)
Lemma mismatch_rejects (x : float) (expected : option float)
    (r : Verification) :
  mismatch x expected = Some r ->
  exists e, r = rejected e /\ Js.nonempty e = true.
Proof.
  unfold mismatch. destruct expected as [ea|]; [|discriminate].
  destruct (PrimFloat.is_finite ea
            && Js.gt (PrimFloat.abs (PrimFloat.sub x ea)) (Js.of_ratio 1 1000));
    [|discriminate].
  intros H. inversion H. eexists. split; reflexivity.
Qed.

Lemma indexOf_nth (l : list string) (x : string) (k i : nat) :
  indexOf l x k = Some i ->
  exists j, i = (k + j)%nat /\ nth_error l j = Some x.
Proof.
  revert k. induction l as [|y r IH]; intros k; [discriminate|].
  cbn [indexOf]. destruct (String.eqb y x) eqn:E.
  - intros H. inversion H; subst. apply String.eqb_eq in E. subst y.
    exists 0%nat. split; [lia | reflexivity].
  - intros H. destruct (IH _ H) as (j & -> & Hj).
    exists (S j). split; [lia | exact Hj].
Qed.

(** What the detection by balance delta comes to. *)
Lemma by_balance_cases (t : SolTransaction) (m : Meta) (expectedTo : string)
    (expected : option float) :
  match by_balance t m expectedTo expected with
  | Nothing =>
      forall i, indexOf (accountKeys t) expectedTo 0 = Some i ->
                balance (postBalances m) i - balance (preBalances m) i <= 0
  | Paid a from =>
      exists i,
        nth_error (accountKeys t) i = Some expectedTo
        /\ 0 < balance (postBalances m) i - balance (preBalances m) i
        /\ a = Some (PrimFloat.div
                       (Js.of_Z (balance (postBalances m) i
                                 - balance (preBalances m) i)) LAMPORTS)
        /\ from = first_debited (preBalances m) (postBalances m)
                    (accountKeys t) 0 (List.length (preBalances m))
        /\ forall x, a = Some x -> mismatch x expected = None
  | Mismatch r => exists e, r = rejected e /\ Js.nonempty e = true
  end.
Proof.
  unfold by_balance.
  destruct (indexOf (accountKeys t) expectedTo 0) as [i|] eqn:Hi;
    [|intros i H; discriminate].
  destruct (0 <? balance (postBalances m) i - balance (preBalances m) i)
    eqn:Hd.
  - destruct (mismatch _ expected) as [r|] eqn:Hm.
    + exact (mismatch_rejects _ _ _ Hm).
    + exists i. destruct (indexOf_nth _ _ _ _ Hi) as (j & -> & Hj).
      apply Z.ltb_lt in Hd.
      split; [exact Hj|]. split; [exact Hd|]. split; [reflexivity|].
      split; [reflexivity|].
      intros x Hx. inversion Hx; subst x. exact Hm.
  - intros i' H. inversion H; subst i'. apply Z.ltb_ge in Hd. exact Hd.
Qed.

(** What the detection by instruction parse comes to. *)
Lemma by_instruction_cases (l : list Instruction) (expectedTo : string)
    (expected : option float) :
  match by_instruction l expectedTo expected with
  | Nothing => True
  | Paid a from =>
      exists l1 i l2,
        l = (l1 ++ i :: l2)%list
        /\ programId i = SYSTEM_PROGRAM
        /\ nth_error (accounts i) 1 = Some expectedTo
        /\ a = instruction_amount i
        /\ from = key_or_null (nth_error (accounts i) 0)
        /\ forall x, a = Some x -> mismatch x expected = None
  | Mismatch r => exists e, r = rejected e /\ Js.nonempty e = true
  end.
Proof.
  induction l as [|i l IH]; [exact I|]. cbn [by_instruction].
  assert (match by_instruction l expectedTo expected with
          | Nothing => True
          | Paid a from =>
              exists l1 i0 l2,
                (i :: l)%list = (l1 ++ i0 :: l2)%list
                /\ programId i0 = SYSTEM_PROGRAM
                /\ nth_error (accounts i0) 1 = Some expectedTo
                /\ a = instruction_amount i0
                /\ from = key_or_null (nth_error (accounts i0) 0)
                /\ forall x, a = Some x -> mismatch x expected = None
          | Mismatch r => exists e, r = rejected e /\ Js.nonempty e = true
          end) as Hrest.
  { destruct (by_instruction l expectedTo expected) as [|a from|r]; auto.
    destruct IH as (l1 & i0 & l2 & -> & H).
    exists (i :: l1), i0, l2. split; [reflexivity | exact H]. }
  destruct (String.eqb (programId i) SYSTEM_PROGRAM) eqn:Hp; [|exact Hrest].
  destruct (nth_error (accounts i) 1) as [toKey|] eqn:Hto; [|exact Hrest].
  destruct (Js.nonempty toKey && String.eqb toKey expectedTo) eqn:Hk;
    [|exact Hrest].
  apply andb_true_iff in Hk. destruct Hk as [_ Hk].
  apply String.eqb_eq in Hk. subst toKey. apply String.eqb_eq in Hp.
  fold (instruction_amount i). fold (key_or_null (nth_error (accounts i) 0)).
  destruct (instruction_amount i) as [x|] eqn:Ha.
  - destruct (mismatch x expected) as [r|] eqn:Hm.
    + exact (mismatch_rejects _ _ _ Hm).
    + exists [], i, l.
      split; [reflexivity|]. split; [exact Hp|]. split; [exact Hto|].
      split; [symmetry; exact Ha|]. split; [reflexivity|].
      intros y Hy. inversion Hy; subst y. exact Hm.
  - exists [], i, l.
    split; [reflexivity|]. split; [exact Hp|]. split; [exact Hto|].
    split; [symmetry; exact Ha|]. split; [reflexivity|].
    intros y Hy. discriminate.
Qed.

Lemma detect_mismatch_rejects (t : SolTransaction) (expectedTo : string)
    (expected : option float) (r : Verification) :
  detect t expectedTo expected = Mismatch r ->
  exists e, r = rejected e /\ Js.nonempty e = true.
Proof.
  unfold detect. destruct (meta t) as [m|]; [|discriminate].
  pose proof (by_balance_cases t m expectedTo expected) as Hb.
  destruct (by_balance t m expectedTo expected) as [|a from|r'].
  - destruct (instructions t) as [l|]; [|discriminate].
    pose proof (by_instruction_cases l expectedTo expected) as Hi.
    destruct (by_instruction l expectedTo expected); try discriminate.
    intros H. inversion H; subst. exact Hi.
  - discriminate.
  - intros H. inversion H; subst. exact Hb.
Qed.

(** X10.  What a verified SOL result reports.  Whenever
    [verifySOLTransaction] answers [verified], the node knew a status for
    the sanitized signature, returned the transaction (finalized, or else
    confirmed) without an error in its meta, and a transfer to the expected
    address was detected in it.  The depth does not decide: the result
    reports [max(32, currentSlot - slot)] confirmations, so a transfer of
    the current slot is reported with 32. *)
Theorem sol_verified_reports_at_least_32 (env : Env) (node : Solana)
    (txnHash expectedTo : string) (expected : option float)
    (memo : option string) :
  let r := verifySOLTransaction env node txnHash expectedTo expected memo in
  verified r = true ->
  exists t current,
    getSignatureStatuses node (sanitized txnHash) = Done true
    /\ fetched_transaction node (sanitized txnHash) = Done (Some t)
    /\ match meta t with Some m => err m | None => None end = None
    /\ getSlot node = Done current
    /\ detect t expectedTo expected = Paid (v_amount r) (v_fromAddress r)
    /\ v_confirmationCount r = Some (Z.max 32 (current - slot t))
    /\ v_error r = None.
Proof.
  unfold verifySOLTransaction, verifySOL_try, fetched_transaction, sanitized.
  cbv zeta.
  destruct (SOLANA_RPC_URL env) as [url|]; [|discriminate].
  destruct (getSignatureStatuses node (Js.strip_spaces txnHash))
    as [[|]|m]; try discriminate.
  destruct (getTransaction_finalized node (Js.strip_spaces txnHash))
    as [[t|]|m]; [ | | discriminate].
  2: destruct (getTransaction_confirmed node (Js.strip_spaces txnHash))
       as [[t|]|m]; [ | discriminate | discriminate].
  all: destruct (match meta t with Some m => err m | None => None end)
         eqn:Herr; try discriminate.
  all: destruct (getSlot node) as [current|m]; try discriminate.
  all: destruct (detect t expectedTo expected) as [|a from|r] eqn:Hd;
    try discriminate.
  all: try (destruct (detect_mismatch_rejects _ _ _ _ Hd) as (e & -> & _);
            discriminate).
  all: intros _; exists t, current;
    cbn [v_amount v_fromAddress v_confirmationCount v_error];
    repeat split; try assumption; try reflexivity;
    unfold minConfirmations_SOL; f_equal;
    destruct (32 <=? Z.max 0 (current - slot t)) eqn:E;
    first [apply Z.leb_le in E | apply Z.leb_gt in E]; lia.
Qed.

(** A transfer of 1 SOL mined in the current slot. *)
Lemma sol_verified_reports_at_least_32_witness :
  v_confirmationCount
    (verifySOLTransaction Sample.env (Cases.sol_node_at 100) "SIG1"
       "So1WalletAddr" None None)
  = Some 32.
Proof.
  destruct (sol_verified_reports_at_least_32 Sample.env
              (Cases.sol_node_at 100) "SIG1" "So1WalletAddr" None None
              ltac:(vm_compute; reflexivity))
    as (t & current & _ & Ht & _ & Hc & _ & H & _).
  rewrite H. inversion Ht; subst t. inversion Hc; subst current. reflexivity.
Defined.

(** [indexOf] finds the first position of the key. *)
Lemma indexOf_first (l : list string) (x : string) (k i : nat) :
  indexOf l x k = Some i ->
  exists j, i = (k + j)%nat /\ nth_error l j = Some x
            /\ forall n, (n < j)%nat -> nth_error l n <> Some x.
Proof.
  revert k. induction l as [|y r IH]; intros k; [discriminate|].
  cbn [indexOf]. destruct (String.eqb y x) eqn:E.
  - intros H. inversion H; subst. apply String.eqb_eq in E. subst y.
    exists 0%nat. split; [lia|]. split; [reflexivity|]. intros n Hn. lia.
  - intros H. destruct (IH _ H) as (j & -> & Hj & Hfirst).
    exists (S j). split; [lia|]. split; [exact Hj|].
    intros [|n] Hn; cbn [nth_error].
    + intros Heq. inversion Heq; subst y. rewrite String.eqb_refl in E.
      discriminate.
    + apply Hfirst. lia.
Qed.

Lemma first_is_indexOf (l : list string) (x : string) (k j : nat) :
  nth_error l j = Some x ->
  (forall n, (n < j)%nat -> nth_error l n <> Some x) ->
  indexOf l x k = Some (k + j)%nat.
Proof.
  revert k j. induction l as [|y r IH]; intros k j Hj Hfirst.
  - destruct j; discriminate.
  - cbn [indexOf]. destruct j as [|j].
    + cbn [nth_error] in Hj. inversion Hj; subst y.
      rewrite String.eqb_refl. f_equal. lia.
    + destruct (String.eqb y x) eqn:E.
      * apply String.eqb_eq in E. subst y.
        exfalso. apply (Hfirst 0%nat); [lia | reflexivity].
      * rewrite (IH (S k) j Hj).
        -- f_equal. lia.
        -- intros n Hn. apply (Hfirst (S n)). lia.
Qed.

(** The sender of the balance method: the key of the first account whose
    balance fell, if there is one. *)
Lemma first_debited_spec (pre post : list Z) (keys : list string) (i n : nat) :
  (exists j, (i <= j < i + n)%nat
             /\ balance post j < balance pre j
             /\ (forall k, (i <= k < j)%nat -> balance pre k <= balance post k)
             /\ first_debited pre post keys i n
                = key_or_null (nth_error keys j))
  \/ ((forall j, (i <= j < i + n)%nat -> balance pre j <= balance post j)
      /\ first_debited pre post keys i n = None).
Proof.
  revert i. induction n as [|n IH]; intros i.
  - right. split; [intros j Hj; lia | reflexivity].
  - cbn [first_debited].
    destruct (balance post i <? balance pre i) eqn:E.
    + apply Z.ltb_lt in E. left. exists i. split; [lia|]. split; [exact E|].
      split; [intros k Hk; lia | reflexivity].
    + apply Z.ltb_ge in E.
      destruct (IH (S i)) as [(j & Hj & Hlt & Hbefore & Hf)|(Hall & Hf)].
      * left. exists j. split; [lia|]. split; [exact Hlt|].
        split; [|exact Hf].
        intros k Hk. destruct (Nat.eq_dec k i) as [->|Hne]; [exact E|].
        apply Hbefore. lia.
      * right. split; [|exact Hf].
        intros j Hj. destruct (Nat.eq_dec j i) as [->|Hne]; [exact E|].
        apply Hall. lia.
Qed.

(** One step of the instruction scan. *)
Lemma by_instruction_step (i : Instruction) (l : list Instruction)
    (expectedTo : string) (expected : option float) :
  by_instruction (i :: l) expectedTo expected
  = if pays expectedTo i then
      match instruction_amount i with
      | Some a =>
          match mismatch a expected with
          | Some r => Mismatch r
          | None => Paid (Some a) (key_or_null (nth_error (accounts i) 0))
          end
      | None => Paid None (key_or_null (nth_error (accounts i) 0))
      end
    else by_instruction l expectedTo expected.
Proof.
  cbn [by_instruction]. unfold pays.
  destruct (String.eqb (programId i) SYSTEM_PROGRAM); [|reflexivity].
  cbn [andb].
  destruct (nth_error (accounts i) 1) as [toKey|]; [|reflexivity].
  destruct (Js.nonempty toKey && String.eqb toKey expectedTo);
    [|reflexivity].
  unfold instruction_amount, key_or_null.
  destruct (data i) as [bytes|]; [|reflexivity].
  destruct (lamports_of bytes); reflexivity.
Qed.

(** The instruction scan stops at the first instruction that pays the
    expected address. *)
Lemma by_instruction_first (l : list Instruction) (expectedTo : string)
    (expected : option float) (a : option float) (from : option string) :
  by_instruction l expectedTo expected = Paid a from ->
  exists l1 i l2,
    l = (l1 ++ i :: l2)%list
    /\ forallb (fun j => negb (pays expectedTo j)) l1 = true
    /\ pays expectedTo i = true
    /\ a = instruction_amount i
    /\ from = key_or_null (nth_error (accounts i) 0).
Proof.
  induction l as [|i l IH]; [discriminate|].
  rewrite by_instruction_step.
  destruct (pays expectedTo i) eqn:Hp.
  - intros H. exists [], i, l. split; [reflexivity|]. split; [reflexivity|].
    split; [exact Hp|].
    destruct (instruction_amount i) as [x|].
    + destruct (mismatch x expected); [discriminate|].
      inversion H. split; reflexivity.
    + inversion H. split; reflexivity.
  - intros H. destruct (IH H) as (l1 & i0 & l2 & -> & Hl1 & Hrest).
    exists (i :: l1), i0, l2. split; [reflexivity|]. split; [|exact Hrest].
    cbn [forallb]. rewrite Hp, Hl1. reflexivity.
Qed.

Lemma pays_spec (expectedTo : string) (i : Instruction) :
  pays expectedTo i = true ->
  programId i = SYSTEM_PROGRAM /\ nth_error (accounts i) 1 = Some expectedTo.
Proof.
  unfold pays. intros H. apply andb_true_iff in H. destruct H as [Hp H].
  apply String.eqb_eq in Hp. split; [exact Hp|].
  destruct (nth_error (accounts i) 1) as [toKey|]; [|discriminate].
  apply andb_true_iff in H. destruct H as [_ H].
  apply String.eqb_eq in H. subst toKey. reflexivity.
Qed.

(** The amount of an instruction: the little-endian value of bytes 4 to 11
    of its data over 1e9, when the data has twelve bytes. *)
Lemma instruction_amount_spec (i : Instruction) :
  (exists bytes,
      data i = Some bytes /\ 12 <= Z.of_nat (List.length bytes)
      /\ instruction_amount i
         = Some (PrimFloat.div
                   (Js.of_Z (le_bytes (firstn 8 (skipn 4 bytes)))) LAMPORTS))
  \/ ((data i = None
       \/ exists bytes, data i = Some bytes
                        /\ Z.of_nat (List.length bytes) < 12)
      /\ instruction_amount i = None).
Proof.
  unfold instruction_amount, lamports_of.
  destruct (data i) as [bytes|]; [|right; split; [left|]; reflexivity].
  destruct (12 <=? Z.of_nat (List.length bytes)) eqn:E.
  - apply Z.leb_le in E. left. exists bytes. auto.
  - apply Z.leb_gt in E. right. split; [|reflexivity]. right. exists bytes.
    auto.
Qed.

Lemma mismatch_none (x : float) (expected : option float) :
  mismatch x expected = None ->
  forall ea, expected = Some ea -> PrimFloat.is_finite ea = true ->
             Js.gt (PrimFloat.abs (PrimFloat.sub x ea)) (Js.of_ratio 1 1000)
             = false.
Proof.
  unfold mismatch. intros H ea -> Hfin. rewrite Hfin in H. cbn [andb] in H.
  destruct (Js.gt _ _); [discriminate | reflexivity].
Qed.

(** X11.  What the SOL verifier takes for a transfer.  A detected payment
    is either a rise of the balance of the expected address, at its first
    position among the account keys, between [preBalances] and
    [postBalances], the amount being that rise in lamports divided by 1e9
    and the sender the key of the first account whose balance fell, if
    any; or, when the balances show no such rise, the first instruction of
    the system program whose second account is the expected address, every
    instruction before it being passed over, the sender being its first
    account and the amount the 64-bit little-endian value at bytes 4 to 11
    of its data divided by 1e9, absent when the data is missing or shorter
    than 12 bytes.  An amount that was compared with a finite expected
    amount is within 0.001 of it. *)
Theorem sol_detection_finds_a_transfer (t : SolTransaction)
    (expectedTo : string) (expected : option float) (a : option float)
    (from : option string) :
  detect t expectedTo expected = Paid a from ->
  exists m,
    meta t = Some m
    /\ ((exists i,
           nth_error (accountKeys t) i = Some expectedTo
           /\ (forall n, (n < i)%nat ->
                         nth_error (accountKeys t) n <> Some expectedTo)
           /\ 0 < balance (postBalances m) i - balance (preBalances m) i
           /\ a = Some (PrimFloat.div
                          (Js.of_Z (balance (postBalances m) i
                                    - balance (preBalances m) i)) LAMPORTS)
           /\ ((exists j,
                   (j < List.length (preBalances m))%nat
                   /\ balance (postBalances m) j < balance (preBalances m) j
                   /\ (forall k, (k < j)%nat ->
                                 balance (preBalances m) k
                                 <= balance (postBalances m) k)
                   /\ from = key_or_null (nth_error (accountKeys t) j))
               \/ ((forall j, (j < List.length (preBalances m))%nat ->
                              balance (preBalances m) j
                              <= balance (postBalances m) j)
                   /\ from = None)))
        \/ ((forall i,
                nth_error (accountKeys t) i = Some expectedTo ->
                (forall n, (n < i)%nat ->
                           nth_error (accountKeys t) n <> Some expectedTo) ->
                balance (postBalances m) i - balance (preBalances m) i <= 0)
            /\ exists l l1 i l2,
                 instructions t = Some l
                 /\ l = (l1 ++ i :: l2)%list
                 /\ forallb (fun j => negb (pays expectedTo j)) l1 = true
                 /\ programId i = SYSTEM_PROGRAM
                 /\ nth_error (accounts i) 1 = Some expectedTo
                 /\ from = key_or_null (nth_error (accounts i) 0)
                 /\ ((exists bytes,
                         data i = Some bytes
                         /\ 12 <= Z.of_nat (List.length bytes)
                         /\ a = Some (PrimFloat.div
                                        (Js.of_Z (le_bytes
                                                    (firstn 8 (skipn 4 bytes))))
                                        LAMPORTS))
                     \/ ((data i = None
                          \/ exists bytes,
                               data i = Some bytes
                               /\ Z.of_nat (List.length bytes) < 12)
                         /\ a = None))))
    /\ forall x ea,
         a = Some x -> expected = Some ea -> PrimFloat.is_finite ea = true ->
         Js.gt (PrimFloat.abs (PrimFloat.sub x ea)) (Js.of_ratio 1 1000)
         = false.
Proof.
  unfold detect. destruct (meta t) as [m|]; [|discriminate].
  pose proof (by_balance_cases t m expectedTo expected) as Hb.
  destruct (by_balance t m expectedTo expected) as [|a' from'|r'] eqn:Hbal.
  - destruct (instructions t) as [l|]; [|discriminate].
    pose proof (by_instruction_cases l expectedTo expected) as Hi.
    intros H. rewrite H in Hi.
    destruct Hi as (_ & _ & _ & _ & _ & _ & _ & _ & Hm).
    destruct (by_instruction_first l expectedTo expected a from H)
      as (l1 & i & l2 & Hl & Hl1 & Hp & Ha & Hf).
    destruct (pays_spec _ _ Hp) as (Hprog & Hto).
    exists m. split; [reflexivity|]. split.
    + right. split.
      * intros i0 Hk Hfirst. apply Hb.
        exact (first_is_indexOf _ _ 0%nat i0 Hk Hfirst).
      * exists l, l1, i, l2. split; [reflexivity|]. split; [exact Hl|].
        split; [exact Hl1|]. split; [exact Hprog|]. split; [exact Hto|].
        split; [exact Hf|]. rewrite Ha.
        destruct (instruction_amount_spec i) as [(b & H1 & H2 & H3)|(H1 & H2)].
        -- left. exists b. auto.
        -- right. auto.
    + intros x ea Hx. exact (mismatch_none x expected (Hm x Hx) ea).
  - intros H. inversion H; subst a' from'. clear Hb.
    unfold by_balance in Hbal.
    destruct (indexOf (accountKeys t) expectedTo 0) as [i|] eqn:Hi;
      [|discriminate].
    destruct (0 <? balance (postBalances m) i - balance (preBalances m) i)
      eqn:Hd; [|discriminate].
    destruct (mismatch _ expected) as [r|] eqn:Hm; [discriminate|].
    inversion Hbal; subst a from. apply Z.ltb_lt in Hd.
    destruct (indexOf_first _ _ _ _ Hi) as (j & -> & Hj & Hfirst).
    exists m. split; [reflexivity|]. split.
    + left. exists j. cbn [Nat.add].
      split; [exact Hj|]. split; [exact Hfirst|]. split; [exact Hd|].
      split; [reflexivity|].
      destruct (first_debited_spec (preBalances m) (postBalances m)
                  (accountKeys t) 0 (List.length (preBalances m)))
        as [(k & Hk & Hlt & Hbefore & Hf)|(Hall & Hf)].
      * left. exists k. split; [lia|]. split; [exact Hlt|].
        split; [intros n Hn; apply Hbefore; lia | exact Hf].
      * right. split; [intros n Hn; apply Hall; lia | exact Hf].
    + intros x ea Hx. inversion Hx; subst x.
      exact (mismatch_none _ expected Hm ea).
  - discriminate.
Qed.

(** The transfer of 1 SOL as the node returns it is found by the balances:
    the wallet is the second account key, and its balance rose by 1e9
    lamports. *)
Lemma sol_detection_finds_a_transfer_witness :
  exists m,
    meta Cases.sol_compiled = Some m
    /\ balance (postBalances m) 1 - balance (preBalances m) 1 = 1000000000.
Proof.
  destruct (sol_detection_finds_a_transfer Cases.sol_compiled
              "So1WalletAddr" None (Some (Js.of_Z 1)) (Some "Sender1")
              ltac:(vm_compute; reflexivity)) as (m & Hm & _).
  exists m. split; [exact Hm|]. inversion Hm. reflexivity.
Defined.

(* ================================================================== *)
(** * utils/blockchainVerification: rejections *)
(* ================================================================== *)

Lemma scan_refusal_message (node : Bsc) (expectedTo : string) (l : list Log)
    (r : Verification) :
  scan_logs node expectedTo l = Refused r ->
  exists e, r = rejected e /\ Js.nonempty e = true.
Proof.
  induction l as [|log rest IH]; [discriminate|]. cbn [scan_logs].
  destruct (String.eqb (Js.toLowerCase (log_address log))
              (Js.toLowerCase USDT_BSC_CONTRACT)); [|exact IH].
  destruct (topics log) as [|t0 ts]; [discriminate|].
  destruct (String.eqb (Js.toLowerCase t0)
              (Js.toLowerCase transferEventSignature)); [|exact IH].
  destruct ts as [|t1 ts]; [discriminate|].
  destruct (getAddress node ("0x" ++ Js.slice_last 40 t1)); [|discriminate].
  destruct ts as [|t2 ts]; [discriminate|].
  destruct (getAddress node ("0x" ++ Js.slice_last 40 t2)); [|discriminate].
  destruct (negb _).
  - intros H. inversion H. eexists. split; reflexivity.
  - destruct (formatUnits node _ _); [|discriminate].
    destruct (Js.lt _ _); [|discriminate].
    intros H. inversion H. eexists. split; reflexivity.
Qed.

Lemma message_or_nonempty (m fallback : string) :
  Js.nonempty fallback = true -> Js.nonempty (message_or m fallback) = true.
Proof.
  intros H. unfold message_or. destruct (Js.nonempty m) eqn:E; assumption.
Qed.

Lemma rejected_message (n : Network) (e : string) :
  Js.nonempty e = true ->
  exists e', rejected e = rejected e' /\ Js.nonempty e' = true
             /\ verificationError n (rejected e) = e'.
Proof.
  intros H. exists e. split; [reflexivity|]. split; [exact H|].
  unfold verificationError, rejected. cbn [v_error]. rewrite H. reflexivity.
Qed.

(** X12.  A rejection always comes with its reason.  Whatever the node
    answers or throws, a result of either verifier that is not [verified]
    carries no amount, sender or confirmation count and a non-empty error
    message; so the message the route stores on the payment and sends back,
    [result.error || '<network> verification failed'], is always the
    verifier's own. *)
Theorem rejections_carry_their_reason (env : Env) (bsc_node : Bsc)
    (sol_node : Solana) (txnHash expectedTo : string)
    (expected : option float) (memo : option string) :
  (let r := verifyBEP20Transaction env bsc_node txnHash expectedTo expected
              memo in
   verified r = false ->
   exists e, r = rejected e /\ Js.nonempty e = true
             /\ verificationError BEP20 r = e)
  /\ (let r := verifySOLTransaction env sol_node txnHash expectedTo expected
                 memo in
      verified r = false ->
      exists e, r = rejected e /\ Js.nonempty e = true
                /\ verificationError SOL r = e).
Proof.
  split; cbv zeta.
  - unfold verifyBEP20Transaction, verifyBEP20_try.
    destruct (BSC_RPC_URL env) as [url|];
      [|intros _; apply rejected_message; reflexivity].
    destruct (getTransactionReceipt bsc_node txnHash) as [[receipt|]|m];
      [ | intros _; apply rejected_message; reflexivity
        | intros _; apply rejected_message, message_or_nonempty; reflexivity].
    destruct (receipt_status receipt) as [[|[| |]|]|];
      try (intros _; apply rejected_message; reflexivity).
    destruct (getBlockNumber bsc_node) as [current|m];
      [|intros _; apply rejected_message, message_or_nonempty; reflexivity].
    destruct (current - blockNumber receipt <? minConfirmations_BSC);
      [intros _; apply rejected_message; reflexivity|].
    destruct (getTransaction bsc_node txnHash) as [present|m];
      [|intros _; apply rejected_message, message_or_nonempty; reflexivity].
    destruct (is_set memo && negb present);
      [intros _; apply rejected_message; reflexivity|].
    destruct (scan_logs bsc_node expectedTo (logs receipt)) as [|from amt|r|m]
      eqn:Hscan.
    + intros _; apply rejected_message; reflexivity.
    + discriminate.
    + intros _. destruct (scan_refusal_message _ _ _ _ Hscan) as (e & -> & He).
      apply rejected_message. exact He.
    + intros _; apply rejected_message, message_or_nonempty; reflexivity.
  - unfold verifySOLTransaction, verifySOL_try. cbv zeta.
    destruct (SOLANA_RPC_URL env) as [url|];
      [|intros _; apply rejected_message; reflexivity].
    destruct (getSignatureStatuses sol_node (Js.strip_spaces txnHash))
      as [[|]|m];
      [ | intros _; apply rejected_message; reflexivity
        | intros _; apply rejected_message, message_or_nonempty; reflexivity].
    destruct (getTransaction_finalized sol_node (Js.strip_spaces txnHash))
      as [[t|]|m];
      [ | | intros _; apply rejected_message, message_or_nonempty;
            reflexivity].
    2: destruct (getTransaction_confirmed sol_node (Js.strip_spaces txnHash))
         as [[t|]|m];
         [ | intros _; apply rejected_message; reflexivity
           | intros _; apply rejected_message, message_or_nonempty;
             reflexivity].
    all: destruct (match meta t with Some m => err m | None => None end);
      try (intros _; apply rejected_message; reflexivity).
    all: destruct (getSlot sol_node) as [current|m];
      try (intros _; apply rejected_message, message_or_nonempty;
           reflexivity).
    all: destruct (detect t expectedTo expected) as [|a from|r] eqn:Hd;
      try discriminate;
      try (intros _; apply rejected_message; reflexivity).
    all: intros _;
      destruct (detect_mismatch_rejects _ _ _ _ Hd) as (e & -> & He);
      apply rejected_message; exact He.
Qed.
(* ================================================================== *)
(** * Payments over time *)
(* ================================================================== *)

Lemma same_request_refl (p : CryptoPayment.t) : same_request p p.
Proof. reflexivity. Qed.

Lemma same_request_trans (a b c : CryptoPayment.t) :
  same_request a b -> same_request b c -> same_request a c.
Proof. unfold same_request. congruence. Qed.

(** Two saves of one document come to the second. *)
Lemma replace_replace (l l1 l2 : list CryptoPayment.t) (p p' : CryptoPayment.t) :
  CryptoPayment._id p' = CryptoPayment._id p ->
  CryptoPayment.replace l p = Some l1 ->
  CryptoPayment.replace l1 p' = Some l2 ->
  CryptoPayment.replace l p' = Some l2.
Proof.
  intros Hid. revert l1 l2.
  induction l as [|q r IH]; simpl; intros l1 l2 H1 H2; [discriminate|].
  rewrite Hid. destruct (Nat.eqb (CryptoPayment._id q) (CryptoPayment._id p)) eqn:E.
  - inversion H1; subst l1. simpl in H2. rewrite Hid, Nat.eqb_refl in H2.
    exact H2.
  - destruct (CryptoPayment.replace r p) as [r1|] eqn:Er; [|discriminate].
    inversion H1; subst l1. simpl in H2. rewrite Hid, E in H2.
    destruct (CryptoPayment.replace r1 p') as [r2|] eqn:Er2; [|discriminate].
    inversion H2; subst l2. rewrite (IH _ _ eq_refl Er2). reflexivity.
Qed.

Lemma same_request_id (p p' : CryptoPayment.t) :
  same_request p p' -> CryptoPayment._id p' = CryptoPayment._id p.
Proof. intros H. exact (f_equal r_id H). Qed.

Lemma same_request_paymentId (p p' : CryptoPayment.t) :
  same_request p p' -> CryptoPayment.paymentId p' = CryptoPayment.paymentId p.
Proof. intros H. exact (f_equal r_paymentId H). Qed.

Section Rewrites.

Variable cp0 : CryptoPayment.t.

Lemma rewrites_refl (st : State) : rewrites cp0 st st.
Proof. left. reflexivity. Qed.

Lemma rewrites_trans (a b c : State) :
  rewrites cp0 a b -> rewrites cp0 b c -> rewrites cp0 a c.
Proof.
  intros [Hab|(p & Hp & Hab)] [Hbc|(p' & Hp' & Hbc)].
  - left. congruence.
  - right. exists p'. rewrite <- Hab. auto.
  - right. exists p. rewrite Hbc. auto.
  - right. exists p'. split; [exact Hp'|].
    refine (replace_replace _ _ _ p p' _ Hab Hbc).
    rewrite (same_request_id _ _ Hp), (same_request_id _ _ Hp'). reflexivity.
Qed.

Lemma rewrites_cache (st : State) (c : Cache) (n : nat) :
  rewrites cp0 st (mkState (db st) c n).
Proof. left. reflexivity. Qed.

Lemma rewrites_save (p : CryptoPayment.t) (assigned : list (option float)) :
  same_request cp0 p -> respects (rewrites cp0) (save_payment p assigned).
Proof.
  intros Hp st. destruct (save_payment_cases st p assigned)
    as [(l' & Hr & ->)|(e & ->)]; simpl.
  - right. exists p. auto.
  - apply rewrites_refl.
Qed.

Lemma rewrites_bind {A B} (m : Route A) (k : A -> Route B) (Q : A -> Prop) :
  respects (rewrites cp0) m -> returns Q m ->
  (forall a, Q a -> respects (rewrites cp0) (k a)) ->
  respects (rewrites cp0) (bind m k).
Proof.
  intros Hm Hq Hk st. unfold bind. specialize (Hm st). specialize (Hq st).
  destruct (m st) as [[a|r|e] st']; simpl in *; auto.
  eapply rewrites_trans; [exact Hm | apply Hk; exact Hq].
Qed.

Lemma rewrites_then {A B} (m : Route A) (k : A -> Route B) :
  respects (rewrites cp0) m ->
  (forall a, respects (rewrites cp0) (k a)) ->
  respects (rewrites cp0) (bind m k).
Proof.
  intros Hm Hk. apply (rewrites_bind m k (fun _ => True)); auto.
  intros st. destruct (fst (m st)); exact I.
Qed.

Lemma rewrites_submit (w : World) (cp : CryptoPayment.t) (h : string) :
  same_request cp0 cp ->
  respects (rewrites cp0) (submit w cp h)
  /\ returns (same_request cp0) (submit w cp h).
Proof.
  intros Hcp. unfold submit. split.
  - destruct (Status_eqb (CryptoPayment.status cp) confirmed);
      [intros st; apply rewrites_refl|].
    apply rewrites_then; [intros st; apply rewrites_refl|]. intros d.
    destruct (CryptoPayment.findConfirmedWithHash (payments d) h
                (CryptoPayment._id cp)); [intros st; apply rewrites_refl|].
    destruct (CryptoPayment.isExpired (now_check w) cp).
    + apply rewrites_then; [apply rewrites_save; exact Hcp|].
      intros _ st. apply rewrites_refl.
    + apply rewrites_then; [apply rewrites_save; exact Hcp|].
      intros _ st. apply rewrites_refl.
  - intros st.
    destruct (Status_eqb (CryptoPayment.status cp) confirmed); [exact I|].
    unfold bind at 1. unfold read_db at 1.
    destruct (CryptoPayment.findConfirmedWithHash (payments (db st)) h
                (CryptoPayment._id cp)); [exact I|].
    destruct (CryptoPayment.isExpired (now_check w) cp).
    + unfold bind. destruct (save_payment _ _ _) as [[[]|r|e] st']; exact I.
    + unfold bind. destruct (save_payment _ _ _) as [[[]|r|e] st']; simpl; auto.
Qed.

Lemma rewrites_verify_on_chain (env : Env) (w : World) (cp : CryptoPayment.t)
    (h : string) :
  same_request cp0 cp -> respects (rewrites cp0) (verify_on_chain env w cp h).
Proof.
  intros Hcp. unfold verify_on_chain. cbv zeta.
  destruct (verified (run_verifier env w cp h));
    [intros st; apply rewrites_refl|].
  apply rewrites_then; [apply rewrites_save; exact Hcp|].
  intros _ st. apply rewrites_refl.
Qed.

Lemma rewrites_mark_confirmed (w : World) (cp : CryptoPayment.t)
    (v : VerificationData) (h : string) :
  same_request cp0 cp ->
  respects (rewrites cp0) (mark_confirmed w cp v h)
  /\ returns (same_request cp0) (mark_confirmed w cp v h).
Proof.
  intros Hcp. unfold mark_confirmed. cbv zeta. split.
  - apply rewrites_then; [apply rewrites_save; exact Hcp|].
    intros _ st. apply rewrites_refl.
  - intros st. unfold bind.
    destruct (save_payment _ _ _) as [[[]|r|e] st']; simpl; auto.
Qed.

Lemma rewrites_convert (env : Env) (w : World) (cp : CryptoPayment.t)
    (v : VerificationData) :
  same_request cp0 cp -> respects (rewrites cp0) (convert env w cp v).
Proof.
  intros Hcp. unfold convert. cbv zeta.
  apply rewrites_then; [apply respects_lookup; exact rewrites_cache|].
  intros usdRate.
  destruct (Js.le _ 0); [intros st; apply rewrites_refl|].
  apply rewrites_then; [apply rewrites_save; exact Hcp|].
  intros _ st. apply rewrites_refl.
Qed.

Lemma rewrites_settle (req : VerifyRequest) (plan : PaymentPlan.t)
    (user : User.t) (c : Conversion) (v : VerificationData) (h : string) :
  respects (rewrites cp0) (settle req plan user c v h).
Proof. intros st. left. apply settle_payments. Qed.

End Rewrites.
(** What a call leaves of the payments: as they were, or the payment the
    request names, found not yet confirmed and owned by the caller, replaced
    by another version of the same request. *)
Lemma verify_rewrites (env : Env) (w : World) (req : VerifyRequest)
    (st : State) :
  payments (db (snd (verifyCryptoTransaction env w req st))) = payments (db st)
  \/ exists pid h cp p,
       names req pid h
       /\ stored_payment st pid = Some cp
       /\ CryptoPayment.userId cp = verify_user req
       /\ CryptoPayment.status cp <> confirmed
       /\ same_request cp p
       /\ CryptoPayment.replace (payments (db st)) p
          = Some (payments (db (snd (verifyCryptoTransaction env w req st)))).
Proof.
  rewrite verify_unfold, handle_state. unfold verifyCryptoTransaction_try.
  destruct (load_payment_cases req st)
    as [(pid & h & cp & Hn & Hst & Hu & Hl)|(r & Hl & _)].
  2:{ rewrite (bind_Reply _ _ _ _ _ Hl). left. reflexivity. }
  rewrite (bind_Next _ _ _ _ _ Hl). cbn [fst snd].
  destruct (Status_eqb (CryptoPayment.status cp) confirmed) eqn:Hs.
  { apply Status_eqb_eq in Hs.
    rewrite (bind_Reply _ _ _ _ _ (submit_confirmed w cp h st Hs)).
    left. reflexivity. }
  apply Status_eqb_neq in Hs.
  assert (respects (rewrites cp)
            (cryptoPayment <- submit w cp h ;;
             verificationData <- verify_on_chain env w cryptoPayment h ;;
             cryptoPayment <- mark_confirmed w cryptoPayment verificationData h ;;
             found <- load_plan_and_user req cryptoPayment ;;
             conversion <- convert env w cryptoPayment verificationData ;;
             settle req (fst found) (snd found) conversion verificationData h))
    as Hrw.
  { destruct (rewrites_submit cp w cp h (same_request_refl cp)) as [Hr Hq].
    apply (rewrites_bind cp _ _ (same_request cp) Hr Hq). intros cp1 H1.
    apply rewrites_then; [apply rewrites_verify_on_chain; exact H1|].
    intros v.
    destruct (rewrites_mark_confirmed cp w cp1 v h H1) as [Hr2 Hq2].
    apply (rewrites_bind cp _ _ (same_request cp) Hr2 Hq2). intros cp2 H2.
    apply rewrites_then;
      [apply respects_load_plan_and_user;
       [apply rewrites_refl | apply rewrites_trans]|].
    intros found.
    apply rewrites_then; [apply rewrites_convert; exact H2|].
    intros c. apply rewrites_settle. }
  destruct (Hrw st) as [Hsame|(p & Hp & Hrep)].
  - left. exact Hsame.
  - right. exists pid, h, cp, p. repeat split; try assumption; apply Hn.
Qed.

(** The id counter never goes back. *)
Lemma verify_next_id (env : Env) (w : World) (req : VerifyRequest) (st : State) :
  (next_id (db st)
   <= next_id (db (snd (verifyCryptoTransaction env w req st))))%nat.
Proof.
  apply (respects_verify (fun a b => (next_id (db a) <= next_id (db b))%nat)).
  - intros s. lia.
  - intros a b c Hab Hbc. lia.
  - intros s l. simpl. lia.
  - intros s c n. simpl. lia.
  - intros plan user c v h s. unfold settle. unfold bind at 1.
    unfold read_db at 1.
    destruct (Transaction.findByCryptoHash (transactions (db s)) h);
      [simpl; lia|].
    destruct (create_transaction_cases (ledger_entry req plan c v h) s)
      as [(t & l' & _ & Hc)|(e & Hc)].
    + rewrite (bind_Next _ _ _ _ _ Hc). simpl. lia.
    + rewrite (bind_Raise _ _ _ _ _ Hc). simpl. lia.
Qed.

Lemma plan_found_by_id (l : list PaymentPlan.t) (i : ObjectId)
    (plan : PaymentPlan.t) :
  PaymentPlan.findById l i = Some plan -> PaymentPlan._id plan = i.
Proof.
  induction l as [|q r IH]; simpl; [discriminate|].
  destruct (Nat.eqb (PaymentPlan._id q) i) eqn:E; [|exact IH].
  intros H. inversion H; subst. apply Nat.eqb_eq. exact E.
Qed.

(** What POST /create-crypto-payment comes to: a reply that is not a
    success with the state as it was, or one pending payment of the caller
    appended under the id the counter held, which the reply describes. *)
Lemma create_effect (env : Env) (w : CreateWorld) (req : CreateRequest)
    (st : State) :
  (snd (createCryptoPayment env w req st) = st
   /\ success (body (fst (createCryptoPayment env w req st))) = false
   /\ (code (fst (createCryptoPayment env w req st)) = 400
       \/ code (fst (createCryptoPayment env w req st)) = 404
       \/ code (fst (createCryptoPayment env w req st)) = 500))
  \/ exists p plan minutes,
       CryptoPayment.create (payments (db st)) p
       = Done (payments (db st) ++ [p])%list
       /\ CryptoPayment._id p = next_id (db st)
       /\ CryptoPayment.userId p = create_user req
       /\ CryptoPayment.planId p = PaymentPlan._id plan
       /\ body_planId req = Some (Casts (PaymentPlan._id plan))
       /\ PaymentPlan.findById (plans (db st)) (PaymentPlan._id plan)
          = Some plan
       /\ PaymentPlan.isActive plan = true
       /\ CryptoPayment.amount p = PaymentPlan.price plan
       /\ CryptoPayment.status p = pending
       /\ CryptoPayment.transactionHash p = None
       /\ CryptoPayment.errorMessage p = None
       /\ CryptoPayment.confirmedAt p = None
       /\ body_network req = Some (Network_name (CryptoPayment.network p))
       /\ CryptoPayment.walletAddress p
          = match CryptoPayment.network p with
            | BEP20 => configured (BEP20_WALLET_ADDRESS env) BEP20_PLACEHOLDER
            | SOL => configured (SOL_WALLET_ADDRESS env) SOL_PLACEHOLDER
            end
       /\ CryptoPayment.token p
          = match CryptoPayment.network p with
            | BEP20 => USDT
            | SOL => SOLcoin
            end
       /\ Js.parseInt (match CRYPTO_PAYMENT_EXPIRY_MINUTES env with
                       | Some s => if Js.nonempty s then s else "30"
                       | None => "30"
                       end) = Some minutes
       /\ CryptoPayment.expiresAt p = now_expiry w + minutes * 60 * 1000
       /\ snd (createCryptoPayment env w req st)
          = mkState (mkDatabase (users (db st)) (plans (db st))
                       (payments (db st) ++ [p])%list (transactions (db st))
                       (S (next_id (db st))))
              (cache st) (feed_requests st)
       /\ fst (createCryptoPayment env w req st)
          = mkResponse 200
              (Created (mkCreatedData (CryptoPayment.paymentId p)
                          (CryptoPayment.walletAddress p)
                          (CryptoPayment.amount p) (CryptoPayment.token p)
                          (CryptoPayment.network p) (CryptoPayment.memo p)
                          (CryptoPayment.expiresAt p) (PaymentPlan.name plan)
                          (PaymentPlan.quotaAmount plan))).
Proof.
  destruct (createCryptoPayment env w req st) as [r st'] eqn:Heq.
  cbn [fst snd]. revert Heq.
  unfold createCryptoPayment, handle, createCryptoPayment_try.
  destruct (body_planId req) as [planId|];
    [|intros H; inversion H; left; cbn; auto].
  destruct (body_network req) as [name|];
    [|intros H; inversion H; left; cbn; auto].
  destruct (negb (Js.nonempty name));
    [intros H; inversion H; left; cbn; auto|].
  destruct (String.eqb name "BEP20") eqn:Hbep;
    [|destruct (String.eqb name "SOL") eqn:Hsol;
      [|intros H; inversion H; left; cbn; auto]].
  all: unfold bind at 1; unfold read_db at 1.
  all: destruct planId as [planId|e];
         [|intros H; inversion H; left; cbn; auto].
  all: destruct (PaymentPlan.findById (plans (db st)) planId) as [plan|]
         eqn:Hplan; [|intros H; inversion H; left; cbn; auto].
  all: destruct (PaymentPlan.isActive plan) eqn:Hact;
         [|intros H; inversion H; left; cbn; auto].
  all: cbn [negb].
  all: destruct (User.findById (users (db st)) (create_user req)) as [user|];
         [|intros H; inversion H; left; cbn; auto].
  all: cbv zeta iota beta.
  all: match goal with
       | |- context [String.eqb ?wa BEP20_PLACEHOLDER || _] =>
           destruct (String.eqb wa BEP20_PLACEHOLDER
                     || String.eqb wa SOL_PLACEHOLDER);
           [intros H; inversion H; left; cbn; auto|]
       end.
  all: destruct (Js.parseInt _) as [expiryMinutes|] eqn:Hmin;
         [|intros H; inversion H; left; cbn; auto].
  all: destruct (MAX_DATE <? Z.abs _);
         [intros H; inversion H; left; cbn; auto|].
  all: match goal with
       | |- context [insert_payment ?doc] => set (d := doc)
       end.
  all: destruct (insert_payment_cases d st) as [(l' & Hc & Hi)|(e & Hi)];
         [|rewrite (bind_Raise _ _ _ _ _ Hi); intros H; inversion H; left;
           cbn; auto].
  all: rewrite (bind_Next _ _ _ _ _ Hi); unfold ret;
         intros H; inversion H; subst r st'; clear H;
         right; exists (d (next_id (db st))), plan, expiryMinutes;
         assert (l' = (payments (db st) ++ [d (next_id (db st))])%list) as ->
           by (revert Hc; unfold CryptoPayment.create;
               destruct (CryptoPayment.castable _); [|discriminate];
               destruct (existsb _ _); [discriminate|];
               intros H; inversion H; reflexivity);
         split; [exact Hc|]; subst d; cbv beta;
         cbn [CryptoPayment._id CryptoPayment.userId CryptoPayment.planId
              CryptoPayment.amount CryptoPayment.status
              CryptoPayment.transactionHash CryptoPayment.errorMessage
              CryptoPayment.confirmedAt CryptoPayment.network
              CryptoPayment.walletAddress CryptoPayment.token
              CryptoPayment.expiresAt CryptoPayment.paymentId
              CryptoPayment.memo Network_name].
  - apply String.eqb_eq in Hbep. subst name.
    pose proof (plan_found_by_id _ _ _ Hplan) as Hpid. subst planId.
    repeat split; first [reflexivity | exact Hact | exact Hmin | exact Hplan].
  - apply String.eqb_eq in Hsol. subst name.
    pose proof (plan_found_by_id _ _ _ Hplan) as Hpid. subst planId.
    repeat split; first [reflexivity | exact Hact | exact Hmin | exact Hplan].
Qed.
Lemma later_version_refl (p : CryptoPayment.t) : later_version p p.
Proof. split; [reflexivity | auto]. Qed.

Lemma later_version_trans (a b c : CryptoPayment.t) :
  later_version a b -> later_version b c -> later_version a c.
Proof.
  intros [Hab Ha] [Hbc Hb]. split.
  - exact (same_request_trans _ _ _ Hab Hbc).
  - intros Hs. specialize (Ha Hs). subst b. exact (Hb Hs).
Qed.

Lemma Forall2_later_refl (l : list CryptoPayment.t) : Forall2 later_version l l.
Proof. induction l; constructor; auto using later_version_refl. Qed.

Lemma Forall2_later_trans (a b c : list CryptoPayment.t) :
  Forall2 later_version a b -> Forall2 later_version b c ->
  Forall2 later_version a c.
Proof.
  intros Hab. revert c. induction Hab as [|x y a b Hxy _ IH]; intros c Hbc.
  - inversion Hbc. constructor.
  - inversion Hbc as [|y' z b' c' Hyz Hrest]; subst.
    constructor; [exact (later_version_trans _ _ _ Hxy Hyz) | exact (IH _ Hrest)].
Qed.

Lemma evolves_refl (l : list CryptoPayment.t) : evolves l l.
Proof.
  exists l, []. split; [symmetry; apply app_nil_r | apply Forall2_later_refl].
Qed.

Lemma evolves_trans (a b c : list CryptoPayment.t) :
  evolves a b -> evolves b c -> evolves a c.
Proof.
  intros (a1 & a2 & -> & Ha) (b1 & b2 & -> & Hb).
  apply Forall2_app_inv_l in Hb.
  destruct Hb as (m1 & m2 & H1 & H2 & ->).
  exists m1, (m2 ++ b2)%list. split; [symmetry; apply app_assoc|].
  exact (Forall2_later_trans _ _ _ Ha H1).
Qed.

Lemma later_requests (l l' : list CryptoPayment.t) :
  Forall2 later_version l l' -> map request_of l' = map request_of l.
Proof.
  induction 1 as [|x y l l' [Hxy _] _ IH]; [reflexivity|].
  simpl. rewrite IH, Hxy. reflexivity.
Qed.

Lemma ids_of_requests (l : list CryptoPayment.t) :
  map CryptoPayment._id l = map r_id (map request_of l).
Proof. rewrite map_map. reflexivity. Qed.

Lemma paymentIds_of_requests (l : list CryptoPayment.t) :
  map CryptoPayment.paymentId l = map r_paymentId (map request_of l).
Proof. rewrite map_map. reflexivity. Qed.

(** A stored payment is found again, in a later version, under its id. *)
Lemma stored_later (l l1 l2 : list CryptoPayment.t) (pid : string)
    (p : CryptoPayment.t) :
  Forall2 later_version l l1 ->
  CryptoPayment.findByPaymentId l pid = Some p ->
  exists p', CryptoPayment.findByPaymentId (l1 ++ l2) pid = Some p'
             /\ later_version p p'.
Proof.
  induction 1 as [|x y l l1 Hxy _ IH]; [discriminate|].
  cbn [CryptoPayment.findByPaymentId app].
  rewrite (same_request_paymentId _ _ (proj1 Hxy)).
  destruct (String.eqb (CryptoPayment.paymentId x) pid).
  - intros H. inversion H; subst. exists y. auto.
  - exact IH.
Qed.

(** With ids of their own, a save replaces the document it was loaded
    from, in place. *)
Lemma replace_in_place (l l' : list CryptoPayment.t) (cp p : CryptoPayment.t) :
  NoDup (map CryptoPayment._id l) -> In cp l ->
  CryptoPayment._id p = CryptoPayment._id cp ->
  CryptoPayment.replace l p = Some l' ->
  exists l1 l2, l = (l1 ++ cp :: l2)%list /\ l' = (l1 ++ p :: l2)%list.
Proof.
  intros Hnd Hin Hid. revert l'.
  induction l as [|q r IH]; simpl; intros l' Hrep; [discriminate|].
  inversion Hnd as [|i ids Hni Hnd']; subst.
  destruct (Nat.eqb (CryptoPayment._id q) (CryptoPayment._id p)) eqn:E.
  - inversion Hrep; subst l'. apply Nat.eqb_eq in E.
    destruct Hin as [->|Hin].
    + exists [], r. split; reflexivity.
    + exfalso. apply Hni. rewrite E, Hid. apply in_map. exact Hin.
  - destruct (CryptoPayment.replace r p) as [r'|] eqn:Er; [|discriminate].
    inversion Hrep; subst l'.
    destruct Hin as [->|Hin].
    + rewrite Hid, Nat.eqb_refl in E. discriminate.
    + destruct (IH Hnd' Hin r' eq_refl) as (l1 & l2 & -> & ->).
      exists (q :: l1), l2. split; reflexivity.
Qed.

Lemma stored_In (l : list CryptoPayment.t) (pid : string) (p : CryptoPayment.t) :
  CryptoPayment.findByPaymentId l pid = Some p ->
  In p l /\ CryptoPayment.paymentId p = pid.
Proof.
  induction l as [|q r IH]; simpl; [discriminate|].
  destruct (String.eqb (CryptoPayment.paymentId q) pid) eqn:E.
  - intros H. inversion H; subst. apply String.eqb_eq in E. auto.
  - intros H. destruct (IH H). auto.
Qed.

(** With payment ids of their own, every stored payment is the one its
    payment id finds. *)
Lemma In_stored (l : list CryptoPayment.t) (p : CryptoPayment.t) :
  NoDup (map CryptoPayment.paymentId l) -> In p l ->
  CryptoPayment.findByPaymentId l (CryptoPayment.paymentId p) = Some p.
Proof.
  induction l as [|q r IH]; simpl; intros Hnd Hin; [contradiction|].
  inversion Hnd as [|i ids Hni Hnd']; subst.
  destruct (String.eqb (CryptoPayment.paymentId q) (CryptoPayment.paymentId p))
    eqn:E.
  - destruct Hin as [->|Hin]; [reflexivity|].
    exfalso. apply Hni. apply String.eqb_eq in E. rewrite E.
    apply in_map. exact Hin.
  - destruct Hin as [->|Hin].
    + rewrite String.eqb_refl in E. discriminate.
    + exact (IH Hnd' Hin).
Qed.

(** One call of POST /verify-crypto-transaction on well-keyed payments:
    the payment named, when it changes, changes in place into another
    version of the request, and it was not confirmed before. *)
Lemma verify_in_place (env : Env) (w : World) (req : VerifyRequest)
    (st : State) :
  well_keyed st ->
  payments (db (snd (verifyCryptoTransaction env w req st))) = payments (db st)
  \/ exists pid h cp p l1 l2,
       names req pid h
       /\ stored_payment st pid = Some cp
       /\ CryptoPayment.status cp <> confirmed
       /\ same_request cp p
       /\ payments (db st) = (l1 ++ cp :: l2)%list
       /\ payments (db (snd (verifyCryptoTransaction env w req st)))
          = (l1 ++ p :: l2)%list.
Proof.
  intros (Hids & _ & _).
  destruct (verify_rewrites env w req st)
    as [Hsame|(pid & h & cp & p & Hn & Hst & _ & Hs & Hp & Hrep)];
    [left; exact Hsame|].
  right.
  destruct (replace_in_place _ _ cp p Hids (proj1 (stored_In _ _ _ Hst))
              (same_request_id _ _ Hp) Hrep) as (l1 & l2 & H1 & H2).
  exists pid, h, cp, p, l1, l2. auto 10.
Qed.

Lemma Forall2_later_middle (l1 l2 : list CryptoPayment.t)
    (cp p : CryptoPayment.t) :
  CryptoPayment.status cp <> confirmed -> same_request cp p ->
  Forall2 later_version (l1 ++ cp :: l2) (l1 ++ p :: l2).
Proof.
  intros Hs Hp. apply Forall2_app; [apply Forall2_later_refl|].
  constructor; [|apply Forall2_later_refl].
  split; [exact Hp | intros H; contradiction].
Qed.

(** Later versions keep the keys. *)
Lemma well_keyed_later (st st' : State) :
  well_keyed st ->
  Forall2 later_version (payments (db st)) (payments (db st')) ->
  (next_id (db st) <= next_id (db st'))%nat ->
  well_keyed st'.
Proof.
  intros (Hids & Hpids & Hlt) Hl Hn.
  pose proof (later_requests _ _ Hl) as Hreq.
  unfold well_keyed.
  rewrite ids_of_requests, paymentIds_of_requests, Hreq,
    <- ids_of_requests, <- paymentIds_of_requests.
  split; [exact Hids|]. split; [exact Hpids|].
  apply Forall_forall. intros p' Hin.
  assert (In (CryptoPayment._id p') (map CryptoPayment._id (payments (db st))))
    as Hi.
  { rewrite (ids_of_requests (payments (db st))), <- Hreq, <- ids_of_requests.
    apply in_map. exact Hin. }
  apply in_map_iff in Hi. destruct Hi as (q & Hq & Hqin).
  rewrite Forall_forall in Hlt. specialize (Hlt q Hqin). lia.
Qed.

Lemma sweep_later (now : Z) (l : list CryptoPayment.t) :
  Forall2 later_version l (fst (CryptoPayment.cleanupExpired now l)).
Proof.
  unfold CryptoPayment.cleanupExpired. cbn [fst].
  induction l as [|p r IH]; [constructor|]. cbn [map]. constructor; [|exact IH].
  destruct (CryptoPayment.stale now p) eqn:E; [|apply later_version_refl].
  split; [reflexivity|]. intros Hs.
  unfold CryptoPayment.stale in E. rewrite Hs in E. discriminate.
Qed.

(** One request served: the keys stay, and the payments evolve. *)
Lemma step_evolves (st st' : State) :
  well_keyed st -> step st st' ->
  well_keyed st' /\ evolves (payments (db st)) (payments (db st')).
Proof.
  intros Hk Hstep. destruct Hstep.
  - destruct (create_effect env w req st)
      as [(-> & _)|(p & plan & minutes & Hc & Hid & _ & _ & _ & _ & _ & _ & _
                    & _ & _ & _ & _ & _ & _ & _ & _ & -> & _)];
      [split; [exact Hk | apply evolves_refl]|].
    split.
    + destruct Hk as (Hids & Hpids & Hlt). unfold well_keyed. cbn [db payments next_id].
      rewrite !map_app. cbn [map]. repeat split.
      * apply NoDup_Add with (a := CryptoPayment._id p)
                             (l := map CryptoPayment._id (payments (db st))).
        -- rewrite <- (app_nil_r (map CryptoPayment._id (payments (db st)))) at 1.
           apply Add_app.
        -- split; [exact Hids|]. intros Hin. apply in_map_iff in Hin.
           destruct Hin as (q & Hq & Hqin). rewrite Forall_forall in Hlt.
           specialize (Hlt q Hqin). lia.
      * apply NoDup_Add with (a := CryptoPayment.paymentId p)
                             (l := map CryptoPayment.paymentId (payments (db st))).
        -- rewrite <- (app_nil_r (map CryptoPayment.paymentId (payments (db st)))) at 1.
           apply Add_app.
        -- split; [exact Hpids|]. intros Hin. apply in_map_iff in Hin.
           destruct Hin as (q & Hq & Hqin).
           revert Hc. unfold CryptoPayment.create.
           destruct (CryptoPayment.castable _); [|discriminate].
           destruct (existsb _ _) eqn:Ex; [discriminate|]. intros _.
           assert (existsb (fun q0 => String.eqb (CryptoPayment.paymentId q0)
                                        (CryptoPayment.paymentId p))
                     (payments (db st)) = true) as Ht.
           { apply existsb_exists. exists q. split; [exact Hqin|].
             rewrite Hq. apply String.eqb_refl. }
           rewrite Ht in Ex. discriminate.
      * apply Forall_app. split.
        -- apply Forall_forall. intros q Hq. rewrite Forall_forall in Hlt.
           specialize (Hlt q Hq). lia.
        -- constructor; [lia | constructor].
    + cbn [db payments]. exists (payments (db st)), [p].
      split; [reflexivity | apply Forall2_later_refl].
  - pose proof (verify_next_id env w req st) as Hn.
    destruct (verify_in_place env w req st Hk)
      as [Hsame|(pid & h & cp & p & l1 & l2 & _ & _ & Hs & Hp & H1 & H2)].
    + assert (Forall2 later_version (payments (db st))
                (payments (db (snd (verifyCryptoTransaction env w req st)))))
        as Hl by (rewrite Hsame; apply Forall2_later_refl).
      split; [exact (well_keyed_later _ _ Hk Hl Hn)|].
      rewrite Hsame. apply evolves_refl.
    + assert (Forall2 later_version (payments (db st))
                (payments (db (snd (verifyCryptoTransaction env w req st)))))
        as Hl by (rewrite H1, H2; apply Forall2_later_middle; assumption).
      split; [exact (well_keyed_later _ _ Hk Hl Hn)|].
      exists (payments (db (snd (verifyCryptoTransaction env w req st)))), [].
      split; [symmetry; apply app_nil_r | exact Hl].
  - pose proof (sweep_later now (payments (db st))) as Hl.
    split.
    + apply (well_keyed_later st (sweep now st) Hk); [exact Hl | simpl; lia].
    + exists (fst (CryptoPayment.cleanupExpired now (payments (db st)))), [].
      split; [symmetry; apply app_nil_r | exact Hl].
  - unfold ledger_insert.
    destruct (create_transaction_cases doc st)
      as [(t & l' & _ & ->)|(e & ->)]; cbn [snd].
    + split; [|apply evolves_refl].
      apply (well_keyed_later st _ Hk); [apply Forall2_later_refl | simpl; lia].
    + split; [exact Hk | apply evolves_refl].
  - split; [|apply evolves_refl].
    apply (well_keyed_later st _ Hk); [apply Forall2_later_refl | simpl; lia].
  - split; [|apply evolves_refl].
    apply (well_keyed_later st _ Hk); [apply Forall2_later_refl | simpl; lia].
Qed.

Lemma reachable_well_keyed (st : State) : reachable st -> well_keyed st.
Proof.
  induction 1 as [|st st' _ IH Hstep].
  - repeat split; constructor.
  - exact (proj1 (step_evolves _ _ IH Hstep)).
Qed.

Lemma steps_evolve (st st' : State) :
  well_keyed st -> steps st st' ->
  well_keyed st' /\ evolves (payments (db st)) (payments (db st')).
Proof.
  intros Hk. induction 1 as [|st st' st'' _ IH Hstep].
  - split; [exact Hk | apply evolves_refl].
  - destruct (IH Hk) as [Hk' He].
    destruct (step_evolves _ _ Hk' Hstep) as [Hk'' He'].
    split; [exact Hk'' | exact (evolves_trans _ _ _ He He')].
Qed.
Lemma sample_requested_reachable : reachable Sample.requested.
Proof.
  apply reachable_step with (st := Sample.registered).
  - apply reachable_step with (st := initial).
    + apply reachable_initial.
    + apply step_accounts.
  - apply step_create.
Qed.

(** X13.  Payment ids identify.  In every state that requests served one
    after the other can reach, no
    two payment requests share an [_id] or a [paymentId], every [_id] is
    below the id counter, and each stored payment is the one that
    [findByPaymentId] returns for its [paymentId]. *)
Theorem payment_ids_identify (st : State) :
  reachable st ->
  NoDup (map CryptoPayment._id (payments (db st)))
  /\ NoDup (map CryptoPayment.paymentId (payments (db st)))
  /\ (forall p, In p (payments (db st)) ->
                (CryptoPayment._id p < next_id (db st))%nat)
  /\ (forall p, In p (payments (db st)) ->
                stored_payment st (CryptoPayment.paymentId p) = Some p).
Proof.
  intros Hr. destruct (reachable_well_keyed st Hr) as (Hids & Hpids & Hlt).
  split; [exact Hids|]. split; [exact Hpids|]. split.
  - apply Forall_forall. exact Hlt.
  - intros p Hin. exact (In_stored _ p Hpids Hin).
Qed.

(** After Alice's request: one payment, found under its payment id. *)
Lemma payment_ids_identify_witness :
  NoDup (map CryptoPayment.paymentId (payments (db Sample.requested)))
  /\ map CryptoPayment.paymentId (payments (db Sample.requested))
     = ["crypto-1000-4fzyo82mv"].
Proof.
  split.
  - exact (proj1 (proj2 (payment_ids_identify Sample.requested
                           sample_requested_reachable))).
  - vm_compute. reflexivity.
Defined.

(** X14.  A payment request stays what it was created as.  From any
    reachable state on, whatever requests are served one after the other,
    a stored payment is
    never removed and is found under the same payment id with the same
    [_id], owner, plan, network, token, wallet address, memo, expiry and
    creation time; and once it is stored confirmed, the document never
    changes again. *)
Theorem payments_keep_their_request (st st' : State) (pid : string)
    (p : CryptoPayment.t) :
  reachable st -> steps st st' ->
  stored_payment st pid = Some p ->
  exists p',
    stored_payment st' pid = Some p'
    /\ same_request p p'
    /\ (CryptoPayment.status p = confirmed -> p' = p).
Proof.
  intros Hr Hsteps Hst.
  destruct (steps_evolve st st' (reachable_well_keyed st Hr) Hsteps)
    as (_ & l1 & l2 & Heq & Hl).
  unfold stored_payment in *. rewrite Heq.
  destruct (stored_later _ l1 l2 pid p Hl Hst) as (p' & Hp' & Hlater & Hc).
  exists p'. auto.
Qed.

(** Alice's request, before and after her transfer was settled. *)
Lemma payments_keep_their_request_witness :
  exists p p',
    stored_payment Sample.requested "crypto-1000-4fzyo82mv" = Some p
    /\ stored_payment Sample.settled "crypto-1000-4fzyo82mv" = Some p'
    /\ same_request p p'.
Proof.
  destruct (stored_payment Sample.requested "crypto-1000-4fzyo82mv")
    as [p|] eqn:Hp; [|vm_compute in Hp; discriminate].
  destruct (payments_keep_their_request Sample.requested Sample.settled
              "crypto-1000-4fzyo82mv" p sample_requested_reachable
              (@steps_more _ _ _ (@steps_none _) (@step_verify _ _ _ _)) Hp)
    as (p' & Hp' & Hsame & _).
  exists p, p'. auto.
Defined.

Lemma lookup_past (l1 l2 : list CryptoPayment.t) (a b : CryptoPayment.t)
    (pid : string) :
  CryptoPayment.paymentId a <> pid -> CryptoPayment.paymentId b <> pid ->
  CryptoPayment.findByPaymentId (l1 ++ a :: l2) pid
  = CryptoPayment.findByPaymentId (l1 ++ b :: l2) pid.
Proof.
  intros Ha Hb. induction l1 as [|q r IH]; cbn [app CryptoPayment.findByPaymentId].
  - apply String.eqb_neq in Ha, Hb. rewrite Ha, Hb. reflexivity.
  - rewrite IH. reflexivity.
Qed.

(** X15.  A call touches no payment but the one it names.  From a
    reachable state, a call of POST /verify-crypto-transaction leaves every
    payment stored under another payment id than the request's exactly as
    it was, whatever the outcome of the call. *)
Theorem call_touches_only_the_named_payment (env : Env) (w : World)
    (req : VerifyRequest) (st : State) (pid : string) (q : CryptoPayment.t) :
  reachable st ->
  body_paymentId req <> Some pid ->
  stored_payment st pid = Some q ->
  stored_payment (snd (verifyCryptoTransaction env w req st)) pid = Some q.
Proof.
  intros Hr Hother Hq. unfold stored_payment in *.
  destruct (verify_in_place env w req st (reachable_well_keyed st Hr))
    as [->|(pid0 & h & cp & p & l1 & l2 & Hn & Hst & _ & Hp & H1 & H2)];
    [exact Hq|].
  rewrite H2. rewrite H1 in Hq. rewrite <- Hq. symmetry.
  assert (CryptoPayment.paymentId cp = pid0) as Hcp
    by exact (stored_paymentId _ _ _ Hst).
  assert (pid0 <> pid) as Hne.
  { intros ->. apply Hother. apply Hn. }
  apply lookup_past.
  - rewrite Hcp. exact Hne.
  - rewrite (same_request_paymentId _ _ Hp), Hcp. exact Hne.
Qed.
Lemma sample_two_requests_reachable : reachable Cases.two_requests.
Proof.
  apply reachable_step with (st := Sample.requested).
  - exact sample_requested_reachable.
  - apply step_create.
Qed.

(** Alice's call leaves Bob's request as it was. *)
Lemma call_touches_only_the_named_payment_witness :
  exists q,
    stored_payment Cases.two_requests "crypto-1100-9zzzzzzzz" = Some q
    /\ stored_payment
         (snd (verifyCryptoTransaction Sample.env
                 (Sample.world 1500 1600 Sample.bsc_down
                    (Sample.sol_node 1000000000) (Js.of_Z 20))
                 (Sample.by_alice_created "SIG1") Cases.two_requests))
         "crypto-1100-9zzzzzzzz" = Some q.
Proof.
  destruct (stored_payment Cases.two_requests "crypto-1100-9zzzzzzzz")
    as [q|] eqn:Hq; [|vm_compute in Hq; discriminate].
  exists q. split; [reflexivity|].
  apply (call_touches_only_the_named_payment Sample.env
           (Sample.world 1500 1600 Sample.bsc_down
              (Sample.sol_node 1000000000) (Js.of_Z 20))
           (Sample.by_alice_created "SIG1") Cases.two_requests
           "crypto-1100-9zzzzzzzz" q sample_two_requests_reachable).
  - simpl. discriminate.
  - exact Hq.
Defined.

(* ================================================================== *)
(** * models/CryptoPayment: the expiry sweep and the pending listing *)
(* ================================================================== *)

Lemma cleanup_nothing_stale (now : Z) (l : list CryptoPayment.t) :
  (forall p, In p l -> CryptoPayment.stale now p = false) ->
  CryptoPayment.cleanupExpired now l = (l, 0).
Proof.
  intros H. unfold CryptoPayment.cleanupExpired.
  assert (map (fun p => if CryptoPayment.stale now p
                        then CryptoPayment.set_status p expired else p) l = l
          /\ filter (CryptoPayment.stale now) l = []) as [-> ->];
    [|reflexivity].
  induction l as [|p r IH]; [split; reflexivity|].
  cbn [map filter]. rewrite (H p (or_introl eq_refl)).
  destruct IH as [-> ->]; [|split; reflexivity].
  intros q Hq. apply H. right. exact Hq.
Qed.

Lemma stale_spec (now : Z) (p : CryptoPayment.t) :
  CryptoPayment.stale now p = true
  <-> CryptoPayment.status p = pending /\ CryptoPayment.expiresAt p < now.
Proof.
  unfold CryptoPayment.stale. rewrite andb_true_iff, Status_eqb_eq, Z.ltb_lt.
  reflexivity.
Qed.

(** X16.  The expiry sweep.  [cleanupExpired] turns exactly the pending
    payments whose expiry lies before the clock into expired ones, changes
    nothing else of them and no other payment, and returns the number of
    payments it changed.  Afterwards no pending payment has its expiry
    before the clock, so a second sweep at that time or at an earlier one
    changes nothing and returns 0. *)
Theorem sweep_expires_the_overdue_pending (now : Z) (l : list CryptoPayment.t) :
  let swept := fst (CryptoPayment.cleanupExpired now l) in
  Forall2 (fun p p' =>
             if Status_eqb (CryptoPayment.status p) pending
                && (CryptoPayment.expiresAt p <? now)
             then p' = CryptoPayment.set_status p expired
             else p' = p) l swept
  /\ snd (CryptoPayment.cleanupExpired now l) = modified l swept
  /\ (forall p, In p swept -> CryptoPayment.status p = pending ->
                now <= CryptoPayment.expiresAt p)
  /\ (forall now', now' <= now ->
                   CryptoPayment.cleanupExpired now' swept = (swept, 0)).
Proof.
  cbv zeta. unfold CryptoPayment.cleanupExpired. cbn [fst snd].
  assert (forall p, In p (map (fun p => if CryptoPayment.stale now p
                                        then CryptoPayment.set_status p expired
                                        else p) l) ->
                    CryptoPayment.status p = pending ->
                    now <= CryptoPayment.expiresAt p) as Hafter.
  { intros p' Hin Hs. apply in_map_iff in Hin. destruct Hin as (p & Hp & _).
    destruct (CryptoPayment.stale now p) eqn:E.
    - subst p'. discriminate.
    - subst p'. unfold CryptoPayment.stale in E. rewrite Hs in E.
      cbn [Status_eqb andb] in E. apply Z.ltb_ge in E. exact E. }
  split; [|split; [|split; [exact Hafter|]]].
  - induction l as [|p r IH]; [constructor|]. cbn [map].
    constructor.
    + fold (CryptoPayment.stale now p).
      destruct (CryptoPayment.stale now p); reflexivity.
    + apply IH. intros q Hq. apply Hafter. right. exact Hq.
  - clear Hafter. induction l as [|p r IH]; [reflexivity|].
    cbn [map filter modified].
    destruct (CryptoPayment.stale now p) eqn:E.
    + apply stale_spec in E. destruct E as [Hs _].
      cbn [List.length CryptoPayment.set_status CryptoPayment.status].
      rewrite Hs. cbn [Status_eqb]. rewrite <- IH. lia.
    + assert (Status_eqb (CryptoPayment.status p) (CryptoPayment.status p)
              = true) as -> by (apply Status_eqb_eq; reflexivity).
      rewrite <- IH. reflexivity.
  - intros now' Hle. apply cleanup_nothing_stale. intros p Hin.
    destruct (CryptoPayment.stale now' p) eqn:E; [|reflexivity].
    apply stale_spec in E. destruct E as [Hs Hlt].
    specialize (Hafter p Hin Hs). lia.
Qed.

(** X17.  The pending listing.  [findPendingPayments] returns, in stored
    order, exactly the user's payments that are pending and expire after
    the clock.  None of them counts as expired for a submission at that
    time, and a sweep at that time, one millisecond later or any time
    earlier takes none of them away.  A pending payment that expires
    exactly at the clock is neither listed nor expired nor swept. *)
Theorem pending_listing_agrees_with_expiry (now : Z)
    (l : list CryptoPayment.t) (u : ObjectId) :
  (forall p, In p (CryptoPayment.findPendingPayments now l u)
             <-> In p l /\ CryptoPayment.userId p = u
                 /\ CryptoPayment.status p = pending
                 /\ now < CryptoPayment.expiresAt p)
  /\ (forall p, In p (CryptoPayment.findPendingPayments now l u) ->
                CryptoPayment.isExpired now p = false)
  /\ (forall now', now' <= now + 1 ->
        CryptoPayment.findPendingPayments now
          (fst (CryptoPayment.cleanupExpired now' l)) u
        = CryptoPayment.findPendingPayments now l u)
  /\ (forall p, In p l -> CryptoPayment.status p = pending ->
                CryptoPayment.expiresAt p = now ->
                ~ In p (CryptoPayment.findPendingPayments now l u)
                /\ CryptoPayment.isExpired now p = false
                /\ In p (fst (CryptoPayment.cleanupExpired now l))).
Proof.
  assert (forall p, In p (CryptoPayment.findPendingPayments now l u)
                    <-> In p l /\ CryptoPayment.userId p = u
                        /\ CryptoPayment.status p = pending
                        /\ now < CryptoPayment.expiresAt p) as Hspec.
  { intros p. unfold CryptoPayment.findPendingPayments.
    rewrite filter_In, !andb_true_iff, Nat.eqb_eq, Status_eqb_eq, Z.ltb_lt.
    tauto. }
  split; [exact Hspec|]. split; [|split].
  - intros p Hin. apply Hspec in Hin. destruct Hin as (_ & _ & _ & Hlt).
    unfold CryptoPayment.isExpired. apply Z.ltb_ge. lia.
  - intros now' Hle. unfold CryptoPayment.cleanupExpired. cbn [fst].
    unfold CryptoPayment.findPendingPayments.
    induction l as [|p r IH]; [reflexivity|]. cbn [map filter].
    assert ((forall q, In q (CryptoPayment.findPendingPayments now r u)
                       <-> In q r /\ CryptoPayment.userId q = u
                           /\ CryptoPayment.status q = pending
                           /\ now < CryptoPayment.expiresAt q)) as Hr.
    { intros q. unfold CryptoPayment.findPendingPayments.
      rewrite filter_In, !andb_true_iff, Nat.eqb_eq, Status_eqb_eq, Z.ltb_lt.
      tauto. }
    rewrite (IH Hr). clear IH Hr Hspec.
    destruct (CryptoPayment.stale now' p) eqn:E; [|reflexivity].
    apply stale_spec in E. destruct E as [Hs Hlt].
    cbn [CryptoPayment.set_status CryptoPayment.status CryptoPayment.userId
         CryptoPayment.expiresAt Status_eqb].
    rewrite andb_false_r. cbn [andb].
    assert ((now <? CryptoPayment.expiresAt p) = false) as ->
      by (apply Z.ltb_ge; lia).
    rewrite andb_false_r. reflexivity.
  - intros p Hin Hs He. split; [|split].
    + intros H. apply Hspec in H. lia.
    + unfold CryptoPayment.isExpired. apply Z.ltb_ge. lia.
    + unfold CryptoPayment.cleanupExpired. cbn [fst]. apply in_map_iff.
      exists p. split; [|exact Hin].
      assert (CryptoPayment.stale now p = false) as ->; [|reflexivity].
      unfold CryptoPayment.stale. rewrite Hs. cbn [Status_eqb andb].
      apply Z.ltb_ge. lia.
Qed.
(* ================================================================== *)
(** * routes/payments: POST /create-crypto-payment *)
(* ================================================================== *)

Lemma appended_is_found (l : list CryptoPayment.t) (p : CryptoPayment.t) :
  existsb (fun q => String.eqb (CryptoPayment.paymentId q)
                      (CryptoPayment.paymentId p)) l = false ->
  CryptoPayment.findByPaymentId l (CryptoPayment.paymentId p) = None
  /\ CryptoPayment.findByPaymentId (l ++ [p]) (CryptoPayment.paymentId p)
     = Some p.
Proof.
  induction l as [|q r IH]; cbn [existsb app CryptoPayment.findByPaymentId].
  - intros _. rewrite String.eqb_refl. auto.
  - intros H. apply orb_false_iff in H. destruct H as [Hq Hr].
    rewrite Hq. exact (IH Hr).
Qed.

Lemma create_admits (l l' : list CryptoPayment.t) (p : CryptoPayment.t) :
  CryptoPayment.create l p = Done l' ->
  existsb (fun q => String.eqb (CryptoPayment.paymentId q)
                      (CryptoPayment.paymentId p)) l = false.
Proof.
  unfold CryptoPayment.create.
  destruct (CryptoPayment.castable _); [|discriminate].
  destruct (existsb _ l); [discriminate | reflexivity].
Qed.

(** X18.  A created payment request is stored as the reply describes it.
    When POST /create-crypto-payment replies with a payment, the payment id
    of the reply was not in use before and now finds one new document, the
    last of the collection: pending, owned by the caller, for the active
    plan requested and at its price, on the requested network with that
    network's token and configured wallet, without a transaction hash, and
    with the wallet address, memo and expiry the reply carries.  Users,
    plans, the ledger and the rate cache are as they were. *)
Theorem created_payment_is_stored_as_replied (env : Env) (w : CreateWorld)
    (req : CreateRequest) (st : State) (data : CreatedData) :
  body (fst (createCryptoPayment env w req st)) = Created data ->
  let after := snd (createCryptoPayment env w req st) in
  exists p plan,
    stored_payment st (data_paymentId data) = None
    /\ stored_payment after (data_paymentId data) = Some p
    /\ payments (db after) = (payments (db st) ++ [p])%list
    /\ CryptoPayment._id p = next_id (db st)
    /\ CryptoPayment.userId p = create_user req
    /\ CryptoPayment.status p = pending
    /\ CryptoPayment.transactionHash p = None
    /\ PaymentPlan.findById (plans (db st)) (CryptoPayment.planId p) = Some plan
    /\ body_planId req = Some (Casts (CryptoPayment.planId p))
    /\ PaymentPlan.isActive plan = true
    /\ CryptoPayment.amount p = PaymentPlan.price plan
    /\ data_price data = PaymentPlan.price plan
    /\ body_network req = Some (Network_name (CryptoPayment.network p))
    /\ data_network data = CryptoPayment.network p
    /\ data_token data = CryptoPayment.token p
    /\ CryptoPayment.token p
       = match CryptoPayment.network p with BEP20 => USDT | SOL => SOLcoin end
    /\ data_walletAddress data = CryptoPayment.walletAddress p
    /\ data_memo data = CryptoPayment.memo p
    /\ data_expiresAt data = CryptoPayment.expiresAt p
    /\ users (db after) = users (db st)
    /\ plans (db after) = plans (db st)
    /\ transactions (db after) = transactions (db st)
    /\ cache after = cache st.
Proof.
  intros Hbody after. unfold after.
  destruct (create_effect env w req st)
    as [(_ & Hf & _)|(p & plan & minutes & Hc & Hid & Hu & Hplan & Hreq & Hfind
                      & Hact & Hamt & Hs & Hh & _ & _ & Hnet & Hwal & Htok & _
                      & Hexp & Hst & Hreply)].
  { rewrite Hbody in Hf. discriminate. }
  rewrite Hreply in Hbody. cbn [body] in Hbody. inversion Hbody; subst data.
  cbn [data_paymentId data_price data_network data_token data_walletAddress
       data_memo data_expiresAt].
  rewrite Hst. cbn [db users plans payments transactions cache].
  destruct (appended_is_found _ p (create_admits _ _ _ Hc)) as [Hnew Hfound].
  exists p, plan. unfold stored_payment. cbn [db payments].
  rewrite Hplan.
  repeat split; try assumption; try reflexivity.
Qed.

(** Alice's request of the sample plan on the SOL network. *)
Lemma created_payment_is_stored_as_replied_witness :
  exists p,
    stored_payment Sample.requested "crypto-1000-4fzyo82mv" = Some p
    /\ CryptoPayment.userId p = 1%nat
    /\ CryptoPayment.status p = pending.
Proof.
  destruct (created_payment_is_stored_as_replied Sample.env Sample.create_world
              Sample.create_by_alice Sample.registered
              (mkCreatedData "crypto-1000-4fzyo82mv" "So1WalletAddr"
                 (Js.of_ratio 999 100) SOLcoin SOL "TXN-000001-yo82mv"
                 1801001 "Starter" (Js.of_Z 50))
              ltac:(vm_compute; reflexivity))
    as (p & plan & _ & Hp & _ & _ & Hu & Hs & _).
  exists p. repeat split; assumption.
Defined.

(** X19.  A refused creation writes nothing.  Every reply of
    POST /create-crypto-payment that is not a success carries the status
    400, 404 or 500 and leaves the state exactly as it was; in particular a
    missing or unknown network is answered 400, an unknown or inactive plan
    404, an unknown user 404, a network whose wallet address is not
    configured, or is the all-zero placeholder, 500, and a plan id that
    does not cast to an ObjectId 500 with the message of the cast error. *)
Theorem refused_creation_writes_nothing (env : Env) (w : CreateWorld)
    (req : CreateRequest) (st : State) :
  (success (body (fst (createCryptoPayment env w req st))) = false ->
   snd (createCryptoPayment env w req st) = st
   /\ (code (fst (createCryptoPayment env w req st)) = 400
       \/ code (fst (createCryptoPayment env w req st)) = 404
       \/ code (fst (createCryptoPayment env w req st)) = 500))
  /\ (forall planId name,
        body_planId req = Some planId -> body_network req = Some name ->
        name <> "BEP20" -> name <> "SOL" ->
        code (fst (createCryptoPayment env w req st)) = 400)
  /\ (forall planId name,
        body_planId req = Some (Casts planId) ->
        body_network req = Some name ->
        name = "BEP20" \/ name = "SOL" ->
        match PaymentPlan.findById (plans (db st)) planId with
        | Some plan => PaymentPlan.isActive plan = false
        | None => True
        end ->
        fst (createCryptoPayment env w req st)
        = mkResponse 404 (Failure "Payment plan not found or inactive" false))
  /\ (forall planId name plan,
        body_planId req = Some (Casts planId) ->
        body_network req = Some name ->
        name = "BEP20" \/ name = "SOL" ->
        PaymentPlan.findById (plans (db st)) planId = Some plan ->
        PaymentPlan.isActive plan = true ->
        User.findById (users (db st)) (create_user req) = None ->
        fst (createCryptoPayment env w req st)
        = mkResponse 404 (Failure "User not found" false))
  /\ (forall planId plan user,
        body_planId req = Some (Casts planId) ->
        PaymentPlan.findById (plans (db st)) planId = Some plan ->
        PaymentPlan.isActive plan = true ->
        User.findById (users (db st)) (create_user req) = Some user ->
        (body_network req = Some "BEP20"
         /\ configured (BEP20_WALLET_ADDRESS env) BEP20_PLACEHOLDER
            = BEP20_PLACEHOLDER)
        \/ (body_network req = Some "SOL"
            /\ configured (SOL_WALLET_ADDRESS env) SOL_PLACEHOLDER
               = SOL_PLACEHOLDER) ->
        fst (createCryptoPayment env w req st)
        = mkResponse 500
            (Failure "Crypto payment is not configured. Please contact support."
               false))
  /\ (forall e name,
        body_planId req = Some (NoCast e) -> body_network req = Some name ->
        name = "BEP20" \/ name = "SOL" ->
        fst (createCryptoPayment env w req st)
        = mkResponse 500
            (FailureWithDetails "Failed to create crypto payment" e)).
Proof.
  split; [|split; [|split; [|split; [|split]]]].
  - intros Hf.
    destruct (create_effect env w req st)
      as [(Hst & _ & Hcode)|(p & plan & minutes & H)]; [auto|].
    destruct H as (_ & _ & _ & _ & _ & _ & _ & _ & _ & _ & _ & _ & _ & _ & _
                   & _ & _ & _ & Hreply).
    rewrite Hreply in Hf. discriminate.
  - intros planId name Hp Hn Hb Hs.
    unfold createCryptoPayment, handle, createCryptoPayment_try.
    rewrite Hp, Hn. destruct (negb (Js.nonempty name)); [reflexivity|].
    apply String.eqb_neq in Hb, Hs. rewrite Hb, Hs. reflexivity.
  - intros planId name Hp Hn Hname Hplan.
    unfold createCryptoPayment, handle, createCryptoPayment_try.
    rewrite Hp, Hn.
    assert (Js.nonempty name = true) as ->
      by (destruct Hname as [->| ->]; reflexivity).
    cbn [negb].
    assert (exists network,
              (if String.eqb name "BEP20" then Some BEP20
               else if String.eqb name "SOL" then Some SOL else None)
              = Some network) as (network & ->)
      by (destruct Hname as [->| ->]; eexists; reflexivity).
    unfold bind, read_db.
    destruct (PaymentPlan.findById (plans (db st)) planId) as [plan|];
      [|reflexivity].
    rewrite Hplan. reflexivity.
  - intros planId name plan Hp Hn Hname Hplan Hact Huser.
    unfold createCryptoPayment, handle, createCryptoPayment_try.
    rewrite Hp, Hn.
    assert (Js.nonempty name = true) as ->
      by (destruct Hname as [->| ->]; reflexivity).
    cbn [negb].
    assert (exists network,
              (if String.eqb name "BEP20" then Some BEP20
               else if String.eqb name "SOL" then Some SOL else None)
              = Some network) as (network & ->)
      by (destruct Hname as [->| ->]; eexists; reflexivity).
    unfold bind, read_db. rewrite Hplan, Hact, Huser. reflexivity.
  - intros planId plan user Hp Hplan Hact Huser Hwallet.
    unfold createCryptoPayment, handle, createCryptoPayment_try.
    rewrite Hp.
    destruct Hwallet as [(-> & Hw)|(-> & Hw)];
      change (String.eqb "SOL" "BEP20") with false;
      rewrite ?String.eqb_refl; cbn [negb Js.nonempty];
      unfold bind, read_db; rewrite Hplan, Hact, Huser; cbn [negb];
      rewrite Hw; reflexivity.
  - intros e name Hp Hn Hname.
    unfold createCryptoPayment, handle, createCryptoPayment_try.
    rewrite Hp, Hn.
    destruct Hname as [->| ->]; reflexivity.
Qed.

(** The expiry of a created payment is a time a [Date] holds. *)
Lemma created_expiry_in_range (env : Env) (w : CreateWorld)
    (req : CreateRequest) (st : State) (data : CreatedData) :
  body (fst (createCryptoPayment env w req st)) = Created data ->
  Z.abs (data_expiresAt data) <= MAX_DATE.
Proof.
  destruct (createCryptoPayment env w req st) as [r st'] eqn:Heq.
  cbn [fst snd]. revert Heq.
  unfold createCryptoPayment, handle, createCryptoPayment_try.
  destruct (body_planId req) as [planId|];
    [|intros H; inversion H; discriminate].
  destruct (body_network req) as [name|];
    [|intros H; inversion H; discriminate].
  destruct (negb (Js.nonempty name)); [intros H; inversion H; discriminate|].
  destruct (if String.eqb name "BEP20" then Some BEP20
            else if String.eqb name "SOL" then Some SOL else None)
    as [network|]; [|intros H; inversion H; discriminate].
  unfold bind at 1. unfold read_db at 1.
  destruct planId as [planId|e]; [|intros H; inversion H; discriminate].
  destruct (PaymentPlan.findById (plans (db st)) planId) as [plan|];
    [|intros H; inversion H; discriminate].
  destruct (negb (PaymentPlan.isActive plan));
    [intros H; inversion H; discriminate|].
  destruct (User.findById (users (db st)) (create_user req)) as [user|];
    [|intros H; inversion H; discriminate].
  destruct (match network with
            | BEP20 => _
            | SOL => _
            end) as [walletAddress token].
  destruct (String.eqb walletAddress BEP20_PLACEHOLDER
            || String.eqb walletAddress SOL_PLACEHOLDER);
    [intros H; inversion H; discriminate|].
  destruct (Js.parseInt _) as [expiryMinutes|];
    [|intros H; inversion H; discriminate].
  cbv zeta.
  destruct (MAX_DATE <? Z.abs _) eqn:Hrange;
    [intros H; inversion H; discriminate|].
  apply Z.ltb_ge in Hrange.
  match goal with
  | |- context [insert_payment ?doc] => set (d := doc)
  end.
  destruct (insert_payment_cases d st) as [(l' & Hc & Hi)|(e & Hi)].
  - rewrite (bind_Next _ _ _ _ _ Hi). unfold ret.
    intros H. inversion H; subst r st'; clear H.
    cbn [body]. intros H. inversion H; subst data; clear H.
    cbn [data_expiresAt]. exact Hrange.
  - rewrite (bind_Raise _ _ _ _ _ Hi). intros H; inversion H; discriminate.
Qed.

(** X20.  The expiry of a created payment.  The minutes are read with
    [parseInt] from CRYPTO_PAYMENT_EXPIRY_MINUTES, or from '30' when that
    is unset or empty: a created payment expires that many minutes after
    the clock, 30 minutes by default.  When the setting does not start with
    a number, no payment can be created: every request that passes the
    checks is answered 500 and nothing is written.  The same holds when
    the expiry would lie outside the times a [Date] holds, 8.64e15
    milliseconds either side of the epoch: the expiry of a created payment
    lies within them. *)
Theorem expiry_minutes_are_parsed (env : Env) (w : CreateWorld)
    (req : CreateRequest) (st : State) :
  (forall data,
      body (fst (createCryptoPayment env w req st)) = Created data ->
      exists minutes,
        Js.parseInt (match CRYPTO_PAYMENT_EXPIRY_MINUTES env with
                     | Some s => if Js.nonempty s then s else "30"
                     | None => "30"
                     end) = Some minutes
        /\ data_expiresAt data = now_expiry w + minutes * 60 * 1000)
  /\ (forall data,
        body (fst (createCryptoPayment env w req st)) = Created data ->
        is_set (CRYPTO_PAYMENT_EXPIRY_MINUTES env) = false ->
        data_expiresAt data = now_expiry w + 1800000)
  /\ (forall s,
        CRYPTO_PAYMENT_EXPIRY_MINUTES env = Some s ->
        Js.nonempty s = true -> Js.parseInt s = None ->
        success (body (fst (createCryptoPayment env w req st))) = false
        /\ snd (createCryptoPayment env w req st) = st)
  /\ (forall data,
        body (fst (createCryptoPayment env w req st)) = Created data ->
        Z.abs (data_expiresAt data) <= 8640000000000000)
  /\ (forall minutes,
        Js.parseInt (match CRYPTO_PAYMENT_EXPIRY_MINUTES env with
                     | Some s => if Js.nonempty s then s else "30"
                     | None => "30"
                     end) = Some minutes ->
        8640000000000000 < Z.abs (now_expiry w + minutes * 60 * 1000) ->
        success (body (fst (createCryptoPayment env w req st))) = false
        /\ snd (createCryptoPayment env w req st) = st).
Proof.
  assert (forall data,
            body (fst (createCryptoPayment env w req st)) = Created data ->
            exists minutes,
              Js.parseInt (match CRYPTO_PAYMENT_EXPIRY_MINUTES env with
                           | Some s => if Js.nonempty s then s else "30"
                           | None => "30"
                           end) = Some minutes
              /\ data_expiresAt data = now_expiry w + minutes * 60 * 1000)
    as Hmin.
  { intros data Hbody.
    destruct (create_effect env w req st)
      as [(_ & Hf & _)|(p & plan & minutes & H)].
    { rewrite Hbody in Hf. discriminate. }
    destruct H as (_ & _ & _ & _ & _ & _ & _ & _ & _ & _ & _ & _ & _ & _ & _
                   & Hparse & Hexp & _ & Hreply).
    rewrite Hreply in Hbody. cbn [body] in Hbody. inversion Hbody; subst data.
    exists minutes. cbn [data_expiresAt]. auto. }
  split; [exact Hmin|]. split; [|split; [|split]].
  - intros data Hbody Hunset.
    destruct (Hmin data Hbody) as (minutes & Hparse & ->).
    unfold is_set in Hunset.
    destruct (CRYPTO_PAYMENT_EXPIRY_MINUTES env) as [s|].
    + rewrite Hunset in Hparse. vm_compute in Hparse.
      inversion Hparse; subst minutes. lia.
    + vm_compute in Hparse. inversion Hparse; subst minutes. lia.
  - intros s Hs Hne Hparse.
    destruct (create_effect env w req st)
      as [(Hst & Hf & _)|(p & plan & minutes & H)]; [auto|].
    destruct H as (_ & _ & _ & _ & _ & _ & _ & _ & _ & _ & _ & _ & _ & _ & _
                   & Hp & _).
    rewrite Hs, Hne, Hparse in Hp. discriminate.
  - intros data Hbody.
    exact (created_expiry_in_range env w req st data Hbody).
  - intros minutes Hparse Hout.
    destruct (create_effect env w req st)
      as [(Hst & Hf & _)|(p & plan & minutes' & H)]; [auto|].
    destruct H as (_ & _ & _ & _ & _ & _ & _ & _ & _ & _ & _ & _ & _ & _ & _
                   & Hp & Hexp & _ & Hreply).
    rewrite Hparse in Hp. inversion Hp; subst minutes'.
    pose proof (created_expiry_in_range env w req st _
                  (f_equal body Hreply)) as Hin.
    cbn [data_expiresAt] in Hin. rewrite Hexp in Hin.
    unfold MAX_DATE in Hin. lia.
Qed.


(* ================================================================== *)
(** * routes/payments: GET /crypto-status/:paymentId *)
(* ================================================================== *)

(** X21.  The status route reports the stored payment.  Right after a
    creation, the owner's status request for the payment id of the reply is
    answered with [pending], no hash, no error, the expiry of the reply,
    and [isExpired] telling whether that expiry lies before the clock.
    After a call of POST /verify-crypto-transaction that replied with a
    success or wrote the ledger, the caller's status request for the
    payment id of that call reports [confirmed].  The route only reports: for a payment that is
    still pending after its expiry it answers [pending] together with
    [isExpired = true]. *)
Theorem status_reports_the_stored_payment (now : Z) :
  (forall env w req st data,
      body (fst (createCryptoPayment env w req st)) = Created data ->
      cryptoStatus now
        (mkStatusRequest (create_user req) (data_paymentId data))
        (snd (createCryptoPayment env w req st))
      = mkStatusResponse 200
          (StatusOk (mkStatusData pending None None None (data_expiresAt data)
                       (data_expiresAt data <? now))))
  /\ (forall env w req st,
        success (body (fst (verifyCryptoTransaction env w req st))) = true
        \/ transactions (db (snd (verifyCryptoTransaction env w req st)))
           <> transactions (db st) ->
        exists pid d,
          body_paymentId req = Some pid
          /\ cryptoStatus now (mkStatusRequest (verify_user req) pid)
               (snd (verifyCryptoTransaction env w req st))
             = mkStatusResponse 200 (StatusOk d)
          /\ sd_status d = confirmed)
  /\ (forall st pid p,
        stored_payment st pid = Some p ->
        CryptoPayment.status p = pending ->
        CryptoPayment.expiresAt p < now ->
        exists d,
          cryptoStatus now (mkStatusRequest (CryptoPayment.userId p) pid) st
          = mkStatusResponse 200 (StatusOk d)
          /\ sd_status d = pending /\ sd_isExpired d = true).
Proof.
  split; [|split].
  - intros env w req st data Hbody.
    destruct (create_effect env w req st)
      as [(_ & Hf & _)|(p & plan & minutes & Hc & _ & Hu & _ & _ & _ & _ & _
                        & Hs & Hh & He & Hca & _ & _ & _ & _ & _ & Hst
                        & Hreply)].
    { rewrite Hbody in Hf. discriminate. }
    rewrite Hreply in Hbody. cbn [body] in Hbody. inversion Hbody; subst data.
    cbn [data_paymentId data_expiresAt]. rewrite Hst.
    unfold cryptoStatus. cbn [db payments param_paymentId status_user].
    rewrite (proj2 (appended_is_found _ p (create_admits _ _ _ Hc))).
    rewrite Hu, Nat.eqb_refl. cbn [negb].
    rewrite Hs, Hh, He, Hca. reflexivity.
  - intros env w req st Hok.
    destruct (verify_confirms_or_declines env w req st)
      as [(Hf & Ht)|(pid & h & p & Hn & Hst & Hu & Hs)].
    { exfalso. destruct Hok as [Hok|Hne];
        [rewrite Hf in Hok; discriminate | exact (Hne Ht)]. }
    exists pid. eexists. split; [apply Hn|].
    unfold cryptoStatus. cbn [param_paymentId status_user].
    unfold stored_payment in Hst. rewrite Hst, Hu, Nat.eqb_refl. cbn [negb].
    split; [reflexivity|]. exact Hs.
  - intros st pid p Hst Hs He. eexists.
    unfold cryptoStatus. cbn [param_paymentId status_user].
    unfold stored_payment in Hst. rewrite Hst, Nat.eqb_refl. cbn [negb].
    split; [reflexivity|]. cbn [sd_status sd_isExpired]. split; [exact Hs|].
    unfold CryptoPayment.isExpired. apply Z.ltb_lt. exact He.
Qed.

(** X22.  Payments are private to their owner.  For a payment id that is
    not stored, the submission and the status request are answered 404; for
    a stored payment and a caller who is not its owner both are answered
    403, whatever else the request holds, and the submission leaves the
    state exactly as it was: the verifier is not consulted and nothing is
    written. *)
Theorem payments_are_private_to_their_owner (env : Env) (w : World)
    (st : State) (caller : ObjectId) (pid h : string) (now : Z) :
  Js.nonempty pid = true -> Js.nonempty h = true ->
  match stored_payment st pid with
  | None =>
      verifyCryptoTransaction env w
        (mkVerifyRequest caller (Some pid) (Some h)) st
      = (mkResponse 404 (Failure "Payment not found" false), st)
      /\ cryptoStatus now (mkStatusRequest caller pid) st
         = mkStatusResponse 404 (StatusFailure "Payment not found")
  | Some cp =>
      CryptoPayment.userId cp <> caller ->
      verifyCryptoTransaction env w
        (mkVerifyRequest caller (Some pid) (Some h)) st
      = (mkResponse 403 (Failure "Access denied" false), st)
      /\ cryptoStatus now (mkStatusRequest caller pid) st
         = mkStatusResponse 403 (StatusFailure "Access denied")
  end.
Proof.
  intros Hp Hh. unfold stored_payment.
  destruct (CryptoPayment.findByPaymentId (payments (db st)) pid) as [cp|]
    eqn:Hst.
  - intros Hne. apply Nat.eqb_neq in Hne. split.
    + rewrite verify_unfold. unfold handle, verifyCryptoTransaction_try.
      unfold load_payment at 1.
      cbn [body_paymentId body_txnHash verify_user]. rewrite Hp, Hh.
      cbn [andb]. unfold bind, read_db. rewrite Hst, Hne. reflexivity.
    + unfold cryptoStatus. cbn [param_paymentId status_user].
      rewrite Hst, Hne. reflexivity.
  - split.
    + rewrite verify_unfold. unfold handle, verifyCryptoTransaction_try.
      unfold load_payment at 1.
      cbn [body_paymentId body_txnHash verify_user]. rewrite Hp, Hh.
      cbn [andb]. unfold bind, read_db. rewrite Hst. reflexivity.
    + unfold cryptoStatus. cbn [param_paymentId status_user].
      rewrite Hst. reflexivity.
Qed.

(** Bob asks for, and submits a hash for, Alice's request. *)
Lemma payments_are_private_to_their_owner_witness :
  verifyCryptoTransaction Sample.env
    (Sample.world 1500 1600 Sample.bsc_down (Sample.sol_node 1000000000)
       (Js.of_Z 20))
    (mkVerifyRequest 2%nat (Some "crypto-1000-aaaaaaaaa") (Some "SIG1"))
    (Sample.state [Sample.sol_request])
  = (mkResponse 403 (Failure "Access denied" false),
     Sample.state [Sample.sol_request])
  /\ cryptoStatus 1500 (mkStatusRequest 2%nat "crypto-1000-aaaaaaaaa")
       (Sample.state [Sample.sol_request])
     = mkStatusResponse 403 (StatusFailure "Access denied").
Proof.
  apply (payments_are_private_to_their_owner Sample.env
           (Sample.world 1500 1600 Sample.bsc_down
              (Sample.sol_node 1000000000) (Js.of_Z 20))
           (Sample.state [Sample.sol_request]) 2%nat "crypto-1000-aaaaaaaaa"
           "SIG1" 1500 eq_refl eq_refl).
  simpl. discriminate.
Defined.

(* ================================================================== *)
(** * routes/payments: what a call commits *)
(* ================================================================== *)

Lemma untouched_refl (st : State) : untouched st st.
Proof. split; reflexivity. Qed.

Lemma untouched_trans (a b c : State) :
  untouched a b -> untouched b c -> untouched a c.
Proof. intros [H1 H2] [H3 H4]. split; congruence. Qed.

Lemma untouched_payments (st : State) (l : list CryptoPayment.t) :
  untouched st (with_payments st l).
Proof. split; reflexivity. Qed.

Lemma untouched_cache (st : State) (c : Cache) (n : nat) :
  untouched st (mkState (db st) c n).
Proof. split; reflexivity. Qed.

Lemma commits_after (req : VerifyRequest) (h : string) (a b c : State)
    (s : Step Response) :
  untouched a b -> commits req h b s c -> commits req h a s c.
Proof.
  intros [Ht Hu] [Hbc|(t & e & Hs & Hnone & Happ & Husers & Hrest)].
  - left. exact (untouched_trans _ _ _ (conj Ht Hu) Hbc).
  - right. exists t, e. rewrite <- Ht, <- Hu. auto.
Qed.

Lemma commits_bind {A} (req : VerifyRequest) (h : string) (m : Route A)
    (k : A -> Route Response) :
  respects untouched m ->
  (forall a st, commits req h st (fst (k a st)) (snd (k a st))) ->
  forall st, commits req h st (fst (bind m k st)) (snd (bind m k st)).
Proof.
  intros Hm Hk st. unfold bind. specialize (Hm st).
  destruct (m st) as [[a|r|e] st1]; cbn [fst snd] in *.
  - exact (commits_after _ _ _ _ _ _ Hm (Hk a st1)).
  - left. exact Hm.
  - left. exact Hm.
Qed.

Lemma valid_quota (d : Transaction.t) :
  Transaction.valid d = true -> Js.le 1 (Transaction.quotaAmount d) = true.
Proof.
  unfold Transaction.valid. intros H.
  repeat (apply andb_true_iff in H; destruct H as [H ?]).
  assumption.
Qed.

(** The commit: nothing, or the one entry and the throw. *)
Lemma settle_commits (req : VerifyRequest) (plan : PaymentPlan.t)
    (user : User.t) (c : Conversion) (v : VerificationData) (h : string)
    (st : State) :
  commits req h st (fst (settle req plan user c v h st))
    (snd (settle req plan user c v h st)).
Proof.
  destruct (Transaction.findByCryptoHash (transactions (db st)) h) as [t|]
    eqn:Hfind.
  - rewrite (settle_existing req plan user c v h st t Hfind). left.
    apply untouched_refl.
  - destruct (Transaction.create (transactions (db st)) (next_id (db st))
                (ledger_entry req plan c v h)) as [[t l']|e] eqn:Hc.
    + rewrite (settle_new req plan user c v h st t l' Hfind Hc).
      cbn [fst snd]. right.
      destruct (create_done _ _ _ _ _ Hc) as (-> & -> & Hv & _).
      eexists. eexists. split; [reflexivity|].
      split; [exact Hfind|]. split; [reflexivity|]. split; [reflexivity|].
      repeat split. exact (valid_quota _ Hv).
    + left. unfold settle. unfold bind at 1. unfold read_db at 1.
      rewrite Hfind. unfold create_transaction, bind, read_db, attempt.
      rewrite Hc. apply untouched_refl.
Qed.

(** X23.  No call grants credits.  A call of
    POST /verify-crypto-transaction never writes an account or a plan.  It
    leaves the ledger as it was, unless it appends exactly one entry: an
    entry of the caller for the submitted hash, which the ledger did not
    hold before, marked succeeded and paid by crypto, with a credit count
    of at least 1; after that entry the call throws at [user.addQuota], and
    the reply is the internal error, sent with status 500.  So a reply with
    [success = true] has written nothing to the ledger either. *)
Theorem verification_never_credits (env : Env) (w : World)
    (req : VerifyRequest) (st : State) :
  let reply := fst (verifyCryptoTransaction env w req st) in
  let after := snd (verifyCryptoTransaction env w req st) in
  users (db after) = users (db st)
  /\ plans (db after) = plans (db st)
  /\ (transactions (db after) = transactions (db st)
      \/ exists t h,
           body_txnHash req = Some h
           /\ reply
              = mkResponse 500
                  (Failure "Failed to verify crypto transaction" false)
           /\ Transaction.findByCryptoHash (transactions (db st)) h = None
           /\ transactions (db after) = (transactions (db st) ++ [t])%list
           /\ Transaction.cryptoTransactionHash t = Some h
           /\ Transaction.userId t = verify_user req
           /\ Transaction.status t = "succeeded"
           /\ Transaction.paymentMethod t = "crypto"
           /\ Js.le 1 (Transaction.quotaAmount t) = true)
  /\ (success (body reply) = true ->
      transactions (db after) = transactions (db st)).
Proof.
  cbv zeta.
  assert (plans (db (snd (verifyCryptoTransaction env w req st)))
          = plans (db st)) as Hplans.
  { apply (respects_verify (fun a b => plans (db b) = plans (db a))).
    - reflexivity.
    - intros a b c Hab Hbc. congruence.
    - reflexivity.
    - reflexivity.
    - intros plan user c v h s. unfold settle. unfold bind at 1.
      unfold read_db at 1.
      destruct (Transaction.findByCryptoHash (transactions (db s)) h);
        [reflexivity|].
      destruct (create_transaction_cases (ledger_entry req plan c v h) s)
        as [(t & l' & _ & Hc)|(e & Hc)].
      + rewrite (bind_Next _ _ _ _ _ Hc). reflexivity.
      + rewrite (bind_Raise _ _ _ _ _ Hc). reflexivity. }
  assert (users (db (snd (verifyCryptoTransaction env w req st)))
          = users (db st)) as Husers.
  { apply (respects_verify (fun a b => users (db b) = users (db a))).
    - reflexivity.
    - intros a b c Hab Hbc. congruence.
    - reflexivity.
    - reflexivity.
    - intros plan user c v h s.
      destruct (settle_commits req plan user c v h s)
        as [[_ Hu]|(t & e & _ & _ & _ & Hu & _)]; exact Hu. }
  split; [exact Husers|]. split; [exact Hplans|].
  rewrite verify_unfold. unfold handle, verifyCryptoTransaction_try.
  destruct (load_payment_cases req st)
    as [(pid & h & cp & Hn & Hst & Hu & Hl)|(r & Hl & Hr)].
  2:{ rewrite (bind_Reply _ _ _ _ _ Hl). cbn [fst snd].
      split; [left; reflexivity|]. intros _. reflexivity. }
  rewrite (bind_Next _ _ _ _ _ Hl). cbn [fst snd].
  pose proof
    (commits_bind req h (submit w cp h)
       (fun cryptoPayment =>
          verificationData <- verify_on_chain env w cryptoPayment h ;;
          cryptoPayment <- mark_confirmed w cryptoPayment verificationData h ;;
          found <- load_plan_and_user req cryptoPayment ;;
          conversion <- convert env w cryptoPayment verificationData ;;
          settle req (fst found) (snd found) conversion verificationData h)
       (respects_submit untouched untouched_refl untouched_trans
          untouched_payments w cp h)) as Hchain.
  assert (forall a s,
    commits req h s
      (fst ((verificationData <- verify_on_chain env w a h ;;
             cryptoPayment <- mark_confirmed w a verificationData h ;;
             found <- load_plan_and_user req cryptoPayment ;;
             conversion <- convert env w cryptoPayment verificationData ;;
             settle req (fst found) (snd found) conversion verificationData h)
              s))
      (snd ((verificationData <- verify_on_chain env w a h ;;
             cryptoPayment <- mark_confirmed w a verificationData h ;;
             found <- load_plan_and_user req cryptoPayment ;;
             conversion <- convert env w cryptoPayment verificationData ;;
             settle req (fst found) (snd found) conversion verificationData h)
              s))) as Hrest.
  { intros a. apply commits_bind.
    { apply (respects_verify_on_chain untouched untouched_refl
               untouched_trans untouched_payments). }
    intros v. apply commits_bind.
    { apply (respects_mark_confirmed untouched untouched_refl
               untouched_trans untouched_payments). }
    intros cp2. apply commits_bind.
    { apply (respects_load_plan_and_user untouched untouched_refl
               untouched_trans). }
    intros found. apply commits_bind.
    { apply (respects_convert untouched untouched_refl untouched_trans
               untouched_payments untouched_cache). }
    intros c. apply settle_commits. }
  specialize (Hchain Hrest st).
  assert (transactions
            (db (snd (handle
                        (cryptoPayment <- submit w cp h ;;
                         verificationData <- verify_on_chain env w
                                               cryptoPayment h ;;
                         cryptoPayment0 <- mark_confirmed w cryptoPayment
                                             verificationData h ;;
                         found <- load_plan_and_user req cryptoPayment0 ;;
                         conversion <- convert env w cryptoPayment0
                                         verificationData ;;
                         settle req (fst found) (snd found) conversion
                           verificationData h)
                        (fun _ => internal_error) st)))
          = transactions (db st)
          \/ exists t,
               fst (handle
                      (cryptoPayment <- submit w cp h ;;
                       verificationData <- verify_on_chain env w
                                             cryptoPayment h ;;
                       cryptoPayment0 <- mark_confirmed w cryptoPayment
                                           verificationData h ;;
                       found <- load_plan_and_user req cryptoPayment0 ;;
                       conversion <- convert env w cryptoPayment0
                                       verificationData ;;
                       settle req (fst found) (snd found) conversion
                         verificationData h)
                      (fun _ => internal_error) st)
               = internal_error
               /\ Transaction.findByCryptoHash (transactions (db st)) h = None
               /\ transactions
                    (db (snd (handle
                                (cryptoPayment <- submit w cp h ;;
                                 verificationData <- verify_on_chain env w
                                                       cryptoPayment h ;;
                                 cryptoPayment0 <- mark_confirmed w
                                                     cryptoPayment
                                                     verificationData h ;;
                                 found <- load_plan_and_user req
                                            cryptoPayment0 ;;
                                 conversion <- convert env w cryptoPayment0
                                                 verificationData ;;
                                 settle req (fst found) (snd found) conversion
                                   verificationData h)
                                (fun _ => internal_error) st)))
                  = (transactions (db st) ++ [t])%list
               /\ Transaction.cryptoTransactionHash t = Some h
               /\ Transaction.userId t = verify_user req
               /\ Transaction.status t = "succeeded"
               /\ Transaction.paymentMethod t = "crypto"
               /\ Js.le 1 (Transaction.quotaAmount t) = true) as Hmain.
  { unfold handle.
    destruct Hchain as [[Ht _]|(t & e & Hs & Hnone & Happ & _ & Hrest')].
    - left. destruct (bind _ _ st) as [[r|r|e] st']; exact Ht.
    - right. exists t.
      destruct (bind _ _ st) as [[r'|r'|e'] st']; cbn [fst snd] in *;
        try discriminate.
      split; [reflexivity|]. split; [exact Hnone|]. split; [exact Happ|].
      exact Hrest'. }
  unfold handle in Hmain.
  split.
  - destruct Hmain as [Ht|(t & Hr & Hnone & Happ & Hrest')].
    + left. exact Ht.
    + right. exists t, h. split; [apply Hn|]. split; [exact Hr|].
      split; [exact Hnone|]. split; [exact Happ|]. exact Hrest'.
  - intros Hok. destruct Hmain as [Ht|(t & Hr & _)]; [exact Ht|].
    rewrite Hr in Hok. discriminate.
Qed.

(** With the expiry setting ['half an hour'], Alice's request is refused
    and nothing is stored. *)
Lemma expiry_minutes_are_parsed_witness :
  success (body (fst (createCryptoPayment Cases.env_bad_expiry
                        Sample.create_world Sample.create_by_alice
                        Sample.registered))) = false
  /\ snd (createCryptoPayment Cases.env_bad_expiry Sample.create_world
            Sample.create_by_alice Sample.registered) = Sample.registered.
Proof.
  apply (proj1 (proj2 (proj2 (expiry_minutes_are_parsed Cases.env_bad_expiry
                                Sample.create_world Sample.create_by_alice
                                Sample.registered))) "half an hour");
    reflexivity.
Defined.

(** A request for the network ['ETH'] is answered 400 and writes nothing. *)
Lemma refused_creation_writes_nothing_witness :
  snd (createCryptoPayment Sample.env Sample.create_world
         (mkCreateRequest 1%nat (Some (Casts 10%nat)) (Some "ETH")) Sample.registered)
  = Sample.registered
  /\ code (fst (createCryptoPayment Sample.env Sample.create_world
                  (mkCreateRequest 1%nat (Some (Casts 10%nat)) (Some "ETH"))
                  Sample.registered)) = 400.
Proof.
  split.
  - apply (proj1 (refused_creation_writes_nothing Sample.env
                    Sample.create_world
                    (mkCreateRequest 1%nat (Some (Casts 10%nat)) (Some "ETH"))
                    Sample.registered)).
    reflexivity.
  - apply (proj1 (proj2 (refused_creation_writes_nothing Sample.env
                           Sample.create_world
                           (mkCreateRequest 1%nat (Some (Casts 10%nat))
                              (Some "ETH"))
                           Sample.registered)) (Casts 10%nat) "ETH");
      solve [reflexivity | discriminate].
Defined.

(* ================================================================== *)
(** * models/PaymentPlan: the default plans *)
(* ================================================================== *)

Lemma find_app_cases {A} (f : A -> bool) (l a : list A) :
  find f (l ++ a)
  = match find f l with Some x => Some x | None => find f a end.
Proof.
  induction l as [|x r IH]; [reflexivity|]. cbn [app find].
  destruct (f x); [reflexivity | exact IH].
Qed.

Lemma find_none_all {A} (f : A -> bool) (l : list A) :
  (forall x, In x l -> f x = false) -> find f l = None.
Proof.
  induction l as [|x r IH]; intros H; [reflexivity|]. cbn [find].
  rewrite (H x (or_introl eq_refl)). apply IH. intros y Hy. apply H.
  right. exact Hy.
Qed.

(** Equal numbers are equal to the same numbers. *)
Lemma number_eqb_congr (x a q : float) :
  PrimFloat.eqb a q = true -> PrimFloat.eqb x a = PrimFloat.eqb x q.
Proof.
  rewrite !eqb_spec. unfold SFeqb.
  destruct (Prim2SF a) as [sa| sa| |sa ma ea],
           (Prim2SF q) as [sq| sq| |sq mq eq];
    cbn [SFcompare]; try discriminate;
    try (destruct sa, sq; discriminate).
  - intros _. destruct (Prim2SF x) as [?|?| |? ? ?]; reflexivity.
  - destruct sa, sq; try discriminate; intros _; reflexivity.
  - destruct sa, sq; try discriminate;
      destruct (Z.compare ea eq) eqn:He; try discriminate;
      destruct (Pos.compare_cont Eq ma mq) eqn:Hm; try discriminate;
      intros _; apply Z.compare_eq in He; apply Pos.compare_eq in Hm;
      subst; reflexivity.
Qed.

Lemma number_eqb_self (x : float) :
  Js.le 1 x = true -> PrimFloat.eqb x x = true.
Proof.
  unfold Js.le. rewrite leb_spec, eqb_spec. unfold SFleb, SFeqb.
  destruct (Prim2SF x) as [s|s| |s m e]; cbn [SFcompare];
    try discriminate; try (destruct s; reflexivity); try reflexivity.
  intros _. destruct s; rewrite Z.compare_refl;
    change (Pos.compare_cont Eq m m) with (Pos.compare m m);
    rewrite Pos.compare_refl; reflexivity.
Qed.

Lemma findByQuota_congr (l : list PlanDoc.t) (a q : float) :
  PrimFloat.eqb a q = true ->
  PlanDoc.findByQuota l a = PlanDoc.findByQuota l q.
Proof.
  intros H. unfold PlanDoc.findByQuota.
  induction l as [|p r IH]; [reflexivity|]. cbn [find].
  rewrite (number_eqb_congr (PlanDoc.quotaAmount p) a q H), IH.
  reflexivity.
Qed.

Lemma findByQuota_app (l a : list PlanDoc.t) (q : float) :
  PlanDoc.findByQuota (l ++ a) q
  = match PlanDoc.findByQuota l q with
    | Some x => Some x
    | None => PlanDoc.findByQuota a q
    end.
Proof. apply find_app_cases. Qed.

Lemma seed_adds (todo : list PlanDoc.data) :
  Forall (fun d => PlanDoc.valid d = true) todo ->
  forall l fresh, exists added,
    PlanDoc.seed todo l fresh
    = Done ((l ++ added)%list, Nat.add fresh (List.length added))
    /\ (forall d, In d todo ->
                  PlanDoc.findByQuota (l ++ added) (PlanDoc.d_quotaAmount d)
                  <> None)
    /\ (forall p, In p added ->
                  PlanDoc.findByQuota l (PlanDoc.quotaAmount p) = None
                  /\ exists d i, In d todo /\ p = PlanDoc.stored i d).
Proof.
  induction 1 as [|d rest Hv Hrest IH]; intros l fresh.
  - exists []. cbn [PlanDoc.seed List.length]. rewrite app_nil_r, Nat.add_0_r.
    split; [reflexivity|]. split; intros ? [].
  - cbn [PlanDoc.seed]. unfold PlanDoc.create. rewrite Hv.
    destruct (PlanDoc.findByQuota l (PlanDoc.d_quotaAmount d)) as [p0|]
      eqn:Hd.
    + destruct (IH l fresh) as (added & Hs & Hall & Hnew).
      exists added. split; [exact Hs|]. split.
      * intros d' [<-|Hin]; [|exact (Hall d' Hin)].
        rewrite findByQuota_app, Hd. discriminate.
      * intros p Hp. destruct (Hnew p Hp) as (Hn & d' & i & Hin & ->).
        split; [exact Hn|]. exists d', i. split; [right; exact Hin|].
        reflexivity.
    + destruct (IH (l ++ [PlanDoc.stored fresh d])%list (S fresh))
        as (added & Hs & Hall & Hnew).
      exists (PlanDoc.stored fresh d :: added).
      replace (l ++ PlanDoc.stored fresh d :: added)%list
        with ((l ++ [PlanDoc.stored fresh d]) ++ added)%list
        by (rewrite <- app_assoc; reflexivity).
      cbn [List.length]. rewrite Nat.add_succ_r.
      split; [exact Hs|]. split.
      * intros d' [<-|Hin]; [|exact (Hall d' Hin)].
        rewrite !findByQuota_app, Hd. unfold PlanDoc.findByQuota.
        cbn [find PlanDoc.stored PlanDoc.quotaAmount].
        rewrite number_eqb_self; [discriminate|].
        unfold PlanDoc.valid in Hv.
        destruct (Js.le 1 (PlanDoc.d_quotaAmount d)); [reflexivity|].
        rewrite !andb_false_r in Hv. cbn in Hv. discriminate.
      * intros p [<-|Hp].
        -- split; [exact Hd|]. exists d, fresh.
           split; [left|]; reflexivity.
        -- destruct (Hnew p Hp) as (Hn & d' & i & Hin & ->).
           split.
           ++ rewrite findByQuota_app in Hn.
              destruct (PlanDoc.findByQuota l
                          (PlanDoc.quotaAmount (PlanDoc.stored i d')));
                [discriminate | reflexivity].
           ++ exists d', i. split; [right; exact Hin | reflexivity].
Qed.

Lemma seed_again (todo : list PlanDoc.data) (l : list PlanDoc.t)
    (fresh : ObjectId) :
  (forall d, In d todo ->
             PlanDoc.findByQuota l (PlanDoc.d_quotaAmount d) <> None) ->
  PlanDoc.seed todo l fresh = Done (l, fresh).
Proof.
  induction todo as [|d rest IH]; intros H; [reflexivity|].
  cbn [PlanDoc.seed].
  destruct (PlanDoc.findByQuota l (PlanDoc.d_quotaAmount d)) eqn:Hd.
  - apply IH. intros d' Hin. apply H. right. exact Hin.
  - exfalso. apply (H d (or_introl eq_refl)). exact Hd.
Qed.

Lemma getPlanByQuota_kept (l added : list PlanDoc.t) (q : float) :
  PlanDoc.findByQuota l q <> None ->
  (forall p, In p added ->
             PlanDoc.findByQuota l (PlanDoc.quotaAmount p) = None) ->
  PlanDoc.getPlanByQuota (l ++ added) q = PlanDoc.getPlanByQuota l q.
Proof.
  intros Hq Hnew. unfold PlanDoc.getPlanByQuota. rewrite find_app_cases.
  destruct (find _ l); [reflexivity|]. apply find_none_all.
  intros p Hp.
  destruct (PrimFloat.eqb (PlanDoc.quotaAmount p) q) eqn:He;
    [|reflexivity].
  exfalso. apply Hq.
  rewrite <- (findByQuota_congr l _ _ He). exact (Hnew p Hp).
Qed.

(** X24.  The default plans are seeded once.  Whatever the collection
    holds, [initializeDefaultPlans] does not throw: it keeps every stored
    plan in place and appends a plan, active and in USD, for each of the
    quota amounts 20, 55 and 120 that no stored plan has.  Afterwards a
    plan is found for each of the three amounts, and a second run changes
    nothing.  A stored plan with one of the amounts, whatever its name,
    price or state, stands in for the default: for every amount that some
    stored plan has, [getPlanByQuota] answers after the seeding what it
    answered before, which is nothing if that plan is inactive. *)
Theorem default_plans_are_seeded_once
    (l : list PlanDoc.t) (fresh : ObjectId) :
  exists added,
    PlanDoc.initializeDefaultPlans l fresh
    = Done ((l ++ added)%list, Nat.add fresh (List.length added))
    /\ (forall d, In d PlanDoc.defaultPlans ->
                  PlanDoc.findByQuota (l ++ added) (PlanDoc.d_quotaAmount d)
                  <> None)
    /\ (forall p, In p added ->
                  PlanDoc.findByQuota l (PlanDoc.quotaAmount p) = None
                  /\ PlanDoc.isActive p = true
                  /\ PlanDoc.currency p = "USD"
                  /\ exists d i, In d PlanDoc.defaultPlans
                                 /\ p = PlanDoc.stored i d)
    /\ (forall q, PlanDoc.findByQuota l q <> None ->
                  PlanDoc.getPlanByQuota (l ++ added) q
                  = PlanDoc.getPlanByQuota l q)
    /\ PlanDoc.initializeDefaultPlans (l ++ added)
         (Nat.add fresh (List.length added))
       = Done ((l ++ added)%list, Nat.add fresh (List.length added)).
Proof.
  unfold PlanDoc.initializeDefaultPlans.
  assert (Forall (fun d => PlanDoc.valid d = true) PlanDoc.defaultPlans)
    as Hv by (repeat constructor).
  destruct (seed_adds PlanDoc.defaultPlans Hv l fresh)
    as (added & Hs & Hall & Hnew).
  exists added. split; [exact Hs|]. split; [exact Hall|]. split.
  - intros p Hp. destruct (Hnew p Hp) as (Hn & d & i & Hin & ->).
    split; [exact Hn|]. split; [reflexivity|]. split; [reflexivity|].
    exists d, i. split; [exact Hin | reflexivity].
  - split.
    + intros q Hq. apply getPlanByQuota_kept; [exact Hq|].
      intros p Hp. exact (proj1 (Hnew p Hp)).
    + apply seed_again. exact Hall.
Qed.
